(** * Fleet digital twins: the aggregation pipeline of [app.py]

    A shallow embedding of the data pipeline of the dashboard: the stats and
    maintenance fetchers, the twin builder [process_vehicle_data] with its
    alert evaluation, and the loop that builds the twin mapping.

    Modelling conventions.
    - A value that comes out of [response.json()] is a [json]: Python's
      [None], [bool], [int], [float], [str], [list] and [dict].
    - A Python [float] is an IEEE binary64 number, [spec_float] with
      precision 53 and maximal exponent 1024.
    - An operation the code applies without a check ([.get] on something that
      may not be a dict, iteration over something that may not be iterable)
      raises the Python exception in the model as well: such functions return
      a [result].
    - The HTTP server is an oracle: a function from the position of a request
      in the control flow and its parameters to a [response]. *)

From Stdlib Require Import ZArith String Ascii List Bool Lia.
From Stdlib Require Import SpecFloat.
From stdpp Require Import base option list gmap strings pretty.

Set Warnings "-register-all,-clear-no-such-hyp".
Open Scope Z_scope.
Open Scope string_scope.
Open Scope list_scope.

(** ** Python values *)

(** A parsed JSON document. A [dict] keeps its items in insertion order; a
    lookup takes the first item with the key. *)
Inductive json :=
  | JNull
  | JBool (b : bool)
  | JInt (z : Z)
  | JFloat (f : spec_float)
  | JStr (s : string)
  | JArr (l : list json)
  | JObj (kvs : list (string * json)).

Inductive exn :=
  | AttributeError
  | TypeError
  | KeyError
  | OverflowError
  | RequestException.

Inductive result (A : Type) :=
  | Ok (a : A)
  | Raise (e : exn).
Arguments Ok {A} a.
Arguments Raise {A} e.

#[global] Instance result_ret : MRet result := fun _ a => Ok a.
#[global] Instance result_bind : MBind result := fun _ _ k r =>
  match r with
  | Ok a => k a
  | Raise e => Raise e
  end.

Definition is_Ok {A} (r : result A) : Prop := exists a, r = Ok a.

(** ** Binary64 arithmetic as Python uses it *)

Module Float.

Definition prec : Z := 53.
Definition emax : Z := 1024.

Definition div : spec_float -> spec_float -> spec_float := SFdiv prec emax.

(** The double nearest to the integer [z] (exact when [|z| < 2^53]). *)
Definition of_Z (z : Z) : spec_float := binary_normalize prec emax z 0 false.

(** The double nearest to the quotient [a / b] of two integers, [b > 0]:
    the quotient is rounded once, to nearest-even. *)
Definition of_quot (a : Z) (b : positive) : spec_float :=
  match a with
  | Z0 => S754_zero false
  | Zpos p => div (S754_finite false p 0) (S754_finite false b 0)
  | Zneg p => div (S754_finite true p 0) (S754_finite false b 0)
  end.

(** The double a decimal literal [m * 10^-k] denotes, as in [2.05]. *)
Definition of_decimal (m : Z) (k : nat) : spec_float :=
  of_quot m (Z.to_pos (10 ^ Z.of_nat k)).

(** [n / d] rounded to the nearest integer, ties to even; [n >= 0]. *)
Definition div_half_even (n : Z) (d : positive) : Z :=
  let q := n / Zpos d in
  let r := n mod Zpos d in
  match 2 * r ?= Zpos d with
  | Lt => q
  | Gt => q + 1
  | Eq => if Z.even q then q else q + 1
  end.

(** [|x| * 10^2] rounded to the nearest integer, on the exact value of the
    double [m * 2^e]. *)
Definition scaled_round (m : positive) (e : Z) : Z :=
  match e with
  | Z0 => Zpos m * 100
  | Zpos p => Zpos m * 100 * Z.pow 2 (Zpos p)
  | Zneg p => div_half_even (Zpos m * 100) (Pos.pow 2 p)
  end.

(** [round(x, 2)] on a float:
    the exact value is rounded to two decimals (ties to even) and the decimal
    is read back as the nearest double; zeros, infinities and NaN round to
    themselves and the sign is kept. *)
Definition round2 (x : spec_float) : spec_float :=
  match x with
  | S754_finite s m e =>
      match scaled_round m e with
      | Zpos k => div (S754_finite s k 0) (S754_finite false 100 0)
      | _ => S754_zero s
      end
  | _ => x
  end.

End Float.

(** ** Python built-ins on JSON values *)

Section Pipeline.

(** [repr] of a float, a list or a dict, and
    [datetime.fromisoformat(s).strftime("%Y-%m-%d %H:%M:%S")], which is [None]
    where [fromisoformat] raises [ValueError]: library functions that the
    pipeline calls and whose text output no property below depends on. *)
Variable py_repr : json -> string.
Variable fromisoformat_strftime : string -> option string.

(** [bool(v)], the test of [if v:] and [not v]. *)
Definition truthy (v : json) : bool :=
  match v with
  | JNull => false
  | JBool b => b
  | JInt z => negb (Z.eqb z 0)
  | JFloat (S754_zero _) => false
  | JFloat _ => true
  | JStr s => negb (String.eqb s "")
  | JArr l => match l with [] => false | _ => true end
  | JObj kvs => match kvs with [] => false | _ => true end
  end.

(** [a or b] *)
Definition py_or (a b : json) : json := if truthy a then a else b.

Fixpoint assoc (k : string) (kvs : list (string * json)) : option json :=
  match kvs with
  | [] => None
  | (k', v) :: rest => if String.eqb k k' then Some v else assoc k rest
  end.

(** [v.get(k, dflt)]: only a dict has [get]. *)
Definition py_get (v : json) (k : string) (dflt : json) : result json :=
  match v with
  | JObj kvs => Ok (default dflt (assoc k kvs))
  | _ => Raise AttributeError
  end.

(** [str(v)], also what an f-string field [{v}] prints. *)
Definition py_str (v : json) : string :=
  match v with
  | JNull => "None"
  | JBool true => "True"
  | JBool false => "False"
  | JInt z => pretty z
  | JStr s => s
  | JFloat _ | JArr _ | JObj _ => py_repr v
  end.

(** [isinstance(v, (int, float))]; [bool] is a subclass of [int]. *)
Definition is_number (v : json) : bool :=
  match v with
  | JBool _ | JInt _ | JFloat _ => true
  | _ => false
  end.

(** [round(v, 2)] for a [v] that passed [is_number]: an [int] (and a [bool])
    rounds to the same [int], a [float] to a [float]. *)
Definition py_round2 (v : json) : json :=
  match v with
  | JBool b => JInt (if b then 1 else 0)
  | JFloat f => JFloat (Float.round2 f)
  | _ => v
  end.

(** [v / d] for a [v] that passed [is_number] and a positive [int] literal
    [d]: true division always gives a [float]; the quotient of two [int]s is
    rounded once and raises [OverflowError] when it is out of range. *)
Definition py_truediv (v : json) (d : positive) : result spec_float :=
  let int_div z :=
    match Float.of_quot z d with
    | S754_infinity _ => Raise OverflowError
    | q => Ok q
    end in
  match v with
  | JBool b => int_div (if b then 1 else 0)
  | JInt z => int_div z
  | JFloat f => Ok (Float.div f (Float.of_Z (Zpos d)))
  | _ => Raise TypeError
  end.

(** The items a [for x in v] loop visits: the elements of a list, the keys
    of a dict, the characters of a string; nothing else is iterable. *)
Definition py_iter (v : json) : result (list json) :=
  match v with
  | JArr l => Ok l
  | JObj kvs => Ok (map (fun kv => JStr (fst kv)) kvs)
  | JStr s => Ok (map (fun c => JStr (String c "")) (list_ascii_of_string s))
  | _ => Raise TypeError
  end.

(** [sep.join(l)] *)
Fixpoint join (sep : string) (l : list string) : string :=
  match l with
  | [] => ""
  | [s] => s
  | s :: rest => s +:+ sep +:+ join sep rest
  end.

(** [s.replace('Z', '+00:00')] *)
Fixpoint replace_Z (s : string) : string :=
  match s with
  | EmptyString => ""
  | String c rest =>
      if Ascii.eqb c "Z"%char then "+00:00" +:+ replace_Z rest
      else String c (replace_Z rest)
  end.

(** [range(0, len(l), n)] with the slices [l[i:i + n]]. *)
Fixpoint chunks_aux {A} (fuel : nat) (n : nat) (l : list A) : list (list A) :=
  match fuel, l with
  | O, _ | _, [] => []
  | S fuel', _ => take n l :: chunks_aux fuel' n (drop n l)
  end.

Definition chunks {A} (n : nat) (l : list A) : list (list A) :=
  chunks_aux (length l) n l.

(** ** The digital twin and its builder *)

(** The dict [gemelo_digital] that [process_vehicle_data] returns; the keys
    are fixed, so it is a record with one field per key. *)
Record gemelo_digital := {
  vehicle_id : string;
  vehicle_name : json;
  make : json;
  model : json;
  year : json;
  license_plate : json;
  latitude : json;
  longitude : json;
  speed_mph : json;
  current_address : json;
  gps_odometer_meters : json;
  location_updated_at : json;
  engine_hours : json;
  fuel_perc_remaining : json;
  engine_oil_pressure_kpa : json;
  engine_coolant_temperature_c : json;
  engine_rpm : json;
  ambient_air_temperature_c : json;
  engine_check_light_warning : json;
  engine_check_light_emissions : json;
  engine_check_light_protect : json;
  engine_check_light_stop : json;
  diagnostic_trouble_codes : list json;
  last_data_sync : string;
  status_alert : string;
  alert_color : string
}.

(** The marker of a reading that is not available. *)
Definition NA : json := JStr "N/A".

Definition OPERANDO_NORMALMENTE : string := "OPERANDO NORMALMENTE".
Definition ALERTA : string := "ALERTA: ".

(** What the [if loc_data:] block writes: latitude, longitude, speed,
    address and the time of the sample. *)
Record location_fields := {
  loc_latitude : json;
  loc_longitude : json;
  loc_speed_mph : json;
  loc_current_address : json;
  loc_updated_at : json
}.

Definition location_defaults : location_fields :=
  {| loc_latitude := NA; loc_longitude := NA; loc_speed_mph := NA;
     loc_current_address := NA; loc_updated_at := NA |}.

Definition location_time (loc_time_str : json) : result json :=
  match loc_time_str with
  | JStr s =>
      if String.eqb s "N/A" then Ok NA
      else match fromisoformat_strftime (replace_Z s) with
           | Some t => Ok (JStr t)
           | None => Ok loc_time_str
           end
  | _ => Raise AttributeError
  end.

Definition location_block (loc_data : json) : result location_fields :=
  if truthy loc_data then
    lat ← py_get loc_data "latitude" NA;
    lon ← py_get loc_data "longitude" NA;
    speed_value_loc ← py_get loc_data "speed" JNull;
    let speed :=
      if is_number speed_value_loc then py_round2 speed_value_loc else NA in
    reverse_geo ← py_get loc_data "reverseGeo" (JObj []);
    address ← py_get reverse_geo "formattedLocation" NA;
    loc_time_str ← py_get loc_data "time" NA;
    updated ← location_time loc_time_str;
    Ok {| loc_latitude := lat; loc_longitude := lon; loc_speed_mph := speed;
          loc_current_address := address; loc_updated_at := updated |}
  else Ok location_defaults.

(** [round(v / d, 2)] if [v] is a number, else the marker: engine hours
    ([d = 3600]) and the two temperatures ([d = 1000]). *)
Definition scaled_stat (v : json) (d : positive) : result json :=
  if is_number v then
    q ← py_truediv v d;
    Ok (py_round2 (JFloat q))
  else Ok NA.

(** [round(v, 2)] if [v] is a number, else the marker: oil pressure. *)
Definition rounded_stat (v : json) : json :=
  if is_number v then py_round2 v else NA.

(** [v] if [v] is a number, else the marker: engine RPM. *)
Definition plain_stat (v : json) : json :=
  if is_number v then v else NA.

(** What the [if maintenance_data:] block writes: the four lights and the
    list of trouble codes. *)
Record maintenance_fields := {
  mf_warning : json;
  mf_emissions : json;
  mf_protect : json;
  mf_stop : json;
  mf_dtcs : list json
}.

Definition maintenance_defaults : maintenance_fields :=
  {| mf_warning := JBool false; mf_emissions := JBool false;
     mf_protect := JBool false; mf_stop := JBool false; mf_dtcs := [] |}.

Definition maintenance_block (maintenance_data : json)
  : result maintenance_fields :=
  if truthy maintenance_data then
    j ← py_get maintenance_data "j1939" JNull;
    let j1939_data := py_or j (JObj []) in
    check_engine_light_data ← py_get j1939_data "checkEngineLight" (JObj []);
    w ← py_get check_engine_light_data "warningIsOn" (JBool false);
    e ← py_get check_engine_light_data "emissionsIsOn" (JBool false);
    p ← py_get check_engine_light_data "protectIsOn" (JBool false);
    s ← py_get check_engine_light_data "stopIsOn" (JBool false);
    dtcs_from_maintenance ←
      py_get j1939_data "diagnosticTroubleCodes" (JArr []);
    Ok {| mf_warning := w; mf_emissions := e; mf_protect := p; mf_stop := s;
          mf_dtcs := match dtcs_from_maintenance with
                     | JArr l => l
                     | _ => []
                     end |}
  else Ok maintenance_defaults.

(** The text of one trouble code in the alert,
    [f"SPN: {spn} (FMI: {fmi})"]. *)
Definition dtc_info (code : json) : result string :=
  spn ← py_get code "spnId" NA;
  fmi ← py_get code "fmiId" NA;
  Ok ("SPN: " +:+ py_str spn +:+ " (FMI: " +:+ py_str fmi +:+ ")").

Definition dtc_alerts (dtcs : list json) : result (list string) :=
  match dtcs with
  | [] => Ok []
  | _ =>
      dtc_codes_info_for_alert ← mapM dtc_info dtcs;
      Ok ["Fallas de motor (DTCs: "
          +:+ join "; " dtc_codes_info_for_alert +:+ ")"]
  end.

Definition check_light_alerts (m : maintenance_fields) : list string :=
  (if truthy (mf_warning m) then ["Advertencia (Warning)"] else [])
  ++ (if truthy (mf_emissions m) then ["Emisiones (Emissions)"] else [])
  ++ (if truthy (mf_protect m) then ["Protección (Protect)"] else [])
  ++ (if truthy (mf_stop m) then ["Detener (Stop)"] else []).

Definition light_alerts (m : maintenance_fields) : list string :=
  match check_light_alerts m with
  | [] => []
  | l => ["Luz de Check Engine ON (" +:+ join ", " l +:+ ")"]
  end.

(** The final [if alerts: ... elif ...:], from the status and colour the
    dict was created with. *)
Definition alert_block (alerts : list string) : string * string :=
  let status := OPERANDO_NORMALMENTE in
  let color := "green" in
  match alerts with
  | _ :: _ => (ALERTA +:+ join "; " alerts, "red")
  | [] =>
      if negb (String.eqb status "OFFLINE o SIN DATOS")
      then (OPERANDO_NORMALMENTE, "green")
      else (status, color)
  end.

Definition process_vehicle_data (vehicle_details : json)
    (vehicle_locations : gmap string json)
    (vehicle_stats : gmap string (gmap string json))
    (vehicle_maintenance_data : gmap string json)
    (now : string) : result gemelo_digital :=
  id ← py_get vehicle_details "id" (JStr "");
  let vehicle_id_str := py_str id in
  name ← py_get vehicle_details "name" NA;
  mk ← py_get vehicle_details "make" NA;
  mdl ← py_get vehicle_details "model" NA;
  yr ← py_get vehicle_details "year" NA;
  plate ← py_get vehicle_details "licensePlate" NA;
  let stats_data : gmap string json :=
    default ∅ (vehicle_stats !! vehicle_id_str) in
  let maintenance_data :=
    default (JObj []) (vehicle_maintenance_data !! vehicle_id_str) in
  let loc_data := default JNull (vehicle_locations !! vehicle_id_str) in
  loc ← location_block loc_data;
  hours ← scaled_stat (default JNull (stats_data !! "obdEngineSeconds")) 3600;
  let oil :=
    rounded_stat (default JNull (stats_data !! "engineOilPressureKPa")) in
  coolant ←
    scaled_stat
      (default JNull (stats_data !! "engineCoolantTemperatureMilliC")) 1000;
  ambient ←
    scaled_stat
      (default JNull (stats_data !! "ambientAirTemperatureMilliC")) 1000;
  let rpm := plain_stat (default JNull (stats_data !! "engineRpm")) in
  mnt ← maintenance_block maintenance_data;
  from_dtcs ← dtc_alerts (mf_dtcs mnt);
  let alerts := from_dtcs ++ light_alerts mnt in
  let '(status, color) := alert_block alerts in
  Ok {| vehicle_id := vehicle_id_str;
        vehicle_name := name;
        make := mk;
        model := mdl;
        year := yr;
        license_plate := plate;
        latitude := loc_latitude loc;
        longitude := loc_longitude loc;
        speed_mph := loc_speed_mph loc;
        current_address := loc_current_address loc;
        gps_odometer_meters := NA;
        location_updated_at := loc_updated_at loc;
        engine_hours := hours;
        fuel_perc_remaining := NA;
        engine_oil_pressure_kpa := oil;
        engine_coolant_temperature_c := coolant;
        engine_rpm := rpm;
        ambient_air_temperature_c := ambient;
        engine_check_light_warning := mf_warning mnt;
        engine_check_light_emissions := mf_emissions mnt;
        engine_check_light_protect := mf_protect mnt;
        engine_check_light_stop := mf_stop mnt;
        diagnostic_trouble_codes := mf_dtcs mnt;
        last_data_sync := now;
        status_alert := status;
        alert_color := color |}.

(** The loop that fills [temp_gemelos_map]: one twin per roster entry, stored
    under the twin's own [vehicle_id]; [clock i] is what [datetime.now()]
    prints while the entry at position [i] is processed. *)
Fixpoint gemelos_loop (i : nat) (roster : list json)
    (locations : gmap string json) (stats : gmap string (gmap string json))
    (maintenance : gmap string json) (clock : nat -> string)
    (temp_gemelos_map : gmap string gemelo_digital)
  : result (gmap string gemelo_digital) :=
  match roster with
  | [] => Ok temp_gemelos_map
  | details :: rest =>
      gemelo ← process_vehicle_data details locations stats maintenance
                 (clock i);
      gemelos_loop (S i) rest locations stats maintenance clock
        (<[vehicle_id gemelo := gemelo]> temp_gemelos_map)
  end.

Definition build_gemelos_map (roster : list json)
    (locations : gmap string json) (stats : gmap string (gmap string json))
    (maintenance : gmap string json) (clock : nat -> string)
  : result (gmap string gemelo_digital) :=
  gemelos_loop 0 roster locations stats maintenance clock ∅.

(** [vehicle_ids = [str(v.get('id')) for v in vehicle_details_list]] *)
Definition vehicle_ids (vehicle_details_list : list json)
  : result (list string) :=
  mapM (fun v => id ← py_get v "id" JNull; Ok (py_str id))
       vehicle_details_list.

(** ** The fetchers *)

(** What one [requests.get(...)], [raise_for_status()] and [.json()] give:
    a [RequestException] (no connection, a timeout, a status that is not
    2xx, a body that is not JSON) or the parsed body. *)
Inductive response :=
  | Failed
  | Body (body : json).

(** How a block of the code ends: normally, or by an exception; the state
    holds what the block had written by then. *)
Inductive outcome (S : Type) :=
  | Done (s : S)
  | Threw (e : exn) (s : S).
#[global] Arguments Done {S} s.
#[global] Arguments Threw {S} e s.

Fixpoint fold_result {A B} (f : A -> B -> result A) (a : A) (l : list B)
  : result A :=
  match l with
  | [] => Ok a
  | x :: rest => a' ← f a x; fold_result f a' rest
  end.

(** *** [get_stats_for_multiple_vehicles] *)

Record stats_params := {
  types : string;
  vehicleIds : string
}.

(** The answer to the request for the type batch [j] of the ID batch [i]. *)
Definition stats_server : Type := nat -> nat -> stats_params -> response.

Record stats_state := {
  stats_map : gmap string (gmap string json);
  stats_sent : list stats_params;
  stats_log : list string
}.

(** The [{value: ...}] envelope is unwrapped. *)
Definition stat_value (v : json) : json :=
  match v with
  | JObj inner => default v (assoc "value" inner)
  | _ => v
  end.

(** [for stat_type in batch_of_types: if stat_type in item: ...] for an
    [item] whose id [vid] is a key of the map. *)
Definition merge_stat (kvs : list (string * json)) (vid : string)
    (m : gmap string (gmap string json)) (stat_type : string)
  : gmap string (gmap string json) :=
  match assoc stat_type kvs with
  | Some v => alter (insert stat_type (stat_value v)) vid m
  | None => m
  end.

(** The body of [for item in data:]. [vehicle_id in stats_map] hashes the
    id: a list or a dict is unhashable, and no key of the map, all strings,
    equals an id that is not a string. *)
Definition merge_item (batch_of_types : list string)
    (m : gmap string (gmap string json)) (item : json)
  : result (gmap string (gmap string json)) :=
  match item with
  | JObj kvs =>
      match default JNull (assoc "id" kvs) with
      | JStr vid =>
          if bool_decide (is_Some (m !! vid))
          then Ok (foldl (merge_stat kvs vid) m batch_of_types)
          else Ok m
      | JArr _ | JObj _ => Raise TypeError
      | _ => Ok m
      end
  | _ => Raise AttributeError
  end.

Definition merge_body (batch_of_types : list string)
    (m : gmap string (gmap string json)) (body : json)
  : result (gmap string (gmap string json)) :=
  data ← py_get body "data" (JArr []);
  items ← py_iter data;
  fold_result (merge_item batch_of_types) m items.

Definition stats_request (batch_ids_str : string)
    (batch_of_types : list string) : stats_params :=
  {| types := join "," batch_of_types; vehicleIds := batch_ids_str |}.

(** [for batch_of_types in stat_type_batches:], the body of the [try]. *)
Fixpoint stats_types_loop (server : stats_server) (i j : nat)
    (batch_ids_str : string) (stat_type_batches : list (list string))
    (st : stats_state) : outcome stats_state :=
  match stat_type_batches with
  | [] => Done st
  | batch_of_types :: rest =>
      let params := stats_request batch_ids_str batch_of_types in
      let st := {| stats_map := stats_map st;
                   stats_sent := stats_sent st ++ [params];
                   stats_log := stats_log st |} in
      match server i j params with
      | Failed => Threw RequestException st
      | Body body =>
          match merge_body batch_of_types (stats_map st) body with
          | Ok m =>
              stats_types_loop server i (S j) batch_ids_str rest
                {| stats_map := m;
                   stats_sent := stats_sent st;
                   stats_log := stats_log st |}
          | Raise e => Threw e st
          end
      end
  end.

Definition stats_error_log : string :=
  "ERROR_LOG: Fallo al obtener stats por lotes".

(** [for i in range(0, len(vehicle_ids), batch_size):] with its
    [try ... except RequestException: ... continue]. *)
Fixpoint stats_ids_loop (server : stats_server) (i : nat)
    (id_batches : list (list string)) (stat_type_batches : list (list string))
    (st : stats_state) : outcome stats_state :=
  match id_batches with
  | [] => Done st
  | batch_ids :: rest =>
      match stats_types_loop server i 0 (join "," batch_ids)
              stat_type_batches st with
      | Done st' => stats_ids_loop server (S i) rest stat_type_batches st'
      | Threw RequestException st' =>
          stats_ids_loop server (S i) rest stat_type_batches
            {| stats_map := stats_map st';
               stats_sent := stats_sent st';
               stats_log := stats_log st' ++ [stats_error_log] |}
      | Threw e st' => Threw e st'
      end
  end.

Definition stats_init (vehicle_ids : list string) : stats_state :=
  {| stats_map := list_to_map (map (fun vid => (vid, ∅)) vehicle_ids);
     stats_sent := [];
     stats_log := [] |}.

Definition get_stats_for_multiple_vehicles (server : stats_server)
    (vehicle_ids : list string) (stat_types : list string)
  : outcome stats_state :=
  let stat_type_batches := chunks 4 stat_types in
  let batch_size := 100%nat in
  stats_ids_loop server 0 (chunks batch_size vehicle_ids) stat_type_batches
    (stats_init vehicle_ids).

(** What the caller gets: the map, or the exception that escaped. *)
Definition returned {S A} (field : S -> A) (o : outcome S) : result A :=
  match o with
  | Done s => Ok (field s)
  | Threw e _ => Raise e
  end.

Definition final {S} (o : outcome S) : S :=
  match o with
  | Done s | Threw _ s => s
  end.

Definition all_desired_stat_types : list string :=
  ["engineCoolantTemperatureMilliC"; "ambientAirTemperatureMilliC";
   "engineRpm"; "obdEngineSeconds"; "engineOilPressureKPa"].

(** *** [get_all_vehicle_maintenance_data] *)

(** The answer to the request for page [page_count], sent with the cursor
    [after] ([None] when [params] is empty). *)
Definition maintenance_server : Type := nat -> option json -> response.

Record maintenance_state := {
  page_count : nat;
  next_cursor : json;
  maintenance_map : gmap string json;
  target_id_set : gset string;
  maintenance_sent : list (option json);
  maintenance_log : list string
}.

(** The body of [for vehicle_item in current_page_items:]. *)
Definition match_item (acc : gmap string json * gset string)
    (vehicle_item : json) : result (gmap string json * gset string) :=
  id ← py_get vehicle_item "id" JNull;
  let vehicle_id := py_str id in
  if bool_decide (vehicle_id ∈ acc.2)
  then Ok (<[vehicle_id := vehicle_item]> acc.1, acc.2 ∖ {[vehicle_id]})
  else Ok acc.

(** What the [try] block does with a decoded page: the new map, the new
    working set and the cursor of the page. *)
Definition read_page (response_data : json) (m : gmap string json)
    (targets : gset string)
  : result (gmap string json * gset string * json) :=
  first ← py_get response_data "vehicleMaintenance" (JArr []);
  current_page_items ←
    (if truthy first then Ok first
     else py_get response_data "vehicles" (JArr []));
  items ← py_iter current_page_items;
  acc ← fold_result match_item (m, targets) items;
  pagination_info ← py_get response_data "pagination" (JObj []);
  cursor ← py_get pagination_info "endCursor" JNull;
  Ok (acc, cursor).

Inductive page_outcome :=
  | Continue (st : maintenance_state)
  | Return (m : gmap string json) (st : maintenance_state)
  | Crash (e : exn) (st : maintenance_state).

Definition maintenance_error_log : string :=
  "ERROR_LOG: Fallo al obtener datos de mantenimiento".

(** [params = {}; if next_cursor: params['after'] = next_cursor] *)
Definition after_param (st : maintenance_state) : option json :=
  if truthy (next_cursor st) then Some (next_cursor st) else None.

(** One turn of [while True:]. *)
Definition maintenance_page (server : maintenance_server)
    (st : maintenance_state) : page_outcome :=
  let page := S (page_count st) in
  let after := after_param st in
  let sent := maintenance_sent st ++ [after] in
  match server page after with
  | Failed =>
      Return ∅
        {| page_count := page; next_cursor := next_cursor st;
           maintenance_map := maintenance_map st;
           target_id_set := target_id_set st;
           maintenance_sent := sent;
           maintenance_log := maintenance_log st ++ [maintenance_error_log] |}
  | Body response_data =>
      match read_page response_data (maintenance_map st) (target_id_set st)
      with
      | Ok (m, targets, cursor) =>
          let st' :=
            {| page_count := page; next_cursor := cursor;
               maintenance_map := m; target_id_set := targets;
               maintenance_sent := sent;
               maintenance_log := maintenance_log st |} in
          if negb (truthy cursor) || bool_decide (targets = ∅)
          then Return m st'
          else Continue st'
      | Raise e =>
          Crash e
            {| page_count := page; next_cursor := next_cursor st;
               maintenance_map := maintenance_map st;
               target_id_set := target_id_set st;
               maintenance_sent := sent;
               maintenance_log := maintenance_log st |}
      end
  end.

(** [while True:] for at most [fuel] pages; [None] when the loop is still
    running after them. *)
Fixpoint maintenance_loop (server : maintenance_server) (fuel : nat)
    (st : maintenance_state)
  : option (result (gmap string json) * maintenance_state) :=
  match fuel with
  | O => None
  | S fuel' =>
      match maintenance_page server st with
      | Continue st' => maintenance_loop server fuel' st'
      | Return m st' => Some (Ok m, st')
      | Crash e st' => Some (Raise e, st')
      end
  end.

Definition maintenance_init (target_vehicle_ids : list string)
  : maintenance_state :=
  {| page_count := 0; next_cursor := JNull; maintenance_map := ∅;
     target_id_set := list_to_set target_vehicle_ids;
     maintenance_sent := []; maintenance_log := [] |}.

Definition get_all_vehicle_maintenance_data (server : maintenance_server)
    (fuel : nat) (target_vehicle_ids : list string)
  : option (result (gmap string json) * maintenance_state) :=
  maintenance_loop server fuel (maintenance_init target_vehicle_ids).

(** The state after [n] turns of the loop that all went on to the next
    page. *)
Fixpoint after_pages (server : maintenance_server) (n : nat)
    (st : maintenance_state) : option maintenance_state :=
  match n with
  | O => Some st
  | S n' =>
      match maintenance_page server st with
      | Continue st' => after_pages server n' st'
      | _ => None
      end
  end.

(** ** Groups of fields of the twin *)

(** The fields that hold a reading taken from the three fetched maps. *)
Definition dynamic_fields : list (gemelo_digital -> json) :=
  [latitude; longitude; speed_mph; current_address; gps_odometer_meters;
   location_updated_at; engine_hours; fuel_perc_remaining;
   engine_oil_pressure_kpa; engine_coolant_temperature_c; engine_rpm;
   ambient_air_temperature_c].

(** The four check-engine lights. *)
Definition light_flags : list (gemelo_digital -> json) :=
  [engine_check_light_warning; engine_check_light_emissions;
   engine_check_light_protect; engine_check_light_stop].

(** ** Notions used to state the properties *)

(** The key under which the twin of a roster entry is stored,
    [str(details.get('id', ''))]. *)
Definition twin_key (details : json) : result string :=
  id ← py_get details "id" (JStr "");
  Ok (py_str id).

(** The lights of a twin, as the alert evaluation reads them. *)
Definition lights_of (g : gemelo_digital) : maintenance_fields :=
  {| mf_warning := engine_check_light_warning g;
     mf_emissions := engine_check_light_emissions g;
     mf_protect := engine_check_light_protect g;
     mf_stop := engine_check_light_stop g;
     mf_dtcs := diagnostic_trouble_codes g |}.

(** How often [pat] occurs in [s]. *)
Fixpoint occurrences (pat s : string) : nat :=
  match s with
  | EmptyString => if String.prefix pat "" then 1 else 0
  | String _ rest =>
      ((if String.prefix pat s then 1 else 0) + occurrences pat rest)%nat
  end.

(** A page of the maintenance list as the API documents it: the items and
    the cursor of the next page. *)
Definition maintenance_body (items : list json) (cursor : json) : json :=
  JObj [("vehicleMaintenance", JArr items);
        ("pagination", JObj [("endCursor", cursor)])].

(** A stats response of the documented shape: a dict whose [data] is a list
    of dicts, the [id] of each being hashable. *)
Definition stats_item_ok (item : json) : bool :=
  match item with
  | JObj kvs =>
      match default JNull (assoc "id" kvs) with
      | JArr _ | JObj _ => false
      | _ => true
      end
  | _ => false
  end.

Definition stats_body_ok (body : json) : bool :=
  match body with
  | JObj kvs =>
      match default (JArr []) (assoc "data" kvs) with
      | JArr items => forallb stats_item_ok items
      | _ => false
      end
  | _ => false
  end.

(** The exchanges of the ID batch [i], from its type batch [j] on: the
    requests are sent in order, up to and including the first that fails. *)
Fixpoint attempted (server : stats_server) (i j : nat) (batch_ids_str : string)
    (stat_type_batches : list (list string))
  : list (list string * stats_params * response) :=
  match stat_type_batches with
  | [] => []
  | batch_of_types :: rest =>
      let params := stats_request batch_ids_str batch_of_types in
      (batch_of_types, params, server i j params)
      :: match server i j params with
         | Failed => []
         | Body _ => attempted server i (S j) batch_ids_str rest
         end
  end.

(** The exchanges of a whole call: those of each ID batch in turn, whatever
    happened in the ID batches before it. *)
Fixpoint exchanges (server : stats_server) (i : nat)
    (id_batches : list (list string)) (stat_type_batches : list (list string))
  : list (list string * stats_params * response) :=
  match id_batches with
  | [] => []
  | batch_ids :: rest =>
      attempted server i 0 (join "," batch_ids) stat_type_batches
      ++ exchanges server (S i) rest stat_type_batches
  end.

(** What an exchange adds to the map: the stats of its response, nothing
    when the request failed. *)
Definition merge_exchange (m : gmap string (gmap string json))
    (x : list string * stats_params * response)
  : result (gmap string (gmap string json)) :=
  match x.2 with
  | Failed => Ok m
  | Body body => merge_body x.1.1 m body
  end.

Definition failed (x : list string * stats_params * response) : bool :=
  match x.2 with
  | Failed => true
  | Body _ => false
  end.

(** ** Sample data *)

(** Stand-ins for [repr] and for the date parser where a sample is run:
    no sample prints a float, a list or a dict. *)
Definition no_repr : json -> string := fun _ => "".
Definition no_iso : string -> option string := fun _ => None.

(** A fleet of two: vehicle 1, whose id the roster gives as a number, has
    stats and a maintenance record with the same trouble code twice and the
    stop light on; vehicle 2 is known to the roster only. The maps also hold
    ids that are not in the roster. *)
Definition sample_rpm : spec_float := Float.of_decimal 1234567 3.

Definition sample_dtc : json :=
  JObj [("spnId", JInt 100); ("fmiId", JInt 3); ("occurrenceCount", JInt 2)].

Definition sample_vehicle_1 : json :=
  JObj [("id", JInt 1); ("name", JStr "T-1"); ("make", JStr "Kenworth")].

Definition sample_vehicle_2 : json :=
  JObj [("id", JStr "2"); ("name", JStr "T-2")].

Definition sample_roster : list json := [sample_vehicle_1; sample_vehicle_2].

Definition sample_locations : gmap string json :=
  {[ "1" := JObj [("latitude", JInt 19); ("longitude", JInt (-99));
                  ("speed", JInt 55)];
     "9" := JObj [("latitude", JInt 0)] ]}.

Definition sample_stats : gmap string (gmap string json) :=
  {[ "1" := {[ "engineCoolantTemperatureMilliC" := JInt 85000;
               "obdEngineSeconds" := JInt 7384;
               "engineOilPressureKPa" := JInt 300;
               "engineRpm" := JFloat sample_rpm ]};
     "7" := ∅ ]}.

Definition sample_item_1 : json :=
  JObj [("id", JInt 1);
        ("j1939",
         JObj [("checkEngineLight", JObj [("stopIsOn", JBool true)]);
               ("diagnosticTroubleCodes", JArr [sample_dtc; sample_dtc])])].

Definition sample_item_2 : json :=
  JObj [("id", JStr "2"); ("j1939", JNull)].

Definition sample_maintenance : gmap string json :=
  {[ "1" := sample_item_1; "8" := JObj [("id", JInt 8)] ]}.

Definition sample_clock : nat -> string := fun _ => "2025-01-01 00:00:00".

(** A stats server that fails on the first stat-type batch of every ID batch
    and would answer any other request with an oil pressure for vehicle 1;
    one that answers every request, with the id as a string; and one that
    gives the id as a number. *)
Definition oil_pressure_body (id : json) : json :=
  JObj [("data", JArr [JObj [("id", id); ("engineOilPressureKPa", JInt 300)]])].

Definition first_batch_fails : stats_server :=
  fun _ j _ =>
    match j with
    | O => Failed
    | S _ => Body (oil_pressure_body (JStr "1"))
    end.

Definition string_id_stats : stats_server :=
  fun _ _ _ => Body (oil_pressure_body (JStr "1")).

Definition numeric_id_stats : stats_server :=
  fun _ _ _ => Body (oil_pressure_body (JInt 1)).

(** A maintenance server with two pages, vehicle 1 on the first and vehicle
    2 on the second, which has no cursor; and one whose second page fails. *)
Definition two_pages : maintenance_server :=
  fun page _ =>
    match page with
    | 1%nat => Body (maintenance_body [sample_item_1] (JStr "c1"))
    | 2%nat => Body (maintenance_body [sample_item_2] JNull)
    | _ => Failed
    end.

Definition second_page_fails : maintenance_server :=
  fun page _ =>
    match page with
    | 1%nat => Body (maintenance_body [sample_item_1] (JStr "c1"))
    | _ => Failed
    end.

(** ** Payloads of the documented shape *)

Definition is_dict (v : json) : bool :=
  match v with
  | JObj _ => true
  | _ => false
  end.

Definition is_str (v : json) : bool :=
  match v with
  | JStr _ => true
  | _ => false
  end.

(** A location sample that the twin builder reads without an exception:
    none (or a falsy value), or a dict whose [reverseGeo], if it has one, is
    a dict and whose [time], if it has one, is a string. *)
Definition location_ok (loc_data : json) : bool :=
  match loc_data with
  | JObj kvs =>
      is_dict (default (JObj []) (assoc "reverseGeo" kvs))
      && is_str (default NA (assoc "time" kvs))
  | _ => negb (truthy loc_data)
  end.

(** A maintenance record that the twin builder reads without an exception:
    none, or a dict whose [j1939] is missing, null or a dict, the
    [checkEngineLight] of which, if any, is a dict and the trouble codes of
    which, if they are a list, are dicts. *)
Definition maintenance_ok (maintenance_data : json) : bool :=
  match maintenance_data with
  | JObj kvs =>
      match py_or (default JNull (assoc "j1939" kvs)) (JObj []) with
      | JObj j =>
          is_dict (default (JObj []) (assoc "checkEngineLight" j))
          && match default (JArr []) (assoc "diagnosticTroubleCodes" j) with
             | JArr codes => forallb is_dict codes
             | _ => true
             end
      | _ => false
      end
  | _ => negb (truthy maintenance_data)
  end.

(** A stat whose division does not overflow: any value but an [int] of
    more than 1023 bits. *)
Definition stat_ok (v : json) : bool :=
  match v with
  | JInt z => Z.ltb (Z.abs z) (2 ^ 1023)
  | _ => true
  end.

Definition stats_ok (stats_data : gmap string json) : bool :=
  stat_ok (default JNull (stats_data !! "obdEngineSeconds"))
  && stat_ok (default JNull (stats_data !! "engineCoolantTemperatureMilliC"))
  && stat_ok (default JNull (stats_data !! "ambientAirTemperatureMilliC")).

(** ** Invariant of the maintenance loop *)

(** The matched records and the working set split the target ids, and every
    record is stored under the string form of its own id. *)
Definition maintenance_inv (targets : gset string) (m : gmap string json)
    (remaining : gset string) : Prop :=
  dom m ∪ remaining = targets /\
  dom m ## remaining /\
  forall k v, m !! k = Some v ->
    exists kvs, v = JObj kvs /\ py_str (default JNull (assoc "id" kvs)) = k.

(** ** The roster, the locations and the refresh cycle *)

(** [v[k]] for a string [k]: a dict gives the value or raises [KeyError];
    nothing else can be subscripted by a string. *)
Definition py_subscript (v : json) (k : string) : result json :=
  match v with
  | JObj kvs =>
      match assoc k kvs with
      | Some x => Ok x
      | None => Raise KeyError
      end
  | _ => Raise TypeError
  end.

(** *** [get_all_vehicle_details_list] *)

(** The answer to the request for page [page], sent with the cursor [after]
    ([None] when [params] is empty). *)
Definition roster_server : Type := nat -> option json -> response.

Record roster_state := {
  roster_page : nat;
  roster_next_cursor : json;
  all_vehicles : list json;
  roster_sent : list (option json);
  roster_log : list string
}.

(** What the [try] block does with a decoded page: [all_vehicles.extend]
    takes the items of any iterable. *)
Definition read_roster_page (data : json) (all_vehicles : list json)
  : result (list json * json) :=
  current_page_vehicles ← py_get data "data" (JArr []);
  extension ← py_iter current_page_vehicles;
  pagination ← py_get data "pagination" (JObj []);
  cursor ← py_get pagination "endCursor" JNull;
  Ok (all_vehicles ++ extension, cursor).

Inductive roster_outcome :=
  | NextPage (st : roster_state)
  | Break (st : roster_state)
  | Escapes (e : exn) (st : roster_state).

Definition roster_error_log : string :=
  "Error al obtener la lista de vehículos".

(** One turn of [while True:]. *)
Definition roster_turn (server : roster_server) (st : roster_state)
  : roster_outcome :=
  let after :=
    if truthy (roster_next_cursor st) then Some (roster_next_cursor st)
    else None in
  let sent := roster_sent st ++ [after] in
  match server (roster_page st) after with
  | Failed =>
      Break {| roster_page := roster_page st;
               roster_next_cursor := roster_next_cursor st;
               all_vehicles := all_vehicles st;
               roster_sent := sent;
               roster_log := roster_log st ++ [roster_error_log] |}
  | Body data =>
      match read_roster_page data (all_vehicles st) with
      | Ok (vehicles, cursor) =>
          if negb (truthy cursor)
          then Break {| roster_page := roster_page st;
                        roster_next_cursor := cursor;
                        all_vehicles := vehicles;
                        roster_sent := sent;
                        roster_log := roster_log st |}
          else NextPage {| roster_page := S (roster_page st);
                           roster_next_cursor := cursor;
                           all_vehicles := vehicles;
                           roster_sent := sent;
                           roster_log := roster_log st |}
      | Raise e =>
          Escapes e {| roster_page := roster_page st;
                       roster_next_cursor := roster_next_cursor st;
                       all_vehicles := all_vehicles st;
                       roster_sent := sent;
                       roster_log := roster_log st |}
      end
  end.

(** [while True:] for at most [fuel] pages; [None] when the loop is still
    running after them. *)
Fixpoint roster_loop (server : roster_server) (fuel : nat) (st : roster_state)
  : option (result (list json) * roster_state) :=
  match fuel with
  | O => None
  | S fuel' =>
      match roster_turn server st with
      | NextPage st' => roster_loop server fuel' st'
      | Break st' => Some (Ok (all_vehicles st'), st')
      | Escapes e st' => Some (Raise e, st')
      end
  end.

Definition roster_init : roster_state :=
  {| roster_page := 1; roster_next_cursor := JNull; all_vehicles := [];
     roster_sent := []; roster_log := [] |}.

Definition get_all_vehicle_details_list (server : roster_server) (fuel : nat)
  : option (result (list json) * roster_state) :=
  roster_loop server fuel roster_init.

(** *** [get_vehicle_locations] *)

(** The answer to the request of the ID batch [i], sent with [ids]. *)
Definition locations_server : Type := nat -> string -> response.

(** [locations_map]: the entries under a string key, and those under a key
    that is hashable but not a string, in the order they were written; a
    lookup with a string never finds one of the latter. *)
Record locations_state := {
  locations_map : gmap string json;
  locations_other : list (json * json);
  locations_sent : list string;
  locations_log : list string
}.

(** [locations_map[loc['id']] = loc['location']]: the right-hand side is
    evaluated first, and a list or a dict cannot be a key. *)
Definition store_location (acc : gmap string json * list (json * json))
    (loc : json) : result (gmap string json * list (json * json)) :=
  location ← py_subscript loc "location";
  id ← py_subscript loc "id";
  match id with
  | JStr k => Ok (<[k := location]> acc.1, acc.2)
  | JArr _ | JObj _ => Raise TypeError
  | _ => Ok (acc.1, acc.2 ++ [(id, location)])
  end.

Definition read_locations (body : json)
    (acc : gmap string json * list (json * json))
  : result (gmap string json * list (json * json)) :=
  locations_data ← py_get body "data" (JArr []);
  items ← py_iter locations_data;
  fold_result store_location acc items.

Definition locations_error_log : string :=
  "ERROR_LOG: Error al obtener lote de ubicaciones".

(** [for i in range(0, len(vehicle_ids), batch_size):] with its
    [try ... except RequestException: ... continue]. *)
Fixpoint locations_loop (server : locations_server) (i : nat)
    (id_batches : list (list string)) (st : locations_state)
  : outcome locations_state :=
  match id_batches with
  | [] => Done st
  | batch_ids :: rest =>
      let ids_str := join "," batch_ids in
      let sent := locations_sent st ++ [ids_str] in
      match server i ids_str with
      | Failed =>
          locations_loop server (S i) rest
            {| locations_map := locations_map st;
               locations_other := locations_other st;
               locations_sent := sent;
               locations_log := locations_log st ++ [locations_error_log] |}
      | Body body =>
          match read_locations body (locations_map st, locations_other st)
          with
          | Ok acc =>
              locations_loop server (S i) rest
                {| locations_map := acc.1;
                   locations_other := acc.2;
                   locations_sent := sent;
                   locations_log := locations_log st |}
          | Raise e =>
              Threw e
                {| locations_map := locations_map st;
                   locations_other := locations_other st;
                   locations_sent := sent;
                   locations_log := locations_log st |}
          end
      end
  end.

Definition get_vehicle_locations (server : locations_server)
    (vehicle_ids : list string) : outcome locations_state :=
  let batch_size := 100%nat in
  locations_loop server 0 (chunks batch_size vehicle_ids)
    {| locations_map := ∅; locations_other := [];
       locations_sent := []; locations_log := [] |}.

(** *** [fetch_samsara_data_multiple_vehicles] *)

Record telemetry_servers := {
  locations_api : locations_server;
  maintenance_api : maintenance_server;
  stats_api : stats_server
}.

(** The three maps that the function returns. *)
Record fetched := {
  all_vehicle_locations : gmap string json;
  all_vehicle_locations_other : list (json * json);
  all_vehicle_stats_map : gmap string (gmap string json);
  all_vehicle_maintenance_map : gmap string json
}.

(** The requests that a call sent to each endpoint and the warnings that
    the function itself showed. *)
Record fetch_report := {
  location_requests : list string;
  maintenance_requests : list (option json);
  stats_requests : list stats_params;
  fetch_warnings : list string
}.

Definition no_ids_warning : string :=
  "No se proporcionaron IDs de vehículos para buscar datos.".
Definition no_locations_warning : string :=
  "No se pudieron obtener datos de ubicación.".
Definition no_maintenance_warning : string :=
  "No se pudieron obtener datos de mantenimiento (DTCs).".
Definition no_stats_warning : string :=
  "No se pudieron obtener estadísticas del motor.".

Definition warn_if (empty : bool) (warning : string) : list string :=
  if empty then [warning] else [].

(** [None] when the maintenance loop is still running after [fuel] pages. *)
Definition fetch_samsara_data_multiple_vehicles (api : telemetry_servers)
    (fuel : nat) (vehicle_ids_to_fetch : list string)
  : option (result fetched * fetch_report) :=
  match vehicle_ids_to_fetch with
  | [] =>
      Some (Ok {| all_vehicle_locations := ∅;
                  all_vehicle_locations_other := [];
                  all_vehicle_stats_map := ∅;
                  all_vehicle_maintenance_map := ∅ |},
            {| location_requests := []; maintenance_requests := [];
               stats_requests := []; fetch_warnings := [no_ids_warning] |})
  | _ :: _ =>
      match get_vehicle_locations (locations_api api) vehicle_ids_to_fetch
      with
      | Threw e lst =>
          Some (Raise e,
                {| location_requests := locations_sent lst;
                   maintenance_requests := []; stats_requests := [];
                   fetch_warnings := [] |})
      | Done lst =>
          let w1 :=
            warn_if (bool_decide (locations_map lst = ∅
                                  /\ locations_other lst = []))
              no_locations_warning in
          match get_all_vehicle_maintenance_data (maintenance_api api) fuel
                  vehicle_ids_to_fetch with
          | None => None
          | Some (Raise e, mst) =>
              Some (Raise e,
                    {| location_requests := locations_sent lst;
                       maintenance_requests := maintenance_sent mst;
                       stats_requests := []; fetch_warnings := w1 |})
          | Some (Ok maintenance, mst) =>
              let w2 :=
                w1 ++ warn_if (bool_decide (maintenance = ∅))
                        no_maintenance_warning in
              match get_stats_for_multiple_vehicles (stats_api api)
                      vehicle_ids_to_fetch all_desired_stat_types with
              | Threw e sst =>
                  Some (Raise e,
                        {| location_requests := locations_sent lst;
                           maintenance_requests := maintenance_sent mst;
                           stats_requests := stats_sent sst;
                           fetch_warnings := w2 |})
              | Done sst =>
                  Some (Ok {| all_vehicle_locations := locations_map lst;
                              all_vehicle_locations_other :=
                                locations_other lst;
                              all_vehicle_stats_map := stats_map sst;
                              all_vehicle_maintenance_map := maintenance |},
                        {| location_requests := locations_sent lst;
                           maintenance_requests := maintenance_sent mst;
                           stats_requests := stats_sent sst;
                           fetch_warnings :=
                             w2 ++ warn_if (bool_decide (stats_map sst = ∅))
                                     no_stats_warning |})
              end
          end
      end
  end.

(** *** [fetch_samsara_data_single_vehicle] *)

Definition fetch_samsara_data_single_vehicle (api : telemetry_servers)
    (fuel : nat) (vehicle_id_to_fetch : string)
  : option (result fetched * fetch_report) :=
  match get_vehicle_locations (locations_api api) [vehicle_id_to_fetch] with
  | Threw e lst =>
      Some (Raise e,
            {| location_requests := locations_sent lst;
               maintenance_requests := []; stats_requests := [];
               fetch_warnings := [] |})
  | Done lst =>
      match get_all_vehicle_maintenance_data (maintenance_api api) fuel
              [vehicle_id_to_fetch] with
      | None => None
      | Some (Raise e, mst) =>
          Some (Raise e,
                {| location_requests := locations_sent lst;
                   maintenance_requests := maintenance_sent mst;
                   stats_requests := []; fetch_warnings := [] |})
      | Some (Ok maintenance, mst) =>
          match get_stats_for_multiple_vehicles (stats_api api)
                  [vehicle_id_to_fetch] all_desired_stat_types with
          | Threw e sst =>
              Some (Raise e,
                    {| location_requests := locations_sent lst;
                       maintenance_requests := maintenance_sent mst;
                       stats_requests := stats_sent sst;
                       fetch_warnings := [] |})
          | Done sst =>
              Some (Ok {| all_vehicle_locations := locations_map lst;
                          all_vehicle_locations_other := locations_other lst;
                          all_vehicle_stats_map := stats_map sst;
                          all_vehicle_maintenance_map := maintenance |},
                    {| location_requests := locations_sent lst;
                       maintenance_requests := maintenance_sent mst;
                       stats_requests := stats_sent sst;
                       fetch_warnings := [] |})
          end
      end
  end.

(** *** The data load of a refresh *)

Record session_state := {
  all_gemelos_digitales : gmap string gemelo_digital;
  all_vehicle_details : list json;
  initial_load_complete : bool
}.

(** The session of a first run. *)
Definition session_init : session_state :=
  {| all_gemelos_digitales := ∅; all_vehicle_details := [];
     initial_load_complete := false |}.

(** How the load ends: the twins are stored, the script stops at
    [st.stop()], or an exception escapes; with the session as it is then
    and the report of the telemetry fetch, if it was called. *)
Inductive load_outcome :=
  | Loaded (s : session_state) (report : fetch_report)
  | Stopped (s : session_state)
  | Failing (e : exn) (s : session_state) (report : option fetch_report).

(** The block from [vehicle_details_list = get_all_vehicle_details_list()]
    to [st.stop()]; [None] when one of the two paginations is still running
    after [fuel] pages. *)
Definition data_load (roster_api : roster_server) (api : telemetry_servers)
    (fuel : nat) (clock : nat -> string) (s : session_state)
  : option load_outcome :=
  match get_all_vehicle_details_list roster_api fuel with
  | None => None
  | Some (Raise e, _) => Some (Failing e s None)
  | Some (Ok [], _) => Some (Stopped s)
  | Some (Ok vehicle_details_list, _) =>
      let s1 :=
        {| all_gemelos_digitales := all_gemelos_digitales s;
           all_vehicle_details := vehicle_details_list;
           initial_load_complete := initial_load_complete s |} in
      match vehicle_ids vehicle_details_list with
      | Raise e => Some (Failing e s1 None)
      | Ok ids =>
          match fetch_samsara_data_multiple_vehicles api fuel ids with
          | None => None
          | Some (Raise e, report) => Some (Failing e s1 (Some report))
          | Some (Ok data, report) =>
              match build_gemelos_map (all_vehicle_details s1)
                      (all_vehicle_locations data)
                      (all_vehicle_stats_map data)
                      (all_vehicle_maintenance_map data) clock with
              | Raise e => Some (Failing e s1 (Some report))
              | Ok temp_gemelos_map =>
                  Some (Loaded
                          {| all_gemelos_digitales := temp_gemelos_map;
                             all_vehicle_details := vehicle_details_list;
                             initial_load_complete := true |}
                          report)
              end
          end
      end
  end.

(** ** The 3D model of a vehicle *)

(** [MODEL_MAP], in the order of its items. *)
Definition MODEL_MAP : list (string * string) :=
  [("Cascadia", "modelos_3d/CASCADIA.glb");
   ("T680", "modelos_3d/kenworth_t680.glb");
   ("VNL", "modelos_3d/volvo_vnl.glb");
   ("default", "truck5.glb")].

(** [d.get(k)] on a dict with string keys and values. *)
Fixpoint dict_get (k : string) (d : list (string * string)) : option string :=
  match d with
  | [] => None
  | (k', v) :: rest => if String.eqb k k' then Some v else dict_get k rest
  end.

(** [a in b] on strings. *)
Fixpoint py_in (a b : string) : bool :=
  String.prefix a b
  || match b with
     | EmptyString => false
     | String _ rest => py_in a rest
     end.

(** [not path] for a path that is [None] or a string. *)
Definition no_path (path : option string) : bool :=
  match path with
  | None => true
  | Some p => String.eqb p ""
  end.

(** The choice of the file to display, from the [model] of the selected
    twin: the exact key, else the first key that occurs in the name
    whatever the case, else the default. A list or a dict cannot be looked
    up, and only a string has [lower]; [py_lower] is [str.lower]. *)
Definition model_path_to_display (py_lower : string -> string)
    (vehicle_model_name : json) : result (option string) :=
  match vehicle_model_name with
  | JArr _ | JObj _ => Raise TypeError
  | JStr name =>
      let exact := dict_get name MODEL_MAP in
      let by_keyword :=
        if no_path exact then
          match
            find (fun kv => py_in (py_lower kv.1) (py_lower name)) MODEL_MAP
          with
          | Some kv => Some kv.2
          | None => exact
          end
        else exact in
      Ok (if no_path by_keyword
          then Some (default "truck5.glb" (dict_get "default" MODEL_MAP))
          else by_keyword)
  | _ => Raise AttributeError
  end.

(** ** Notions used to state the properties of the roster fetcher *)

(** A page of the roster as the API documents it: the vehicles and the
    cursor of the next page. *)
Definition roster_body (items : list json) (cursor : json) : json :=
  JObj [("data", JArr items); ("pagination", JObj [("endCursor", cursor)])].

(** The cursor of the last of the pages read so far, [None] before the
    first. *)
Definition last_cursor (pages : list (list json * json)) : json :=
  match last pages with
  | Some (_, cursor) => cursor
  | None => JNull
  end.

(** The [after] parameter that follows the pages read so far. *)
Definition cursor_after (pages : list (list json * json)) : option json :=
  if truthy (last_cursor pages) then Some (last_cursor pages) else None.

(** The server answers the request for each of the [pages] in turn, when
    it carries the cursor of the page before, with the vehicles of the page
    and a cursor to a next page. *)
Definition serves_pages (server : roster_server)
    (pages : list (list json * json)) : Prop :=
  forall k items cursor,
    pages !! k = Some (items, cursor) ->
    truthy cursor = true /\
    server (S k) (cursor_after (take k pages))
    = Body (roster_body items cursor).

(** ** More sample data *)

(** A roster server with one page, the sample roster, and one whose second
    page fails; a roster in which two entries have the key "1". *)
Definition one_page_roster : roster_server :=
  fun _ _ => Body (roster_body sample_roster JNull).

Definition second_roster_page_fails : roster_server :=
  fun page _ =>
    match page with
    | 1%nat => Body (roster_body [sample_vehicle_1] (JStr "r1"))
    | _ => Failed
    end.

Definition roster_with_a_repeated_key : list json :=
  [JObj [("id", JInt 1); ("name", JStr "A")];
   JObj [("id", JStr "1"); ("name", JStr "B")]].

(** A locations server that answers every request with the location of
    vehicle 1, and one whose second entry has no [location]. *)
Definition sample_location_1 : json :=
  JObj [("latitude", JInt 19); ("longitude", JInt (-99))].

Definition locations_of_vehicle_1 : locations_server :=
  fun _ _ =>
    Body (JObj [("data",
                 JArr [JObj [("id", JStr "1");
                             ("location", sample_location_1)]])]).

Definition entry_without_location : locations_server :=
  fun _ _ =>
    Body (JObj [("data",
                 JArr [JObj [("id", JStr "2");
                             ("location", sample_location_1)];
                       JObj [("id", JStr "1")]])]).

(** A maintenance server whose pages are empty and always have a cursor. *)
Definition endless_pages : maintenance_server :=
  fun _ _ => Body (maintenance_body [] (JStr "c")).

(** The three telemetry servers: all failing, and all answering. *)
Definition telemetry_down : telemetry_servers :=
  {| locations_api := fun _ _ => Failed;
     maintenance_api := fun _ _ => Failed;
     stats_api := fun _ _ _ => Failed |}.

Definition telemetry_up : telemetry_servers :=
  {| locations_api := locations_of_vehicle_1;
     maintenance_api := two_pages;
     stats_api := string_id_stats |}.

(** A value that can be the key of a dict. *)
Definition hashable (v : json) : bool :=
  match v with
  | JArr _ | JObj _ => false
  | _ => true
  end.

(** A location entry that is stored without an exception: a dict with
    [location] and a hashable [id]. *)
Definition location_entry_ok (entry : json) : bool :=
  match entry with
  | JObj kvs =>
      match assoc "location" kvs, assoc "id" kvs with
      | Some _, Some id => hashable id
      | _, _ => false
      end
  | _ => false
  end.

(** ** Notions used to state the properties of the maintenance pagination *)

(** The id under which the fetcher looks an item up,
    [str(vehicle_item.get('id'))]. *)
Definition item_id (item : json) : string :=
  match item with
  | JObj kvs => py_str (default JNull (assoc "id" kvs))
  | _ => ""
  end.

(** The ids of the items of the pages read so far. *)
Definition seen_ids (pages : list (list json * json)) : list string :=
  concat (map (fun p => map item_id p.1) pages).

(** The still-unmatched targets: those for which none of the pages read so
    far has an item. *)
Definition unmatched (target_vehicle_ids : list string)
    (pages : list (list json * json)) : gset string :=
  list_to_set target_vehicle_ids ∖ list_to_set (seen_ids pages).

(** The server answers the request for each of the [pages] in turn, when it
    carries the cursor of the page before, with the items of the page and
    its cursor. *)
Definition serves_maintenance (server : maintenance_server)
    (pages : list (list json * json)) : Prop :=
  forall k items cursor,
    pages !! k = Some (items, cursor) ->
    server (S k) (cursor_after (take k pages))
    = Body (maintenance_body items cursor).

(** * Properties *)

(** ** Binary64: the quotient of two integers in range is finite *)

Lemma Zdigits2_log2 p : Zpos (digits2_pos p) = Z.log2 (Zpos p) + 1.
Proof.
  assert (Hs : forall q, digits2_pos q = Pos.size q)
    by (induction q; simpl; congruence).
  rewrite Hs. destruct p; simpl; lia.
Qed.

Lemma Zdigits2_bounds m :
  0 < m -> 2 ^ (Zdigits2 m - 1) <= m < 2 ^ Zdigits2 m.
Proof.
  destruct m as [|p|p]; try lia. intros _.
  unfold Zdigits2. rewrite Zdigits2_log2.
  replace (Z.log2 (Zpos p) + 1 - 1) with (Z.log2 (Zpos p)) by lia.
  apply Z.log2_spec. lia.
Qed.

Lemma Zdigits2_nonneg m : 0 <= Zdigits2 m.
Proof. destruct m; simpl; lia. Qed.

Lemma Zdigits2_le m k : 0 <= m < 2 ^ k -> 0 <= k -> Zdigits2 m <= k.
Proof.
  intros [H0 Hk] Hk0.
  destruct (Z.eq_dec m 0) as [->|Hne]; [simpl; lia|].
  destruct (Zdigits2_bounds m ltac:(lia)) as [Hlo _].
  destruct (Z.le_gt_cases (Zdigits2 m) k) as [|Hgt]; [assumption|].
  assert (2 ^ k <= 2 ^ (Zdigits2 m - 1))
    by (apply Z.pow_le_mono_r; lia).
  lia.
Qed.

Lemma Zdigits2_div m k :
  0 <= m -> 0 <= k -> Zdigits2 (m / 2 ^ k) <= Z.max 0 (Zdigits2 m - k).
Proof.
  intros Hm Hk.
  assert (H2k : 0 < 2 ^ k) by (apply Z.pow_pos_nonneg; lia).
  assert (Hq : 0 <= m / 2 ^ k) by (apply Z.div_pos; lia).
  destruct (Z.eq_dec m 0) as [->|Hne].
  { rewrite Z.div_0_l by lia. simpl. lia. }
  destruct (Zdigits2_bounds m ltac:(lia)) as [_ Hhi].
  destruct (Z.le_gt_cases k (Zdigits2 m)) as [Hle|Hgt].
  - apply Z.le_trans with (Zdigits2 m - k); [|lia].
    apply Zdigits2_le; [|lia]. split; [assumption|].
    apply Z.div_lt_upper_bound; [assumption|].
    rewrite <- Z.pow_add_r by lia.
    replace (k + (Zdigits2 m - k)) with (Zdigits2 m) by lia. assumption.
  - assert (2 ^ Zdigits2 m <= 2 ^ k)
      by (apply Z.pow_le_mono_r; lia).
    rewrite Z.div_small by lia. simpl. lia.
Qed.

Lemma shr_1_m r : 0 <= shr_m r -> shr_m (shr_1 r) = shr_m r / 2.
Proof.
  destruct r as [m rb sb]. simpl. intros Hm.
  destruct m as [|[p|p|]|p]; cbn [shr_m]; try lia; try reflexivity.
  - apply Z.div_unique with (r := 1); lia.
  - apply Z.div_unique with (r := 0); lia.
Qed.

Lemma iter_shr_1_m p : forall r,
  0 <= shr_m r ->
  shr_m (SpecFloat.iter_pos shr_1 p r) = shr_m r / 2 ^ Zpos p.
Proof.
  assert (Hnn : forall r, 0 <= shr_m r -> 0 <= shr_m (shr_1 r)).
  { intros r Hr. rewrite shr_1_m by assumption. apply Z.div_pos; lia. }
  induction p as [p IH|p IH|]; intros r Hr; simpl SpecFloat.iter_pos.
  - assert (H1 := Hnn r Hr).
    assert (H2 : 0 <= shr_m (SpecFloat.iter_pos shr_1 p (shr_1 r))).
    { rewrite IH by assumption. apply Z.div_pos; [assumption|].
      apply Z.pow_pos_nonneg; lia. }
    rewrite IH, IH, shr_1_m by assumption.
    rewrite !Z.div_div by (try apply Z.pow_pos_nonneg; lia).
    f_equal. rewrite Pos2Z.inj_xI.
    replace (2 * Zpos p + 1) with (1 + Zpos p + Zpos p) by lia.
    rewrite !Z.pow_add_r by lia. rewrite Z.pow_1_r. ring.
  - assert (H2 : 0 <= shr_m (SpecFloat.iter_pos shr_1 p r)).
    { rewrite IH by assumption. apply Z.div_pos; [assumption|].
      apply Z.pow_pos_nonneg; lia. }
    rewrite IH, IH by assumption.
    rewrite Z.div_div by (try apply Z.pow_pos_nonneg; lia).
    f_equal. rewrite <- Z.pow_add_r by lia. f_equal. lia.
  - rewrite shr_1_m by assumption. reflexivity.
Qed.

Lemma shr_record_of_loc_m m l : shr_m (shr_record_of_loc m l) = m.
Proof. destruct l as [|[]]; reflexivity. Qed.

Lemma shr_fexp_spec m e l :
  0 <= m ->
  forall n, n = fexp Float.prec Float.emax (Zdigits2 m + e) - e ->
  snd (shr_fexp Float.prec Float.emax m e l) = e + Z.max 0 n /\
  shr_m (fst (shr_fexp Float.prec Float.emax m e l)) = m / 2 ^ Z.max 0 n.
Proof.
  intros Hm n Hn. unfold shr_fexp, shr. rewrite <- Hn.
  destruct n as [|p|p]; cbn [fst snd].
  - rewrite shr_record_of_loc_m, Z.div_1_r. split; [lia | reflexivity].
  - rewrite iter_shr_1_m by (rewrite shr_record_of_loc_m; assumption).
    rewrite shr_record_of_loc_m. split; [lia | reflexivity].
  - rewrite shr_record_of_loc_m, Z.div_1_r. split; [lia | reflexivity].
Qed.

Lemma round_nearest_even_bounds m l :
  m <= round_nearest_even m l <= m + 1.
Proof.
  destruct l as [|[]]; simpl; try lia. destruct (Z.even m); lia.
Qed.

Lemma Zdigits2_succ m k : 0 <= m -> m <= k <= m + 1 ->
  Zdigits2 k <= Zdigits2 m + 1.
Proof.
  intros Hm Hk. pose proof (Zdigits2_nonneg m).
  apply Zdigits2_le; [|lia]. split; [lia|].
  rewrite Z.pow_add_r, Z.pow_1_r by lia.
  destruct (Z.eq_dec m 0) as [->|Hne]; [simpl in *; lia|].
  destruct (Zdigits2_bounds m ltac:(lia)). lia.
Qed.

Lemma binary_round_aux_finite sx mx ex lx :
  0 <= mx -> Zdigits2 mx + ex <= 1023 -> ex <= 971 ->
  forall s,
    binary_round_aux Float.prec Float.emax sx mx ex lx <> S754_infinity s.
Proof.
  intros Hm Hd He s. unfold binary_round_aux.
  destruct (shr_fexp_spec mx ex lx Hm _ eq_refl) as [He1 Hm1].
  destruct (shr_fexp Float.prec Float.emax mx ex lx) as [mrs' e'].
  cbn [fst snd] in He1, Hm1.
  set (n1 := fexp Float.prec Float.emax (Zdigits2 mx + ex) - ex) in *.
  assert (Hm1' : 0 <= shr_m mrs').
  { rewrite Hm1. apply Z.div_pos; [assumption|].
    apply Z.pow_pos_nonneg; lia. }
  assert (Hd1 : Zdigits2 (shr_m mrs') <= Z.max 0 (Zdigits2 mx - Z.max 0 n1)).
  { rewrite Hm1. apply Zdigits2_div; lia. }
  set (m2 := round_nearest_even (shr_m mrs') (loc_of_shr_record mrs')).
  pose proof (round_nearest_even_bounds (shr_m mrs') (loc_of_shr_record mrs'))
    as Hr. fold m2 in Hr.
  pose proof (Zdigits2_succ _ _ Hm1' Hr) as Hd2.
  destruct (shr_fexp_spec m2 e' loc_Exact ltac:(lia) _ eq_refl) as [He2 _].
  destruct (shr_fexp Float.prec Float.emax m2 e' loc_Exact) as [mrs'' e''].
  cbn [fst snd] in He2.
  destruct (shr_m mrs''); try discriminate.
  destruct (Z.leb e'' (Float.emax - Float.prec)) eqn:El; try discriminate.
  exfalso. apply Z.leb_gt in El.
  pose proof (Zdigits2_nonneg mx). pose proof (Zdigits2_nonneg m2).
  unfold fexp, emin, Float.prec, Float.emax in *. lia.
Qed.

Lemma SFdiv_core_binary_digits p d :
  let '(mz, ez, lz) :=
    SFdiv_core_binary Float.prec Float.emax (Zpos p) 0 (Zpos d) 0 in
  0 <= mz /\ ez <= 0 /\ Zdigits2 mz + ez <= Zdigits2 (Zpos p).
Proof.
  unfold SFdiv_core_binary.
  set (e' := Z.min _ _).
  assert (He : e' <= 0) by (unfold e'; lia).
  set (s := 0 - 0 - e').
  assert (Hs : 0 <= s) by (unfold s; lia).
  assert (Hse : e' = - s) by (unfold s; lia). clearbody s.
  set (m' := match s with Zpos _ => Z.shiftl (Zpos p) s | Z0 => Zpos p
             | Zneg _ => 0 end).
  assert (Hm' : m' = Zpos p * 2 ^ s).
  { unfold m'. destruct s as [|ps|ps]; [|apply Z.shiftl_mul_pow2|]; lia. }
  clearbody m'.
  assert (H2s : 0 < 2 ^ s) by (apply Z.pow_pos_nonneg; lia).
  pose proof (Z_div_mod m' (Zpos d) ltac:(lia)) as Hdiv.
  destruct (Z.div_eucl m' (Zpos d)) as [q r]. destruct Hdiv as [Hq Hr].
  assert (Hq0 : 0 <= q) by nia.
  assert (Hqm : q <= m') by nia.
  split; [assumption|]. split; [assumption|].
  destruct (Zdigits2_bounds (Zpos p) ltac:(lia)) as [_ Hp].
  pose proof (Zdigits2_nonneg (Zpos p)).
  assert (Zdigits2 q <= Zdigits2 (Zpos p) + s); [|lia].
  apply Zdigits2_le; [|lia]. split; [assumption|].
  rewrite Z.pow_add_r by lia. nia.
Qed.

Lemma of_quot_finite z d s :
  Z.abs z < 2 ^ 1023 -> Float.of_quot z d <> S754_infinity s.
Proof.
  assert (H : forall sx p, Zpos p < 2 ^ 1023 ->
    Float.div (S754_finite sx p 0) (S754_finite false d 0)
    <> S754_infinity s).
  { intros sx p Hp. unfold Float.div, SFdiv.
    pose proof (SFdiv_core_binary_digits p d) as Hc.
    destruct (SFdiv_core_binary _ _ _ _ _ _) as [[mz ez] lz].
    destruct Hc as (Hm & He & Hd).
    apply binary_round_aux_finite; try lia.
    assert (Zdigits2 (Zpos p) <= 1023); [|lia].
    apply Zdigits2_le; lia. }
  destruct z as [|p|p]; unfold Float.of_quot; intros Hz.
  - discriminate.
  - apply H. lia.
  - apply H. lia.
Qed.

(** ** Binary64: the model on values whose Python result is known *)

(** [round(2.675, 2) == 2.67]: the double nearest to 2.675 is below it. *)
Example round2_2_675 :
  Float.round2 (Float.of_decimal 2675 3) = Float.of_decimal 267 2.
Proof. vm_compute. reflexivity. Qed.

(** [round(0.125, 2) == 0.12] and [round(0.375, 2) == 0.38]: both are exact
    doubles and exact ties, which go to the even digit. *)
Example round2_ties :
  Float.round2 (Float.of_decimal 125 3) = Float.of_decimal 12 2 /\
  Float.round2 (Float.of_decimal 375 3) = Float.of_decimal 38 2.
Proof. split; vm_compute; reflexivity. Qed.

(** [round(-0.001, 2)] is [-0.0], and [round(85.0, 2)] is [85.0]. *)
Example round2_signed_zero_and_integer :
  Float.round2 (Float.of_decimal (-1) 3) = S754_zero true /\
  Float.round2 (Float.of_Z 85) = Float.of_Z 85.
Proof. split; vm_compute; reflexivity. Qed.

(** [1 / 3] is [0x1.5555555555555p-2]. *)
Example one_third :
  Float.of_quot 1 3 = S754_finite false 6004799503160661 (-54).
Proof. vm_compute. reflexivity. Qed.

(** [10**400 / 1000] raises [OverflowError]; [1e308 / 1000] and
    [True / 1000] do not raise. *)
Example truediv_overflow :
  py_truediv (JInt (10 ^ 400)) 1000 = Raise OverflowError /\
  is_Ok (py_truediv (JFloat (Float.of_quot (10 ^ 308) 1)) 1000) /\
  py_truediv (JBool true) 1000 = Ok (Float.of_decimal 1 3).
Proof.
  split; [vm_compute; reflexivity|].
  split; [eexists; reflexivity | vm_compute; reflexivity].
Qed.

(** ** The conversions return on stats in range *)

Lemma scaled_stat_ok v d : stat_ok v = true -> is_Ok (scaled_stat v d).
Proof.
  unfold scaled_stat, py_truediv. intros Hv.
  destruct v as [ |b|z|f| | | ]; simpl; try (eexists; reflexivity).
  - assert (H : Z.abs (if b then 1 else 0) < 2 ^ 1023).
    { apply Z.lt_le_trans with (2 ^ 1); [destruct b; simpl; lia|].
      apply Z.pow_le_mono_r; lia. }
    destruct (Float.of_quot (if b then 1 else 0) d) eqn:E;
      try (eexists; reflexivity).
    now apply of_quot_finite in E.
  - simpl in Hv. apply Z.ltb_lt in Hv.
    destruct (Float.of_quot z d) eqn:E; try (eexists; reflexivity).
    now apply of_quot_finite in E.
Qed.

(** ** The result monad *)

Lemma bind_Ok {A B} (r : result A) (k : A -> result B) b :
  (r ≫= k) = Ok b -> exists a, r = Ok a /\ k a = Ok b.
Proof. destruct r as [a|e]; simpl; [eauto | discriminate]. Qed.

Lemma process_vehicle_data_inv details locs stats maint now g :
  process_vehicle_data details locs stats maint now = Ok g ->
  exists kvs loc hours coolant ambient mnt from_dtcs,
    let id := py_str (default (JStr "") (assoc "id" kvs)) in
    let sd : gmap string json := default ∅ (stats !! id) in
    details = JObj kvs /\
    location_block (default JNull (locs !! id)) = Ok loc /\
    scaled_stat (default JNull (sd !! "obdEngineSeconds")) 3600 = Ok hours /\
    scaled_stat (default JNull (sd !! "engineCoolantTemperatureMilliC")) 1000
      = Ok coolant /\
    scaled_stat (default JNull (sd !! "ambientAirTemperatureMilliC")) 1000
      = Ok ambient /\
    maintenance_block (default (JObj []) (maint !! id)) = Ok mnt /\
    dtc_alerts (mf_dtcs mnt) = Ok from_dtcs /\
    vehicle_id g = id /\
    latitude g = loc_latitude loc /\
    longitude g = loc_longitude loc /\
    speed_mph g = loc_speed_mph loc /\
    current_address g = loc_current_address loc /\
    location_updated_at g = loc_updated_at loc /\
    gps_odometer_meters g = NA /\
    fuel_perc_remaining g = NA /\
    engine_hours g = hours /\
    engine_oil_pressure_kpa g
      = rounded_stat (default JNull (sd !! "engineOilPressureKPa")) /\
    engine_coolant_temperature_c g = coolant /\
    ambient_air_temperature_c g = ambient /\
    engine_rpm g = plain_stat (default JNull (sd !! "engineRpm")) /\
    engine_check_light_warning g = mf_warning mnt /\
    engine_check_light_emissions g = mf_emissions mnt /\
    engine_check_light_protect g = mf_protect mnt /\
    engine_check_light_stop g = mf_stop mnt /\
    diagnostic_trouble_codes g = mf_dtcs mnt /\
    last_data_sync g = now /\
    (status_alert g, alert_color g)
      = alert_block (from_dtcs ++ light_alerts mnt).
Proof.
  unfold process_vehicle_data. intros H.
  destruct details as [ | | | | | |kvs]; try discriminate. simpl in H.
  repeat (apply bind_Ok in H as (? & ? & H); cbv beta zeta in H).
  destruct (alert_block _) as [status color] eqn:Ha.
  injection H as <-. simpl.
  eexists kvs, _, _, _, _, _, _. rewrite Ha.
  repeat split; eassumption.
Qed.

(** ** The twin builder *)

Lemma scaled_stat_number v d r :
  scaled_stat v d = Ok r -> is_number v = true ->
  exists q, py_truediv v d = Ok q /\ r = JFloat (Float.round2 q).
Proof.
  unfold scaled_stat. intros H Hn. rewrite Hn in H.
  apply bind_Ok in H as (q & Hq & H). injection H as <-. eauto.
Qed.

(** C7. A roster vehicle whose id is in none of the three maps gets a twin
    in which every dynamic field is the marker "N/A" (which is neither zero
    nor the empty string), the four lights are [False], the list of trouble
    codes is empty, the status is "OPERANDO NORMALMENTE" and the colour is
    green. *)
Theorem absent_vehicle_is_unavailable details id locs stats maint now :
  py_get details "id" (JStr "") = Ok id ->
  locs !! py_str id = None ->
  stats !! py_str id = None ->
  maint !! py_str id = None ->
  exists g,
    process_vehicle_data details locs stats maint now = Ok g /\
    Forall (fun field => field g = NA) dynamic_fields /\
    NA <> JInt 0 /\ NA <> JStr "" /\
    Forall (fun flag => flag g = JBool false) light_flags /\
    diagnostic_trouble_codes g = [] /\
    status_alert g = OPERANDO_NORMALMENTE /\
    alert_color g = "green".
Proof.
  intros Hid Hl Hs Hm.
  destruct details as [ | | | | | |kvs]; try discriminate.
  injection Hid as <-.
  unfold process_vehicle_data. simpl. rewrite Hl, Hs, Hm. simpl.
  eexists. split; [reflexivity|]. simpl.
  repeat split; try discriminate; repeat constructor.
Qed.


Lemma mapM_Ok_Forall2 {A B} (f : A -> result B) l l' :
  mapM f l = Ok l' -> Forall2 (fun x y => f x = Ok y) l l'.
Proof.
  revert l'. induction l as [|x l IH]; intros l' H; simpl in H.
  - injection H as <-. constructor.
  - apply bind_Ok in H as (y & Hy & H).
    apply bind_Ok in H as (k & Hk & H). injection H as <-.
    constructor; auto.
Qed.

Lemma dtc_info_Ok code info :
  dtc_info code = Ok info ->
  exists spn fmi,
    py_get code "spnId" NA = Ok spn /\ py_get code "fmiId" NA = Ok fmi /\
    info = "SPN: " +:+ py_str spn +:+ " (FMI: " +:+ py_str fmi +:+ ")".
Proof.
  unfold dtc_info. intros H.
  apply bind_Ok in H as (spn & Hs & H).
  apply bind_Ok in H as (fmi & Hf & H). injection H as <-. eauto.
Qed.

(** C3 (amended). In a built twin whose list of trouble codes is not empty,
    the status is "ALERTA: " followed by the clause
    "Fallas de motor (DTCs: ...)" that holds one "SPN: s (FMI: f)" per entry
    of the list, in the order of the list and joined by "; ", then by the
    clause of the lights when a light is on; the colour is red. *)
Theorem dtc_alert_lists_every_code details locs stats maint now g :
  process_vehicle_data details locs stats maint now = Ok g ->
  diagnostic_trouble_codes g <> [] ->
  exists infos,
    Forall2
      (fun code info =>
         exists spn fmi,
           py_get code "spnId" NA = Ok spn /\
           py_get code "fmiId" NA = Ok fmi /\
           info = "SPN: " +:+ py_str spn +:+ " (FMI: " +:+ py_str fmi +:+ ")")
      (diagnostic_trouble_codes g) infos /\
    status_alert g
      = "ALERTA: "
        +:+ join "; "
              (("Fallas de motor (DTCs: " +:+ join "; " infos +:+ ")")
               :: light_alerts (lights_of g)) /\
    alert_color g = "red".
Proof.
  intros H Hne.
  apply process_vehicle_data_inv in H
    as (kvs & loc & hours & coolant & ambient & mnt & from_dtcs & H).
  cbv zeta in H.
  destruct H as (_ & _ & _ & _ & _ & _ & Hd & _ & H).
  destruct H as (_ & _ & _ & _ & _ & _ & _ & _ & _ & _ & _ & _ & H).
  destruct H as (Hw & He & Hp & Hs & Hdtc & _ & Ha).
  assert (Hl : light_alerts (lights_of g) = light_alerts mnt).
  { unfold light_alerts, check_light_alerts, lights_of. simpl.
    now rewrite Hw, He, Hp, Hs. }
  rewrite Hdtc in Hne |- *. rewrite Hl.
  unfold dtc_alerts in Hd.
  destruct (mf_dtcs mnt) as [|code codes] eqn:E; [congruence|].
  apply bind_Ok in Hd as (infos & Hi & Hd). injection Hd as <-.
  exists infos. split.
  - apply mapM_Ok_Forall2 in Hi.
    eapply Forall2_impl; [exact Hi|]. intros ? ?. apply dtc_info_Ok.
  - simpl in Ha. injection Ha as -> ->. split; reflexivity.
Qed.

(** C6 (amended). In a built twin the oil pressure and the speed are
    [round(v, 2)] of a source value that is a number ([int], [bool] or
    [float]; an [int] is unchanged by the rounding), the engine RPM is the
    source value itself, not rounded, and each of the three is the marker
    "N/A" when the source value is not a number. *)
Theorem oil_and_speed_rounded_rpm_unchanged details locs stats maint now g :
  process_vehicle_data details locs stats maint now = Ok g ->
  let sd : gmap string json := default ∅ (stats !! vehicle_id g) in
  let oil := default JNull (sd !! "engineOilPressureKPa") in
  let rpm := default JNull (sd !! "engineRpm") in
  let loc := default JNull (locs !! vehicle_id g) in
  engine_oil_pressure_kpa g = (if is_number oil then py_round2 oil else NA) /\
  engine_rpm g = (if is_number rpm then rpm else NA) /\
  (if truthy loc
   then exists speed,
          py_get loc "speed" JNull = Ok speed /\
          speed_mph g = (if is_number speed then py_round2 speed else NA)
   else speed_mph g = NA) /\
  (forall z, py_round2 (JInt z) = JInt z) /\
  (forall f, py_round2 (JFloat f) = JFloat (Float.round2 f)).
Proof.
  intros H.
  apply process_vehicle_data_inv in H
    as (kvs & loc & hours & coolant & ambient & mnt & from_dtcs & H).
  cbv zeta in H.
  destruct H as (_ & Hloc & _ & _ & _ & _ & _ & Hid & H).
  rewrite Hid. cbv zeta.
  destruct H as (_ & _ & -> & _ & _ & _ & _ & _ & -> & _ & _ & -> & _).
  repeat split.
  unfold location_block in Hloc.
  destruct (truthy _).
  - apply bind_Ok in Hloc as (lat & _ & Hloc).
    apply bind_Ok in Hloc as (lon & _ & Hloc).
    apply bind_Ok in Hloc as (speed & Hsp & Hloc).
    apply bind_Ok in Hloc as (rg & _ & Hloc).
    apply bind_Ok in Hloc as (addr & _ & Hloc).
    apply bind_Ok in Hloc as (t & _ & Hloc).
    apply bind_Ok in Hloc as (u & _ & Hloc).
    injection Hloc as <-. simpl. eauto.
  - injection Hloc as <-. reflexivity.
Qed.

Lemma process_vehicle_data_key details locs stats maint now g :
  process_vehicle_data details locs stats maint now = Ok g ->
  twin_key details = Ok (vehicle_id g).
Proof.
  intros H.
  apply process_vehicle_data_inv in H
    as (kvs & loc & hours & coolant & ambient & mnt & from_dtcs & H).
  cbv zeta in H. destruct H as (-> & _ & _ & _ & _ & _ & _ & -> & _).
  reflexivity.
Qed.

Lemma gemelos_loop_keys locs stats maint clock roster :
  forall i acc,
    (forall j d, roster !! j = Some d ->
       is_Ok (process_vehicle_data d locs stats maint (clock (i + j)%nat))) ->
    exists twins keys,
      gemelos_loop i roster locs stats maint clock acc = Ok twins /\
      mapM twin_key roster = Ok keys /\
      dom twins = dom acc ∪ list_to_set keys /\
      ((forall k g, acc !! k = Some g -> vehicle_id g = k) ->
       forall k g, twins !! k = Some g -> vehicle_id g = k).
Proof.
  induction roster as [|d roster IH]; intros i acc Hok; simpl.
  - exists acc, []. repeat split; auto. set_solver.
  - destruct (Hok 0%nat d eq_refl) as [g Hg].
    rewrite Nat.add_0_r in Hg. rewrite Hg. simpl.
    destruct (IH (S i) (<[vehicle_id g := g]> acc)) as (twins & keys & Hl & Hk & Hd & Hv).
    { intros j d' Hj. replace (S i + j)%nat with (i + S j)%nat by lia.
      apply Hok. exact Hj. }
    exists twins, (vehicle_id g :: keys).
    rewrite (process_vehicle_data_key _ _ _ _ _ _ Hg). simpl.
    rewrite Hk. simpl. repeat split; auto.
    + rewrite Hd, dom_insert_L. set_solver.
    + intros Hacc. apply Hv. intros k g'.
      destruct (decide (vehicle_id g = k)) as [<-|Hne].
      * rewrite lookup_insert_eq. congruence.
      * rewrite lookup_insert_ne by exact Hne. apply Hacc.
Qed.

Lemma gemelos_loop_all_built locs stats maint clock roster :
  forall i acc twins,
    gemelos_loop i roster locs stats maint clock acc = Ok twins ->
    forall j d, roster !! j = Some d ->
      is_Ok (process_vehicle_data d locs stats maint (clock (i + j)%nat)).
Proof.
  induction roster as [|d roster IH]; intros i acc twins H j d' Hj.
  - discriminate.
  - cbn [gemelos_loop] in H. apply bind_Ok in H as (g0 & Hg0 & H).
    destruct j as [|j].
    + injection Hj as <-. rewrite Nat.add_0_r. eexists. exact Hg0.
    + replace (i + S j)%nat with (S i + j)%nat by lia.
      eapply IH; eassumption.
Qed.


(** ** The twin builder returns on payloads of the documented shape *)

Lemma location_block_ok loc_data :
  location_ok loc_data = true -> is_Ok (location_block loc_data).
Proof.
  unfold location_ok, location_block. intros H.
  destruct (truthy loc_data) eqn:Ht; [|eexists; reflexivity].
  destruct loc_data as [ | | | | | |kvs]; try discriminate. simpl.
  apply andb_true_iff in H as [Hg Ht'].
  destruct (default (JObj []) (assoc "reverseGeo" kvs)); try discriminate.
  simpl. unfold location_time.
  destruct (default NA (assoc "time" kvs)) as [ | | | |t| | ];
    try discriminate.
  destruct (String.eqb t "N/A"); simpl; [eexists; reflexivity|].
  destruct (fromisoformat_strftime _); eexists; reflexivity.
Qed.

Lemma dtc_alerts_ok codes :
  forallb is_dict codes = true -> is_Ok (dtc_alerts codes).
Proof.
  intros H. unfold dtc_alerts.
  assert (Hm : is_Ok (mapM dtc_info codes)).
  { induction codes as [|c codes IH]; [eexists; reflexivity|].
    apply andb_true_iff in H as [Hc H].
    destruct c; try discriminate. destruct (IH H) as [l Hl].
    cbn [mapM]. rewrite Hl. eexists. reflexivity. }
  destruct codes; [eexists; reflexivity|].
  destruct Hm as [l ->]. eexists. reflexivity.
Qed.

Lemma maintenance_block_ok maintenance_data :
  maintenance_ok maintenance_data = true ->
  exists mnt,
    maintenance_block maintenance_data = Ok mnt /\
    is_Ok (dtc_alerts (mf_dtcs mnt)).
Proof.
  unfold maintenance_ok, maintenance_block. intros H.
  destruct (truthy maintenance_data) eqn:Ht.
  - destruct maintenance_data as [ | | | | | |kvs]; try discriminate. simpl.
    destruct (py_or (default JNull (assoc "j1939" kvs)) (JObj []))
      as [ | | | | | |j]; try discriminate. simpl.
    apply andb_true_iff in H as [Hc Hd].
    destruct (default (JObj []) (assoc "checkEngineLight" j));
      try discriminate. simpl.
    eexists. split; [reflexivity|]. simpl.
    destruct (default (JArr []) (assoc "diagnosticTroubleCodes" j));
      try (eexists; reflexivity).
    now apply dtc_alerts_ok.
  - eexists. split; [reflexivity|]. eexists. reflexivity.
Qed.

Lemma process_vehicle_data_builds kvs locs stats maint now :
  let id := py_str (default (JStr "") (assoc "id" kvs)) in
  location_ok (default JNull (locs !! id)) = true ->
  stats_ok (default ∅ (stats !! id)) = true ->
  maintenance_ok (default (JObj []) (maint !! id)) = true ->
  is_Ok (process_vehicle_data (JObj kvs) locs stats maint now).
Proof.
  intros id Hl Hs Hm. unfold process_vehicle_data.
  cbn [py_get mbind result_bind]. fold id.
  destruct (location_block_ok _ Hl) as [loc ->].
  unfold stats_ok in Hs.
  apply andb_true_iff in Hs as [Hs Ha]. apply andb_true_iff in Hs as [Hh Hc].
  destruct (scaled_stat_ok _ 3600 Hh) as [hours ->].
  destruct (scaled_stat_ok _ 1000 Hc) as [coolant ->].
  destruct (scaled_stat_ok _ 1000 Ha) as [ambient ->].
  destruct (maintenance_block_ok _ Hm) as (mnt & -> & [alerts Hal]).
  cbn [mbind result_bind]. rewrite Hal. cbn [mbind result_bind].
  destruct (alert_block _). eexists. reflexivity.
Qed.

(** X22. The build loop returns the twin mapping for every roster of dicts
    when the payloads in the three maps have the expected shape, and the
    keys of the mapping are the [str(id)] of the roster entries. *)
Corollary gemelos_map_of_well_shaped_payloads kvss locs stats maint clock :
  (forall k v, locs !! k = Some v -> location_ok v = true) ->
  (forall k v, stats !! k = Some v -> stats_ok v = true) ->
  (forall k v, maint !! k = Some v -> maintenance_ok v = true) ->
  exists twins,
    build_gemelos_map (map JObj kvss) locs stats maint clock = Ok twins /\
    dom twins
    = list_to_set
        (map (fun kvs => py_str (default (JStr "") (assoc "id" kvs))) kvss).
Proof.
  intros Hl Hs Hm.
  destruct (gemelos_loop_keys locs stats maint clock (map JObj kvss) 0 ∅)
    as (twins & keys & Hb & Hk & Hd & _).
  - intros j d Hj. apply list_lookup_fmap_Some in Hj as (kvs & -> & _).
    apply process_vehicle_data_builds.
    + destruct (locs !! _) eqn:E; [eapply Hl; exact E | reflexivity].
    + destruct (stats !! _) eqn:E; [eapply Hs; exact E | reflexivity].
    + destruct (maint !! _) eqn:E; [eapply Hm; exact E | reflexivity].
  - exists twins. split; [exact Hb|].
    rewrite Hd, dom_empty_L, (left_id_L ∅ (∪)). f_equal.
    clear -Hk. revert keys Hk.
    induction kvss as [|kvs kvss IH]; intros keys Hk.
    + injection Hk as <-. reflexivity.
    + cbn [map mapM] in Hk. apply bind_Ok in Hk as (k & Hk1 & Hk).
      apply bind_Ok in Hk as (ks & Hk2 & Hk). injection Hk as <-.
      injection Hk1 as <-. cbn [map]. f_equal. now apply IH.
Qed.

(** ** The maintenance fetcher *)

Lemma maintenance_loop_after server n : forall st st' k,
  after_pages server n st = Some st' ->
  maintenance_loop server (n + k) st = maintenance_loop server k st'.
Proof.
  induction n as [|n IH]; intros st st' k H; simpl in *.
  - now injection H as <-.
  - destruct (maintenance_page server st) as [st1| |]; try discriminate.
    now apply IH.
Qed.

Lemma maintenance_page_Continue server st st' :
  maintenance_page server st = Continue st' ->
  page_count st' = S (page_count st) /\
  maintenance_sent st' = maintenance_sent st ++ [after_param st] /\
  maintenance_log st' = maintenance_log st /\
  truthy (next_cursor st') = true /\ target_id_set st' <> ∅.
Proof.
  unfold maintenance_page.
  destruct (server _ _) as [|body]; [discriminate|].
  destruct (read_page _ _ _) as [[[m targets] cursor]|]; [|discriminate].
  destruct (truthy cursor) eqn:Hc; simpl; [|discriminate].
  case_bool_decide as Ht; simpl; [discriminate|].
  intros [= <-]. simpl. auto.
Qed.

Lemma after_pages_count server n : forall st st',
  after_pages server n st = Some st' ->
  page_count st' = (page_count st + n)%nat /\
  length (maintenance_sent st') = (length (maintenance_sent st) + n)%nat /\
  maintenance_log st' = maintenance_log st.
Proof.
  induction n as [|n IH]; intros st st' H; simpl in *.
  - injection H as <-. repeat split; lia.
  - destruct (maintenance_page server st) as [st1| |] eqn:Hp; try discriminate.
    apply maintenance_page_Continue in Hp as (Hc & Hs & Hl & _).
    apply IH in H as (-> & -> & ->). rewrite Hc, Hs, Hl, length_app. simpl.
    repeat split; lia.
Qed.

(** C4. If the loop is still running after [n] pages and the request for the
    next page fails, then the fetch, given room for more than [n] pages,
    returns the empty map, whatever records the earlier pages had matched;
    the failure is logged and it was the last request. *)
Theorem failed_page_empties_maintenance server target_vehicle_ids n st :
  after_pages server n (maintenance_init target_vehicle_ids) = Some st ->
  server (S n) (after_param st) = Failed ->
  forall fuel, (n < fuel)%nat ->
    exists st',
      get_all_vehicle_maintenance_data server fuel target_vehicle_ids
        = Some (Ok ∅, st') /\
      maintenance_log st' = [maintenance_error_log] /\
      length (maintenance_sent st') = S n.
Proof.
  intros Hafter Hfail fuel Hfuel.
  unfold get_all_vehicle_maintenance_data.
  replace fuel with (n + S (fuel - S n))%nat by lia.
  rewrite (maintenance_loop_after _ _ _ _ _ Hafter).
  apply after_pages_count in Hafter as (Hc & Hs & Hl). simpl in Hc, Hs, Hl.
  simpl. unfold maintenance_page. rewrite Hc, Hfail.
  eexists. split; [reflexivity|]. simpl.
  rewrite Hl, length_app, Hs. simpl. split; [reflexivity | lia].
Qed.

Lemma maintenance_page_Body server st body m remaining cursor :
  server (S (page_count st)) (after_param st) = Body body ->
  read_page body (maintenance_map st) (target_id_set st)
    = Ok (m, remaining, cursor) ->
  let st' :=
    {| page_count := S (page_count st); next_cursor := cursor;
       maintenance_map := m; target_id_set := remaining;
       maintenance_sent := maintenance_sent st ++ [after_param st];
       maintenance_log := maintenance_log st |} in
  maintenance_page server st
    = if negb (truthy cursor) || bool_decide (remaining = ∅)
      then Return m st' else Continue st'.
Proof.
  intros Hs Hr. unfold maintenance_page. rewrite Hs, Hr. reflexivity.
Qed.

Lemma after_pages_S server n : forall st st' st'',
  after_pages server n st = Some st' ->
  maintenance_page server st' = Continue st'' ->
  after_pages server (S n) st = Some st''.
Proof.
  induction n as [|n IH]; intros st st' st'' H Hp.
  - injection H as <-. simpl. now rewrite Hp.
  - simpl in H. change (after_pages server (S (S n)) st) with
      (match maintenance_page server st with
       | Continue s => after_pages server (S n) s
       | _ => None
       end).
    destruct (maintenance_page server st); try discriminate.
    eapply IH; eassumption.
Qed.

Lemma match_item_hit kvs (m : gmap string json) (targets : gset string) :
  py_str (default JNull (assoc "id" kvs)) ∈ targets ->
  match_item (m, targets) (JObj kvs)
  = Ok (<[py_str (default JNull (assoc "id" kvs)) := JObj kvs]> m,
        targets ∖ {[py_str (default JNull (assoc "id" kvs))]}).
Proof.
  intros H. unfold match_item. simpl. now rewrite bool_decide_true.
Qed.

(** ** The stats fetcher *)

Lemma fold_result_app {A B} (f : A -> B -> result A) l1 l2 a :
  fold_result f a (l1 ++ l2) = (a' ← fold_result f a l1; fold_result f a' l2).
Proof.
  revert a. induction l1 as [|x l1 IH]; intros a; simpl; [reflexivity|].
  destruct (f a x); simpl; auto.
Qed.

Lemma fold_result_inv {A B} (P : A -> Prop) (f : A -> B -> result A) l :
  (forall a x a', P a -> f a x = Ok a' -> P a') ->
  forall a a', P a -> fold_result f a l = Ok a' -> P a'.
Proof.
  intros Hf. induction l as [|x l IH]; intros a a' Ha H; simpl in H.
  - now injection H as <-.
  - apply bind_Ok in H as (a1 & H1 & H). eauto.
Qed.

Lemma merge_stat_dom kvs vid batch : forall m,
  dom (foldl (merge_stat kvs vid) m batch) = dom m.
Proof.
  induction batch as [|t batch IH]; intros m; simpl; [reflexivity|].
  rewrite IH. unfold merge_stat.
  destruct (assoc t kvs); [apply dom_alter_L | reflexivity].
Qed.

Lemma merge_item_dom batch m item m' :
  merge_item batch m item = Ok m' -> dom m' = dom m.
Proof.
  unfold merge_item. destruct item as [ | | | | | |kvs]; try discriminate.
  destruct (default JNull (assoc "id" kvs)) as [ | | | |vid| | ];
    try discriminate; try (now intros [= <-]).
  case_bool_decide; intros [= <-]; [apply merge_stat_dom | reflexivity].
Qed.

Lemma merge_body_dom batch m body m' :
  merge_body batch m body = Ok m' -> dom m' = dom m.
Proof.
  unfold merge_body. intros H.
  apply bind_Ok in H as (data & _ & H).
  apply bind_Ok in H as (items & _ & H).
  eapply (fold_result_inv (fun a => dom a = dom m)) in H; eauto.
  intros a x a' Ha Hx. apply merge_item_dom in Hx. congruence.
Qed.

Lemma merge_item_not_request batch m item :
  merge_item batch m item <> Raise RequestException.
Proof.
  unfold merge_item. destruct item as [ | | | | | |kvs]; try discriminate.
  destruct (default JNull (assoc "id" kvs)); try discriminate.
  case_bool_decide; discriminate.
Qed.

Lemma merge_body_not_request batch m body :
  merge_body batch m body <> Raise RequestException.
Proof.
  unfold merge_body, py_get, py_iter.
  destruct body as [ | | | | | |kvs]; try discriminate. simpl.
  assert (Hf : forall items a,
    fold_result (merge_item batch) a items <> Raise RequestException).
  { induction items as [|x items IH]; intros a; simpl; [discriminate|].
    destruct (merge_item batch a x) eqn:E; simpl; [apply IH|].
    intros [= ->]. now apply merge_item_not_request in E. }
  destruct (default (JArr []) (assoc "data" kvs)); simpl;
    try discriminate; apply Hf.
Qed.

Lemma merge_body_ok batch m body :
  stats_body_ok body = true -> is_Ok (merge_body batch m body).
Proof.
  unfold stats_body_ok, merge_body.
  destruct body as [ | | | | | |kvs]; try discriminate. simpl.
  destruct (default (JArr []) (assoc "data" kvs)) as [ | | | | |items| ];
    try discriminate. simpl.
  revert m. induction items as [|x items IH]; intros m H; simpl.
  - now exists m.
  - apply andb_true_iff in H as [Hx H].
    assert (is_Ok (merge_item batch m x)) as [m' ->]; [|simpl; auto].
    unfold stats_item_ok in Hx. unfold merge_item.
    destruct x as [ | | | | | |ikvs]; try discriminate.
    destruct (default JNull (assoc "id" ikvs)); try discriminate;
      try (eexists; reflexivity).
    case_bool_decide; eexists; reflexivity.
Qed.

Lemma attempted_stops_at_failure server i j batch_ids_str b rest :
  server i j (stats_request batch_ids_str b) = Failed ->
  attempted server i j batch_ids_str (b :: rest)
  = [(b, stats_request batch_ids_str b, Failed)].
Proof. intros H. cbn [attempted]. now rewrite H. Qed.

Lemma attempted_all_without_failure server i batch_ids_str :
  forall stat_type_batches j,
    (forall k b, stat_type_batches !! k = Some b ->
       server i (j + k)%nat (stats_request batch_ids_str b) <> Failed) ->
    map (fun x => x.1.1) (attempted server i j batch_ids_str stat_type_batches)
    = stat_type_batches.
Proof.
  induction stat_type_batches as [|b rest IH]; intros j H; [reflexivity|].
  cbn [attempted map fst]. f_equal.
  pose proof (H 0%nat b eq_refl) as H0. rewrite Nat.add_0_r in H0.
  destruct (server i j (stats_request batch_ids_str b)); [congruence|].
  apply IH. intros k b' Hk.
  replace (S j + k)%nat with (j + S k)%nat by lia. now apply H.
Qed.

Lemma fold_exchange_body m b p body xs :
  fold_result merge_exchange m ((b, p, Body body) :: xs)
  = (m' ← merge_body b m body; fold_result merge_exchange m' xs).
Proof. reflexivity. Qed.

Lemma filter_failed_body b p body xs :
  filter (fun x => failed x = true) ((b, p, Body body) :: xs)
  = filter (fun x => failed x = true) xs.
Proof. apply filter_cons_False. unfold failed. simpl. discriminate. Qed.

Lemma stats_types_loop_spec server i batch_ids_str :
  forall stat_type_batches j st,
    let xs := attempted server i j batch_ids_str stat_type_batches in
    match stats_types_loop server i j batch_ids_str stat_type_batches st with
    | Done st' =>
        fold_result merge_exchange (stats_map st) xs = Ok (stats_map st') /\
        filter (fun x => failed x = true) xs = [] /\
        stats_sent st' = stats_sent st ++ map (fun x => x.1.2) xs /\
        stats_log st' = stats_log st
    | Threw RequestException st' =>
        fold_result merge_exchange (stats_map st) xs = Ok (stats_map st') /\
        length (filter (fun x => failed x = true) xs) = 1%nat /\
        stats_sent st' = stats_sent st ++ map (fun x => x.1.2) xs /\
        stats_log st' = stats_log st
    | Threw e st' =>
        fold_result merge_exchange (stats_map st) xs = Raise e
    end.
Proof.
  induction stat_type_batches as [|b rest IH]; intros j st; cbv zeta.
  - simpl. rewrite app_nil_r. auto.
  - cbn [attempted stats_types_loop].
    set (p := stats_request batch_ids_str b).
    destruct (server i j p) as [|body] eqn:Hs.
    + cbn. auto.
    + cbn [stats_map stats_sent stats_log].
      rewrite fold_exchange_body, filter_failed_body.
      destruct (merge_body b (stats_map st) body) as [m|e] eqn:Hm.
      * specialize (IH (S j)
          {| stats_map := m;
             stats_sent := stats_sent st ++ [p];
             stats_log := stats_log st |}).
        cbv zeta in IH. cbn [stats_map stats_sent stats_log] in IH.
        cbn [map fst snd mbind result_bind].
        destruct (stats_types_loop server i (S j) batch_ids_str rest _)
          as [st1|[] st1]; try exact IH;
          destruct IH as (Hf & Hn & -> & Hl); rewrite <- app_assoc; auto.
      * cbn. destruct e; try reflexivity.
        now apply merge_body_not_request in Hm.
Qed.

Lemma stats_ids_loop_spec server stat_type_batches :
  forall id_batches i st,
    let xs := exchanges server i id_batches stat_type_batches in
    let o := stats_ids_loop server i id_batches stat_type_batches st in
    returned stats_map o = fold_result merge_exchange (stats_map st) xs /\
    returned stats_map o <> Raise RequestException /\
    (forall st', o = Done st' ->
       stats_sent st' = stats_sent st ++ map (fun x => x.1.2) xs /\
       length (stats_log st')
       = (length (stats_log st)
          + length (filter (fun x => failed x = true) xs))%nat).
Proof.
  induction id_batches as [|c rest IH]; intros i st; cbv zeta.
  - simpl. split; [reflexivity|]. split; [discriminate|].
    intros st' [= <-]. rewrite app_nil_r. split; [reflexivity | lia].
  - cbn [exchanges stats_ids_loop].
    pose proof (stats_types_loop_spec server i (join "," c)
                  stat_type_batches 0 st) as Ht.
    cbv zeta in Ht. rewrite fold_result_app, filter_app, length_app.
    destruct (stats_types_loop server i 0 (join "," c) stat_type_batches st)
      as [st1|e st1].
    + destruct Ht as (Hfold & Hfail & Hsent & Hlog).
      rewrite Hfold, Hfail. cbn [mbind result_bind length].
      destruct (IH (S i) st1) as (Hr & Hne & Hd).
      split; [exact Hr|]. split; [exact Hne|].
      intros st' Hst'. apply Hd in Hst' as [-> ->].
      rewrite Hsent, Hlog, map_app, app_assoc. auto.
    + destruct e;
        try (rewrite Ht; cbn; split; [reflexivity|];
             split; discriminate).
      destruct Ht as (Hfold & Hfail & Hsent & Hlog).
      rewrite Hfold, Hfail. cbn [mbind result_bind].
      match goal with |- context [stats_ids_loop _ _ _ _ ?s] =>
        destruct (IH (S i) s) as (Hr & Hne & Hd) end.
      cbn [stats_map stats_sent stats_log] in Hr, Hd.
      split; [exact Hr|]. split; [exact Hne|].
      intros st' Hst'. apply Hd in Hst' as [-> ->].
      rewrite Hsent, Hlog, map_app, app_assoc, length_app. simpl.
      split; [reflexivity | lia].
Qed.

(** C1 (amended). The ID batches fail independently of each other. For each
    ID batch the requests of its stat-type batches are sent in order until
    one fails; that failure is logged and ends the requests of this ID batch
    only, so its later stat-type batches are not requested. Every ID batch
    is attempted whatever happened in the others, and the returned map is
    the initial map with every received response merged in, in the order of
    the requests. No transport failure escapes the fetcher. *)
Theorem stats_id_batches_fail_independently server vehicle_ids stat_types :
  let xs :=
    exchanges server 0 (chunks 100 vehicle_ids) (chunks 4 stat_types) in
  let o := get_stats_for_multiple_vehicles server vehicle_ids stat_types in
  returned stats_map o
  = fold_result merge_exchange (stats_map (stats_init vehicle_ids)) xs /\
  returned stats_map o <> Raise RequestException /\
  (forall st, o = Done st ->
     stats_sent st = map (fun x => x.1.2) xs /\
     length (stats_log st)
     = length (filter (fun x => failed x = true) xs)).
Proof.
  intros xs o.
  destruct (stats_ids_loop_spec server (chunks 4 stat_types)
              (chunks 100 vehicle_ids) 0 (stats_init vehicle_ids))
    as (Hr & Hne & Hd).
  split; [exact Hr|]. split; [exact Hne|].
  intros st Hst. apply Hd in Hst. exact Hst.
Qed.

Lemma exchanges_from_server server stat_type_batches :
  forall id_batches i,
    Forall (fun x => exists i j, x.2 = server i j x.1.2)
           (exchanges server i id_batches stat_type_batches).
Proof.
  assert (Ha : forall batches i j s,
    Forall (fun x => exists i j, x.2 = server i j x.1.2)
           (attempted server i j s batches)).
  { induction batches as [|b rest IH]; intros i j s; simpl; constructor.
    - simpl. eauto.
    - destruct (server i j _); [constructor | apply IH]. }
  induction id_batches as [|c rest IH]; intros i; simpl.
  - constructor.
  - apply Forall_app. split; [apply Ha | apply IH].
Qed.

Lemma stats_init_dom vehicle_ids :
  dom (stats_map (stats_init vehicle_ids)) = list_to_set vehicle_ids.
Proof.
  simpl. rewrite dom_list_to_map_L.
  replace ((map (fun vid => (vid, ∅)) vehicle_ids).*1) with vehicle_ids;
    [reflexivity|].
  induction vehicle_ids as [|v l IH]; simpl; [reflexivity|].
  f_equal. exact IH.
Qed.

Lemma stats_init_lookup vehicle_ids vid :
  vid ∈ vehicle_ids ->
  stats_map (stats_init vehicle_ids) !! vid = Some ∅.
Proof.
  simpl. induction vehicle_ids as [|v l IH]; intros H.
  - inversion H.
  - simpl. destruct (decide (v = vid)) as [->|Hne].
    + apply lookup_insert_eq.
    + rewrite lookup_insert_ne by exact Hne. apply IH.
      apply elem_of_cons in H as [->|H]; [congruence | exact H].
Qed.

(** C9. The map that the stats fetcher returns has exactly the requested
    vehicle ids as keys: a response never adds a key. It returns a map
    whenever the responses have the documented shape, and when every request
    fails each requested id is mapped to the empty dict. *)
Theorem stats_map_keys_are_requested_ids server vehicle_ids stat_types :
  let o := get_stats_for_multiple_vehicles server vehicle_ids stat_types in
  (forall m, returned stats_map o = Ok m ->
     dom m = list_to_set vehicle_ids) /\
  ((forall i j p body, server i j p = Body body ->
      stats_body_ok body = true) ->
   is_Ok (returned stats_map o)) /\
  ((forall i j p, server i j p = Failed) ->
   exists m, returned stats_map o = Ok m /\
     forall vid, vid ∈ vehicle_ids -> m !! vid = Some ∅).
Proof.
  intros o.
  destruct (stats_ids_loop_spec server (chunks 4 stat_types)
              (chunks 100 vehicle_ids) 0 (stats_init vehicle_ids))
    as (Hr & _).
  unfold o, get_stats_for_multiple_vehicles. rewrite Hr. clear Hr o.
  pose proof (exchanges_from_server server (chunks 4 stat_types)
                (chunks 100 vehicle_ids) 0) as Hx.
  set (xs := exchanges _ _ _ _) in *. clearbody xs.
  split; [|split].
  - intros m Hm. rewrite <- stats_init_dom.
    eapply (fold_result_inv
              (fun a => dom a = dom (stats_map (stats_init vehicle_ids))))
      in Hm; auto.
    intros a x a' Ha Hx'. unfold merge_exchange in Hx'.
    destruct (x.2); [injection Hx' as <-; exact Ha|].
    apply merge_body_dom in Hx'. congruence.
  - intros Hok. generalize (stats_map (stats_init vehicle_ids)).
    induction Hx as [|x xs (i & j & Hx) _ IH]; intros m; simpl.
    + now exists m.
    + assert (is_Ok (merge_exchange m x)) as [m' ->]; [|simpl; apply IH].
      unfold merge_exchange. destruct (x.2) as [|body] eqn:E.
      * now exists m.
      * apply merge_body_ok. apply (Hok i j x.1.2). now rewrite <- Hx.
  - intros Hfail. exists (stats_map (stats_init vehicle_ids)).
    split; [|apply stats_init_lookup].
    generalize (stats_map (stats_init vehicle_ids)).
    induction Hx as [|x xs (i & j & Hx) _ IH]; intros m.
    + reflexivity.
    + cbn [fold_result].
      assert (merge_exchange m x = Ok m) as ->
        by (unfold merge_exchange; now rewrite Hx, Hfail).
      apply IH.
Qed.

(** ** Joining on the string form of the id *)

Lemma vehicle_ids_dicts kvss :
  vehicle_ids (map JObj kvss)
  = Ok (map (fun kvs => py_str (default JNull (assoc "id" kvs))) kvss).
Proof.
  unfold vehicle_ids. induction kvss as [|kvs kvss IH]; [reflexivity|].
  cbn [map mapM]. rewrite IH. reflexivity.
Qed.

Lemma process_vehicle_data_local details k locs locs' stats stats'
    maint maint' now :
  twin_key details = Ok k ->
  locs !! k = locs' !! k -> stats !! k = stats' !! k ->
  maint !! k = maint' !! k ->
  process_vehicle_data details locs stats maint now
  = process_vehicle_data details locs' stats' maint' now.
Proof.
  unfold twin_key, process_vehicle_data.
  destruct details as [ | | | | | |kvs]; try discriminate. simpl.
  intros [= <-] -> -> ->. reflexivity.
Qed.

(** C10 (amended). The maintenance fetcher matches an item under [str] of
    its id, the ids handed to the fetchers are [str] of the roster ids, and
    the twin builder reads the three maps only at [str] of the roster id; a
    number and the string of its digits have the same [str]. So a roster
    entry and a maintenance item whose ids have the same string form are
    joined, one id being a number and the other a string or not: the
    maintenance fetch returns the item under that string and the twin takes
    its lights and trouble codes from it. *)
Theorem roster_and_maintenance_join_on_str_id :
  (forall kvs (m : gmap string json) (targets : gset string),
     let k := py_str (default JNull (assoc "id" kvs)) in
     match_item (m, targets) (JObj kvs)
     = if bool_decide (k ∈ targets)
       then Ok (<[k := JObj kvs]> m, targets ∖ {[k]})
       else Ok (m, targets)) /\
  (forall kvss,
     vehicle_ids (map JObj kvss)
     = Ok (map (fun kvs => py_str (default JNull (assoc "id" kvs))) kvss)) /\
  (forall details k locs locs' stats stats' maint maint' now,
     twin_key details = Ok k ->
     locs !! k = locs' !! k -> stats !! k = stats' !! k ->
     maint !! k = maint' !! k ->
     process_vehicle_data details locs stats maint now
     = process_vehicle_data details locs' stats' maint' now) /\
  (forall n, py_str (JInt n) = py_str (JStr (pretty n))) /\
  (forall server roster_kvs item_kvs id_r id_m cursor,
     assoc "id" roster_kvs = Some id_r ->
     assoc "id" item_kvs = Some id_m ->
     py_str id_r = py_str id_m ->
     server 1%nat None = Body (maintenance_body [JObj item_kvs] cursor) ->
     vehicle_ids [JObj roster_kvs] = Ok [py_str id_r] /\
     forall fuel, (1 <= fuel)%nat ->
       exists st,
         get_all_vehicle_maintenance_data server fuel [py_str id_r]
         = Some (Ok {[py_str id_r := JObj item_kvs]}, st) /\
         forall locs stats now g,
           process_vehicle_data (JObj roster_kvs) locs stats
             {[py_str id_r := JObj item_kvs]} now = Ok g ->
           exists mnt,
             maintenance_block (JObj item_kvs) = Ok mnt /\
             lights_of g = mnt).
Proof.
  split; [|split; [|split; [|split]]].
  - intros kvs m targets k. reflexivity.
  - apply vehicle_ids_dicts.
  - apply process_vehicle_data_local.
  - reflexivity.
  - intros server roster_kvs item_kvs id_r id_m cursor Hr Hm Heq Hs.
    split.
    { unfold vehicle_ids. simpl. rewrite Hr. reflexivity. }
    intros fuel Hfuel. destruct fuel as [|fuel]; [lia|].
    unfold get_all_vehicle_maintenance_data. simpl.
    unfold maintenance_page. simpl. unfold after_param. simpl.
    rewrite Hs. unfold read_page. simpl.
    unfold match_item. simpl. rewrite Hm. simpl. rewrite <- Heq.
    rewrite bool_decide_true by set_solver. simpl.
    replace (bool_decide (_ = ∅)) with true
      by (symmetry; apply bool_decide_true; set_solver).
    rewrite orb_true_r.
    eexists. split; [reflexivity|].
    intros locs stats now g Hg.
    apply process_vehicle_data_inv in Hg
      as (kvs & loc & hours & coolant & ambient & mnt & from_dtcs & H).
    cbv zeta in H.
    destruct H as (Hd & _ & _ & _ & _ & Hmnt & _ & _ & H).
    destruct H as (_ & _ & _ & _ & _ & _ & _ & _ & _ & _ & _ & _ & H).
    destruct H as (Hw & He & Hp & Hst & Hdtc & _).
    injection Hd as <-. rewrite Hr in Hmnt. simpl in Hmnt.
    rewrite lookup_singleton_eq in Hmnt. simpl in Hmnt.
    exists mnt. split; [exact Hmnt|].
    unfold lights_of. rewrite Hw, He, Hp, Hst, Hdtc. now destruct mnt.
Qed.

(** * Further properties of the pipeline *)

(** ** Batching *)

Lemma chunks_aux_spec {A} (n : nat) :
  (0 < n)%nat ->
  forall fuel (l : list A),
    (length l <= fuel)%nat ->
    concat (chunks_aux fuel n l) = l /\
    Forall (fun c => (0 < length c <= n)%nat) (chunks_aux fuel n l) /\
    (forall i c, chunks_aux fuel n l !! i = Some c ->
       (S i < length (chunks_aux fuel n l))%nat -> length c = n) /\
    (length (chunks_aux fuel n l) * n < length l + n)%nat /\
    (length l <= length (chunks_aux fuel n l) * n)%nat.
Proof.
  intros Hn. induction fuel as [|fuel IH]; intros l Hl.
  - destruct l; [|simpl in Hl; lia]. simpl.
    split; [reflexivity|]. split; [constructor|].
    split; [intros i c H; discriminate | lia].
  - destruct l as [|x l]; cbn [chunks_aux].
    { simpl. split; [reflexivity|]. split; [constructor|].
      split; [intros i c H; discriminate | lia]. }
    set (l0 := x :: l) in *.
    destruct (IH (drop n l0)) as (Hc & Hf & Hfull & Hlt & Hle).
    { rewrite length_drop. unfold l0 in *. simpl in *. lia. }
    assert (Htd : length (take n l0) = Nat.min n (length l0))
      by apply length_take.
    assert (Hl0 : (0 < length l0)%nat) by (unfold l0; simpl; lia).
    rewrite length_drop in Hlt, Hle.
    split; [|split; [|split; [|split]]].
    + cbn [concat]. rewrite Hc. apply take_drop.
    + constructor; [|exact Hf]. lia.
    + intros i c Hi Hlast. destruct i as [|i]; cbn in Hi, Hlast.
      * injection Hi as <-. rewrite Htd.
        assert (Hd : (0 < length (drop n l0))%nat).
        { destruct (drop n l0) eqn:E; [|simpl; lia].
          destruct fuel; simpl in Hlast; lia. }
        rewrite length_drop in Hd. lia.
      * apply (Hfull i c Hi). lia.
    + cbn [length].
      destruct (Nat.le_gt_cases (length l0) n) as [Hsmall|Hbig]; [|lia].
      rewrite drop_ge by exact Hsmall. destruct fuel; simpl; lia.
    + cbn [length]. lia.
Qed.

(** X1. Cutting a list into batches of [n] keeps every element once and in
    order: the batches concatenate to the list, each has between 1 and [n]
    elements, all but the last have exactly [n], and there are
    [ceil(len / n)] of them. *)
Theorem chunks_partition {A} (n : nat) (l : list A) :
  (0 < n)%nat ->
  concat (chunks n l) = l /\
  Forall (fun c => (0 < length c <= n)%nat) (chunks n l) /\
  (forall i c, chunks n l !! i = Some c ->
     (S i < length (chunks n l))%nat -> length c = n) /\
  (length l <= length (chunks n l) * n < length l + n)%nat.
Proof.
  intros Hn. unfold chunks.
  destruct (chunks_aux_spec n Hn (length l) l (le_n _))
    as (Hc & Hf & Hfull & Hlt & Hle).
  repeat split; assumption.
Qed.

(** ** More on the stats fetcher *)

Lemma attempted_length server i batch_ids_str :
  forall stat_type_batches j,
    (length (attempted server i j batch_ids_str stat_type_batches)
     <= length stat_type_batches)%nat /\
    (stat_type_batches <> [] ->
     1 <= length (attempted server i j batch_ids_str stat_type_batches))%nat.
Proof.
  induction stat_type_batches as [|b rest IH]; intros j; cbn [attempted].
  - split; [simpl; lia | congruence].
  - destruct (server i j _); cbn [length];
      [|destruct (IH (S j)) as [Hle _]]; split; intros; lia.
Qed.

Lemma exchanges_length server stat_type_batches :
  forall id_batches i,
    (length (exchanges server i id_batches stat_type_batches)
     <= length id_batches * length stat_type_batches)%nat /\
    (stat_type_batches <> [] ->
     length id_batches
     <= length (exchanges server i id_batches stat_type_batches))%nat.
Proof.
  induction id_batches as [|c rest IH]; intros i; cbn [exchanges].
  - simpl. split; intros; lia.
  - rewrite length_app. cbn [length].
    destruct (attempted_length server i (join "," c) stat_type_batches 0)
      as [Ha1 Ha2].
    destruct (IH (S i)) as [H1 H2]. split; [lia|].
    intros Hne. specialize (Ha2 Hne). specialize (H2 Hne). lia.
Qed.

(** X2. A call of the stats fetcher that returns has sent at most one
    request per pair of an ID batch and a stat-type batch, and at least one
    per ID batch when there is a stat type to fetch; the five stat types of
    the dashboard make two stat-type batches. *)
Theorem stats_request_count server vehicle_ids stat_types st :
  get_stats_for_multiple_vehicles server vehicle_ids stat_types = Done st ->
  (length (stats_sent st)
   <= length (chunks 100 vehicle_ids) * length (chunks 4 stat_types))%nat /\
  (stat_types <> [] ->
   length (chunks 100 vehicle_ids) <= length (stats_sent st))%nat /\
  (length (chunks 4 all_desired_stat_types) = 2)%nat.
Proof.
  intros Hst. unfold get_stats_for_multiple_vehicles in Hst.
  destruct (stats_ids_loop_spec server (chunks 4 stat_types)
              (chunks 100 vehicle_ids) 0 (stats_init vehicle_ids))
    as (_ & _ & Hd).
  apply Hd in Hst as [-> _]. cbn [stats_init stats_sent app].
  rewrite length_map.
  destruct (exchanges_length server (chunks 4 stat_types)
              (chunks 100 vehicle_ids) 0) as [H1 H2].
  split; [exact H1|]. split; [|reflexivity].
  intros Hne. apply H2. destruct stat_types; [congruence|discriminate].
Qed.

Lemma foldl_merge_stat_other kvs vid batch v :
  v <> vid ->
  forall m : gmap string (gmap string json),
    foldl (merge_stat kvs vid) m batch !! v = m !! v.
Proof.
  intros Hne. induction batch as [|t batch IH]; intros m; simpl;
    [reflexivity|].
  rewrite IH. unfold merge_stat.
  destruct (assoc t kvs); [|reflexivity].
  now apply lookup_alter_ne.
Qed.

Lemma foldl_merge_stat_self kvs vid batch :
  forall (m : gmap string (gmap string json)) inner,
    m !! vid = Some inner ->
    exists inner',
      foldl (merge_stat kvs vid) m batch !! vid = Some inner' /\
      forall t,
        inner' !! t
        = if bool_decide (t ∈ batch)
          then match assoc t kvs with
               | Some x => Some (stat_value x)
               | None => inner !! t
               end
          else inner !! t.
Proof.
  induction batch as [|b batch IH]; intros m inner Hm; cbn [foldl].
  - exists inner. split; [exact Hm|]. intros t.
    case_bool_decide as Ht; [|reflexivity]. now apply not_elem_of_nil in Ht.
  - unfold merge_stat at 2. destruct (assoc b kvs) as [x|] eqn:Eb.
    + destruct (IH (alter (insert b (stat_value x)) vid m)
                  (<[b := stat_value x]> inner)) as (inner' & Hl & Hi).
      { rewrite lookup_alter_eq, Hm. reflexivity. }
      exists inner'. split; [exact Hl|]. intros t. rewrite Hi.
      destruct (decide (t = b)) as [->|Hne].
      * rewrite (bool_decide_true (b ∈ b :: batch)) by (apply elem_of_cons; now left).
        rewrite Eb, lookup_insert_eq. now case_bool_decide.
      * rewrite lookup_insert_ne by congruence.
        assert (Hiff : t ∈ b :: batch <-> t ∈ batch).
        { rewrite elem_of_cons. tauto. }
        rewrite (bool_decide_ext _ _ Hiff). reflexivity.
    + destruct (IH m inner Hm) as (inner' & Hl & Hi).
      exists inner'. split; [exact Hl|]. intros t. rewrite Hi.
      destruct (decide (t = b)) as [->|Hne].
      * rewrite (bool_decide_true (b ∈ b :: batch)) by (apply elem_of_cons; now left).
        rewrite Eb. now case_bool_decide.
      * assert (Hiff : t ∈ b :: batch <-> t ∈ batch).
        { rewrite elem_of_cons. tauto. }
        rewrite (bool_decide_ext _ _ Hiff). reflexivity.
Qed.

(** X3. What one item of a stats response does to the map. If its id is a
    string that is a key of the map, then for each stat type of the batch
    that the item carries the value is stored for that vehicle, taken out of
    its [{value: ...}] envelope if it has one; the other stat types of the
    vehicle and all other vehicles keep what they had. An item whose id is
    not a key, or not a string, changes nothing, and an id that is a list or
    a dict raises [TypeError]. *)
Theorem merge_item_lookup batch_of_types
    (m : gmap string (gmap string json)) kvs :
  match default JNull (assoc "id" kvs) with
  | JStr vid =>
      match m !! vid with
      | Some inner =>
          exists m' inner',
            merge_item batch_of_types m (JObj kvs) = Ok m' /\
            m' !! vid = Some inner' /\
            (forall v, v <> vid -> m' !! v = m !! v) /\
            (forall t,
               inner' !! t
               = if bool_decide (t ∈ batch_of_types)
                 then match assoc t kvs with
                      | Some x => Some (stat_value x)
                      | None => inner !! t
                      end
                 else inner !! t)
      | None => merge_item batch_of_types m (JObj kvs) = Ok m
      end
  | JArr _ | JObj _ => merge_item batch_of_types m (JObj kvs) = Raise TypeError
  | _ => merge_item batch_of_types m (JObj kvs) = Ok m
  end.
Proof.
  unfold merge_item.
  destruct (default JNull (assoc "id" kvs)) as [ | | | |vid| | ];
    try reflexivity.
  destruct (m !! vid) as [inner|] eqn:Hm.
  - rewrite bool_decide_true by eauto.
    destruct (foldl_merge_stat_self kvs vid batch_of_types m inner Hm)
      as (inner' & Hl & Hi).
    eexists _, inner'. split; [reflexivity|]. split; [exact Hl|].
    split; [|exact Hi].
    intros v Hv. now apply foldl_merge_stat_other.
  - rewrite bool_decide_false; [reflexivity|].
    intros [? ?]. discriminate.
Qed.

(** ** More on the maintenance fetcher *)

Lemma match_item_inv targets m remaining item m' remaining' :
  maintenance_inv targets m remaining ->
  match_item (m, remaining) item = Ok (m', remaining') ->
  maintenance_inv targets m' remaining' /\ m ⊆ m'.
Proof.
  intros (Hu & Hd & Hk) H. unfold match_item in H.
  destruct item as [ | | | | | |kvs]; try discriminate. simpl in H.
  set (k := py_str (default JNull (assoc "id" kvs))) in *.
  case_bool_decide as Hin; injection H as <- <-.
  - assert (Hnone : m !! k = None).
    { apply not_elem_of_dom. set_solver. }
    split; [|now apply insert_subseteq].
    split; [|split].
    + rewrite dom_insert_L. rewrite <- Hu.
      apply set_eq. intros x. rewrite !elem_of_union, elem_of_difference,
        elem_of_singleton.
      destruct (decide (x = k)) as [->|]; set_solver.
    + rewrite dom_insert_L. set_solver.
    + intros k' v. destruct (decide (k = k')) as [<-|Hne].
      * rewrite lookup_insert_eq. intros [= <-]. eauto.
      * rewrite lookup_insert_ne by exact Hne. apply Hk.
  - split; [|reflexivity]. repeat split; assumption.
Qed.

Lemma match_items_inv targets items : forall m remaining m' remaining',
  maintenance_inv targets m remaining ->
  fold_result match_item (m, remaining) items = Ok (m', remaining') ->
  maintenance_inv targets m' remaining' /\ m ⊆ m'.
Proof.
  induction items as [|item items IH]; intros m remaining m' remaining' Hi H.
  - injection H as <- <-. split; [exact Hi | reflexivity].
  - cbn [fold_result] in H. apply bind_Ok in H as ([m1 r1] & H1 & H).
    destruct (match_item_inv _ _ _ _ _ _ Hi H1) as [Hi1 Hs1].
    destruct (IH _ _ _ _ Hi1 H) as [Hi2 Hs2].
    split; [exact Hi2 | etrans; eassumption].
Qed.

Lemma read_page_inv targets body m remaining m' remaining' cursor :
  maintenance_inv targets m remaining ->
  read_page body m remaining = Ok (m', remaining', cursor) ->
  maintenance_inv targets m' remaining' /\ m ⊆ m'.
Proof.
  intros Hi H. unfold read_page in H.
  apply bind_Ok in H as (first & _ & H).
  apply bind_Ok in H as (items_json & _ & H).
  apply bind_Ok in H as (items & _ & H).
  apply bind_Ok in H as ([m1 r1] & Hf & H).
  apply bind_Ok in H as (pg & _ & H).
  apply bind_Ok in H as (c & _ & H). injection H as <- <- <-.
  eapply match_items_inv; eassumption.
Qed.

Lemma maintenance_page_inv server targets st :
  maintenance_inv targets (maintenance_map st) (target_id_set st) ->
  match maintenance_page server st with
  | Continue st' =>
      maintenance_inv targets (maintenance_map st') (target_id_set st') /\
      maintenance_map st ⊆ maintenance_map st' /\
      maintenance_log st' = maintenance_log st
  | Return m st' =>
      (m = ∅ /\
       maintenance_log st' = maintenance_log st ++ [maintenance_error_log]) \/
      (m = maintenance_map st' /\
       maintenance_inv targets (maintenance_map st') (target_id_set st') /\
       maintenance_map st ⊆ m /\
       maintenance_log st' = maintenance_log st)
  | Crash _ _ => True
  end.
Proof.
  intros Hi. unfold maintenance_page.
  destruct (server _ _) as [|body]; [left; split; reflexivity|].
  destruct (read_page _ _ _) as [[[m remaining] cursor]|] eqn:Hr; [|exact I].
  destruct (read_page_inv _ _ _ _ _ _ _ Hi Hr) as [Hi' Hs].
  destruct (negb (truthy cursor) || bool_decide (remaining = ∅)); simpl.
  - right. repeat split; try assumption; apply Hi'.
  - repeat split; try assumption; apply Hi'.
Qed.

Lemma maintenance_loop_inv server targets fuel : forall st m st',
  maintenance_inv targets (maintenance_map st) (target_id_set st) ->
  maintenance_loop server fuel st = Some (Ok m, st') ->
  (m = ∅ /\ maintenance_log st' = maintenance_log st ++ [maintenance_error_log])
  \/ (m = maintenance_map st' /\
      maintenance_inv targets m (target_id_set st') /\
      maintenance_map st ⊆ m /\
      maintenance_log st' = maintenance_log st).
Proof.
  induction fuel as [|fuel IH]; intros st m st' Hi H; [discriminate|].
  cbn [maintenance_loop] in H.
  pose proof (maintenance_page_inv server targets st Hi) as Hp.
  destruct (maintenance_page server st) as [st1|m1 st1|e st1].
  - destruct Hp as (Hi1 & Hs1 & Hl1).
    destruct (IH _ _ _ Hi1 H) as [[-> Hl]|(-> & Hi2 & Hs2 & Hl2)].
    + left. split; [reflexivity|]. now rewrite Hl, Hl1.
    + right. repeat split; try apply Hi2.
      * etrans; eassumption.
      * now rewrite Hl2.
  - injection H as <- <-.
    destruct Hp as [[-> Hl]|(-> & Hi1 & Hs1 & Hl1)].
    + left. split; [reflexivity | exact Hl].
    + right. repeat split; try assumption; apply Hi1.
  - discriminate.
Qed.

Lemma maintenance_init_inv target_vehicle_ids :
  maintenance_inv (list_to_set target_vehicle_ids)
    (maintenance_map (maintenance_init target_vehicle_ids))
    (target_id_set (maintenance_init target_vehicle_ids)).
Proof.
  simpl. split; [|split].
  - rewrite dom_empty_L. set_solver.
  - rewrite dom_empty_L. set_solver.
  - intros k v. rewrite lookup_empty. discriminate.
Qed.

(** X4. The maintenance fetcher returns records of target vehicles only,
    each stored under the string form of its own id; when no request failed
    the targets without a record are exactly the ids left in the working
    set. *)
Theorem maintenance_result_is_keyed_by_targets server fuel target_vehicle_ids
    m st :
  get_all_vehicle_maintenance_data server fuel target_vehicle_ids
  = Some (Ok m, st) ->
  dom m ⊆ list_to_set target_vehicle_ids /\
  (forall k v, m !! k = Some v ->
     exists kvs,
       v = JObj kvs /\ py_str (default JNull (assoc "id" kvs)) = k) /\
  (maintenance_log st = [] ->
   dom m ∪ target_id_set st = list_to_set target_vehicle_ids /\
   dom m ## target_id_set st).
Proof.
  intros H. unfold get_all_vehicle_maintenance_data in H.
  destruct (maintenance_loop_inv server _ fuel _ _ _
              (maintenance_init_inv target_vehicle_ids) H)
    as [[-> Hl]|(_ & (Hu & Hd & Hk) & _ & _)].
  - split; [rewrite dom_empty_L; set_solver|]. split.
    + intros k v. rewrite lookup_empty. discriminate.
    + rewrite Hl. simpl. discriminate.
  - split; [set_solver|]. split; [exact Hk|]. intros _. split; assumption.
Qed.

Lemma after_pages_inv server targets n : forall st st',
  maintenance_inv targets (maintenance_map st) (target_id_set st) ->
  after_pages server n st = Some st' ->
  maintenance_inv targets (maintenance_map st') (target_id_set st') /\
  maintenance_map st ⊆ maintenance_map st'.
Proof.
  induction n as [|n IH]; intros st st' Hi H; cbn [after_pages] in H.
  - injection H as <-. split; [exact Hi | reflexivity].
  - pose proof (maintenance_page_inv server targets st Hi) as Hp.
    destruct (maintenance_page server st) as [st1| |]; try discriminate.
    destruct Hp as (Hi1 & Hs1 & _).
    destruct (IH _ _ Hi1 H) as [Hi2 Hs2].
    split; [exact Hi2 | etrans; eassumption].
Qed.

Lemma maintenance_loop_resume server n : forall st st' fuel r,
  after_pages server n st = Some st' ->
  maintenance_loop server fuel st = Some r ->
  exists k, fuel = (n + k)%nat /\ maintenance_loop server k st' = Some r.
Proof.
  induction n as [|n IH]; intros st st' fuel r Ha Hl; cbn [after_pages] in Ha.
  - injection Ha as <-. exists fuel. split; [reflexivity | exact Hl].
  - destruct fuel as [|fuel]; [discriminate|]. cbn [maintenance_loop] in Hl.
    destruct (maintenance_page server st) as [st1| |]; try discriminate.
    destruct (IH _ _ _ _ Ha Hl) as (k & -> & Hk).
    exists k. split; [reflexivity | exact Hk].
Qed.

(** X5. The first match wins: a record that the fetcher has matched on some
    page is in the returned map unchanged, whatever the later pages hold
    for that vehicle, provided no request failed. *)
Theorem matched_records_are_kept server target_vehicle_ids n st fuel m st' :
  after_pages server n (maintenance_init target_vehicle_ids) = Some st ->
  get_all_vehicle_maintenance_data server fuel target_vehicle_ids
  = Some (Ok m, st') ->
  maintenance_log st' = [] ->
  maintenance_map st ⊆ m.
Proof.
  intros Ha Hg Hlog. unfold get_all_vehicle_maintenance_data in Hg.
  destruct (maintenance_loop_resume _ _ _ _ _ _ Ha Hg) as (k & _ & Hk).
  destruct (after_pages_inv server _ n _ _
              (maintenance_init_inv target_vehicle_ids) Ha) as [Hi _].
  pose proof (after_pages_count _ _ _ _ Ha) as (_ & _ & Hl0).
  destruct (maintenance_loop_inv server _ k _ _ _ Hi Hk)
    as [[_ Hl]|(_ & _ & Hs & _)]; [|exact Hs].
  rewrite Hlog in Hl. symmetry in Hl. now apply app_eq_nil in Hl as [_ ?].
Qed.

Lemma match_item_miss kvs (m : gmap string json) (targets : gset string) :
  py_str (default JNull (assoc "id" kvs)) ∉ targets ->
  match_item (m, targets) (JObj kvs) = Ok (m, targets).
Proof.
  intros H. unfold match_item. cbn [py_get mbind result_bind snd].
  now rewrite bool_decide_false.
Qed.

Lemma match_items_miss (targets : gset string) items m :
  Forall (fun item =>
            exists kvs, item = JObj kvs /\
              py_str (default JNull (assoc "id" kvs)) ∉ targets) items ->
  fold_result match_item (m, targets) items = Ok (m, targets).
Proof.
  induction 1 as [|item items (kvs & -> & Hk) _ IH]; [reflexivity|].
  cbn [fold_result]. rewrite match_item_miss by exact Hk. exact IH.
Qed.

(** X6. The loop has no bound of its own on the number of pages: against a
    server whose every page carries a cursor and no target vehicle, the
    fetch for a non-empty target list never returns, however many pages it
    is given. *)
Theorem endless_cursors_never_return server target_vehicle_ids :
  target_vehicle_ids <> [] ->
  (forall page after,
     exists items cursor,
       server page after = Body (maintenance_body items cursor) /\
       truthy cursor = true /\
       Forall (fun item =>
                 exists kvs, item = JObj kvs /\
                   py_str (default JNull (assoc "id" kvs))
                   ∉ target_vehicle_ids) items) ->
  forall fuel,
    get_all_vehicle_maintenance_data server fuel target_vehicle_ids = None.
Proof.
  intros Hne Hs fuel. unfold get_all_vehicle_maintenance_data.
  assert (Hgen : forall st,
    target_id_set st = list_to_set target_vehicle_ids ->
    maintenance_loop server fuel st = None).
  { induction fuel as [|fuel IH]; intros st Ht; [reflexivity|].
    cbn [maintenance_loop]. unfold maintenance_page.
    destruct (Hs (S (page_count st)) (after_param st))
      as (items & cursor & -> & Hc & Hmiss).
    assert (Hr : read_page (maintenance_body items cursor)
                   (maintenance_map st) (target_id_set st)
                 = Ok (maintenance_map st, target_id_set st, cursor)).
    { unfold read_page, maintenance_body.
      destruct items as [|i0 items]; simpl py_get;
        cbn [truthy mbind result_bind py_iter]; [reflexivity|].
      rewrite Ht, match_items_miss
        by (eapply Forall_impl; [exact Hmiss|];
            intros ? (kvs & -> & Hk); exists kvs; split; [reflexivity|];
            now rewrite elem_of_list_to_set).
      reflexivity. }
    rewrite Hr, Hc, bool_decide_false.
    - simpl. apply IH. exact Ht.
    - rewrite Ht. destruct target_vehicle_ids as [|t ts]; [congruence|].
      set_solver. }
  apply Hgen. reflexivity.
Qed.

(** X7. For an empty target list the fetcher still sends one request; it
    sends no second one and a map it returns is empty. *)
Theorem empty_target_list_takes_one_request server fuel :
  (0 < fuel)%nat ->
  exists r st,
    get_all_vehicle_maintenance_data server fuel [] = Some (r, st) /\
    length (maintenance_sent st) = 1%nat /\
    forall m, r = Ok m -> m = ∅.
Proof.
  intros Hf. destruct fuel as [|fuel]; [lia|].
  unfold get_all_vehicle_maintenance_data. cbn [maintenance_loop].
  pose proof (maintenance_page_inv server _ _ (maintenance_init_inv [])) as Hp.
  unfold maintenance_page in *.
  destruct (server _ _) as [|body].
  - eexists _, _. split; [reflexivity|]. split; [reflexivity|].
    now intros m [= <-].
  - destruct (read_page _ _ _) as [[[m remaining] cursor]|] eqn:Hr.
    + destruct (read_page_inv _ _ _ _ _ _ _ (maintenance_init_inv []) Hr)
        as [(Hu & Hd & _) _].
      assert (Hrem : remaining = ∅) by set_solver.
      assert (Hm : m = ∅).
      { apply dom_empty_iff_L. set_solver. }
      rewrite bool_decide_true, orb_true_r by exact Hrem.
      eexists _, _. split; [reflexivity|]. split; [reflexivity|].
      intros m0 [= <-]. exact Hm.
    + eexists _, _. split; [reflexivity|]. split; [reflexivity|].
      intros m0 H0. discriminate.
Qed.

(** ** More on the twin builder *)

Lemma light_alerts_nil mnt :
  light_alerts mnt = [] <->
  truthy (mf_warning mnt) = false /\ truthy (mf_emissions mnt) = false /\
  truthy (mf_protect mnt) = false /\ truthy (mf_stop mnt) = false.
Proof.
  unfold light_alerts, check_light_alerts.
  destruct (truthy (mf_warning mnt)), (truthy (mf_emissions mnt)),
    (truthy (mf_protect mnt)), (truthy (mf_stop mnt)); simpl;
    split; intros H; try discriminate; try reflexivity;
    try (destruct H as (? & ? & ? & ?); discriminate); auto.
Qed.

Lemma dtc_alerts_nil codes l : dtc_alerts codes = Ok l -> (l = [] <-> codes = []).
Proof.
  unfold dtc_alerts. destruct codes as [|c codes].
  - intros [= <-]. tauto.
  - intros H. apply bind_Ok in H as (infos & _ & H). injection H as <-.
    split; discriminate.
Qed.


Lemma location_block_raises loc_data :
  location_ok loc_data = false -> location_block loc_data = Raise AttributeError.
Proof.
  unfold location_ok, location_block. intros H.
  destruct loc_data as [ |b|z|f|s|l|kvs];
    try (apply negb_false_iff in H; rewrite H; reflexivity).
  destruct kvs as [|kv kvs]; [discriminate|].
  cbn [truthy py_get mbind result_bind].
  destruct (default (JObj []) (assoc "reverseGeo" (kv :: kvs)));
    try reflexivity.
  cbn [py_get mbind result_bind]. cbn [is_dict andb] in H.
  destruct (default NA (assoc "time" (kv :: kvs))); try reflexivity.
  discriminate.
Qed.

Lemma dtc_alerts_raises codes :
  forallb is_dict codes = false -> dtc_alerts codes = Raise AttributeError.
Proof.
  intros H. unfold dtc_alerts.
  assert (Hm : mapM dtc_info codes = Raise AttributeError).
  { induction codes as [|c codes IH]; [discriminate|].
    cbn [forallb] in H. cbn [mapM].
    destruct c; try reflexivity.
    rewrite (IH H). reflexivity. }
  destruct codes; [discriminate|]. rewrite Hm. reflexivity.
Qed.

Lemma maintenance_block_raises maintenance_data :
  maintenance_ok maintenance_data = false ->
  (maintenance_block maintenance_data ≫= fun mnt => dtc_alerts (mf_dtcs mnt))
  = Raise AttributeError.
Proof.
  unfold maintenance_ok, maintenance_block. intros H.
  destruct maintenance_data as [ |b|z|f|s|l|kvs];
    try (apply negb_false_iff in H; rewrite H; reflexivity).
  destruct kvs as [|kv kvs]; [discriminate|].
  cbn [truthy py_get mbind result_bind].
  destruct (py_or (default JNull (assoc "j1939" (kv :: kvs))) (JObj []))
    as [ | | | | | |j]; try reflexivity.
  cbn [py_get mbind result_bind].
  destruct (default (JObj []) (assoc "checkEngineLight" j));
    try reflexivity.
  cbn [py_get mbind result_bind mf_dtcs]. cbn [is_dict andb] in H.
  destruct (default (JArr []) (assoc "diagnosticTroubleCodes" j));
    try discriminate.
  now apply dtc_alerts_raises.
Qed.

(** X9. A payload that is not of the expected shape makes the twin builder
    raise [AttributeError] and nothing else: a location sample that is truthy
    but not a dict, or whose [reverseGeo] is present and not a dict (null
    included), or whose [time] is not a string; and, once the location and
    the stats are read, a maintenance record that is truthy but not a dict,
    whose [j1939] is truthy and not a dict, whose [checkEngineLight] is
    present and not a dict, or whose list of trouble codes has an entry that
    is not a dict. On every other payload with stats in range the builder
    returns a twin. *)
Theorem malformed_payload_raises_attribute_error kvs locs stats maint now :
  let id := py_str (default (JStr "") (assoc "id" kvs)) in
  let twin := process_vehicle_data (JObj kvs) locs stats maint now in
  (location_ok (default JNull (locs !! id)) = false ->
   twin = Raise AttributeError) /\
  (location_ok (default JNull (locs !! id)) = true ->
   stats_ok (default ∅ (stats !! id)) = true ->
   (maintenance_ok (default (JObj []) (maint !! id)) = false ->
    twin = Raise AttributeError) /\
   (maintenance_ok (default (JObj []) (maint !! id)) = true -> is_Ok twin)).
Proof.
  intros id twin. unfold twin, process_vehicle_data.
  cbn [py_get mbind result_bind]. fold id. split.
  - intros Hl. rewrite (location_block_raises _ Hl). reflexivity.
  - intros Hl Hs. split.
    + intros Hm.
      destruct (location_block_ok _ Hl) as [loc ->].
      unfold stats_ok in Hs.
      apply andb_true_iff in Hs as [Hs Ha].
      apply andb_true_iff in Hs as [Hh Hc].
      destruct (scaled_stat_ok _ 3600 Hh) as [hours ->].
      destruct (scaled_stat_ok _ 1000 Hc) as [coolant ->].
      destruct (scaled_stat_ok _ 1000 Ha) as [ambient ->].
      cbn [mbind result_bind].
      pose proof (maintenance_block_raises _ Hm) as Hr.
      destruct (maintenance_block _) as [mnt|e]; cbn [mbind result_bind] in *.
      * rewrite Hr. reflexivity.
      * injection Hr as ->. reflexivity.
    + intros Hm. now apply process_vehicle_data_builds.
Qed.

(** X10. A maintenance record whose [j1939] is missing, null or otherwise
    falsy is read as a record without lights and codes: the four lights of
    the twin are [False], its list of trouble codes is empty and it is
    green with the status "OPERANDO NORMALMENTE". *)
Theorem record_without_j1939_gives_default_lights
    kvs locs stats maint now mkvs g :
  let id := py_str (default (JStr "") (assoc "id" kvs)) in
  maint !! id = Some (JObj mkvs) ->
  truthy (default JNull (assoc "j1939" mkvs)) = false ->
  process_vehicle_data (JObj kvs) locs stats maint now = Ok g ->
  Forall (fun flag => flag g = JBool false) light_flags /\
  diagnostic_trouble_codes g = [] /\
  status_alert g = "OPERANDO NORMALMENTE" /\
  alert_color g = "green".
Proof.
  intros id Hm Hj H.
  apply process_vehicle_data_inv in H
    as (kvs' & loc & hours & coolant & ambient & mnt & from_dtcs & H).
  cbv zeta in H.
  destruct H as (Hk & _ & _ & _ & _ & Hb & Hd & _ & H).
  injection Hk as <-. fold id in Hb. rewrite Hm in Hb.
  destruct H as (_ & _ & _ & _ & _ & _ & _ & _ & _ & _ & _ & _ & H).
  destruct H as (Hw & He & Hp & Hs & Hdtc & _ & Ha).
  assert (Hmnt : mnt = maintenance_defaults).
  { change (default (JObj []) (Some (JObj mkvs))) with (JObj mkvs) in Hb.
    unfold maintenance_block in Hb.
    destruct mkvs as [|kv mkvs]; [cbn in Hb; now injection Hb as <-|].
    cbn [truthy py_get mbind result_bind] in Hb.
    unfold py_or in Hb. rewrite Hj in Hb. cbn in Hb.
    injection Hb as <-. reflexivity. }
  subst mnt. cbn in Hd. injection Hd as <-. cbn in Ha.
  injection Ha as -> ->.
  repeat split; try assumption.
  unfold light_flags. repeat constructor; assumption.
Qed.

(** ** The build loop *)

Lemma gemelos_loop_lookup locs stats maint clock roster :
  forall i acc twins,
    gemelos_loop i roster locs stats maint clock acc = Ok twins ->
    forall k g,
      twins !! k = Some g <->
      (exists j d, roster !! j = Some d /\
         process_vehicle_data d locs stats maint (clock (i + j)%nat) = Ok g /\
         vehicle_id g = k /\
         forall j' d', (j < j')%nat -> roster !! j' = Some d' ->
           twin_key d' <> Ok k) \/
      (acc !! k = Some g /\
       forall j d, roster !! j = Some d -> twin_key d <> Ok k).
Proof.
  induction roster as [|d roster IH]; intros i acc twins H k g.
  - injection H as <-. split.
    + intros Hk. right. split; [exact Hk|]. intros j d Hj. discriminate.
    + intros [(j & d & Hj & _)|[Hk _]]; [discriminate | exact Hk].
  - cbn [gemelos_loop] in H. apply bind_Ok in H as (g0 & Hg0 & H).
    pose proof (process_vehicle_data_key _ _ _ _ _ _ Hg0) as Hkey.
    rewrite (IH _ _ _ H k g). clear IH H. split.
    + intros [(j & d' & Hj & Hp & Hv & Hlast)|[Hacc Hnone]].
      * left. exists (S j), d'. split; [exact Hj|].
        replace (i + S j)%nat with (S i + j)%nat by lia.
        split; [exact Hp|]. split; [exact Hv|].
        intros [|j'] d'' Hlt Hj'; [lia|]. apply (Hlast j'); [lia | exact Hj'].
      * destruct (decide (vehicle_id g0 = k)) as [Heq|Hne].
        -- rewrite Heq, lookup_insert_eq in Hacc. injection Hacc as ->.
           left. exists 0%nat, d. split; [reflexivity|].
           rewrite Nat.add_0_r. split; [exact Hg0|]. split; [exact Heq|].
           intros [|j'] d'' Hlt Hj'; [lia|]. apply (Hnone j'). exact Hj'.
        -- rewrite lookup_insert_ne in Hacc by exact Hne.
           right. split; [exact Hacc|].
           intros [|j] d' Hj.
           ++ injection Hj as <-. rewrite Hkey. congruence.
           ++ apply (Hnone j). exact Hj.
    + intros [(j & d' & Hj & Hp & Hv & Hlast)|[Hacc Hnone]].
      * destruct j as [|j].
        -- injection Hj as <-. rewrite Nat.add_0_r in Hp.
           assert (g = g0) as -> by congruence.
           right. split; [rewrite Hv; apply lookup_insert_eq|].
           intros j' d'' Hj'. apply (Hlast (S j')); [lia | exact Hj'].
        -- left. exists j, d'. split; [exact Hj|].
           replace (S i + j)%nat with (i + S j)%nat by lia.
           split; [exact Hp|]. split; [exact Hv|].
           intros j' d'' Hlt Hj'. apply (Hlast (S j')); [lia | exact Hj'].
      * right. split.
        -- rewrite lookup_insert_ne; [exact Hacc|].
           intros Heq. apply (Hnone 0%nat d eq_refl). rewrite Hkey, Heq.
           reflexivity.
        -- intros j d' Hj. apply (Hnone (S j)). exact Hj.
Qed.

(** X11. When the build loop returns, every roster entry was built, and
    the twin stored under a key is the twin of the last roster entry with
    that key: an earlier entry with the same [str(id)] is overwritten. The
    mapping has at most as many twins as the roster has entries. *)
Theorem last_roster_entry_with_a_key_wins roster locs stats maint clock twins :
  build_gemelos_map roster locs stats maint clock = Ok twins ->
  (forall i d, roster !! i = Some d ->
     is_Ok (process_vehicle_data d locs stats maint (clock i))) /\
  (forall k g,
     twins !! k = Some g <->
     exists i d, roster !! i = Some d /\
       process_vehicle_data d locs stats maint (clock i) = Ok g /\
       twin_key d = Ok k /\
       forall j d', (i < j)%nat -> roster !! j = Some d' ->
         twin_key d' <> Ok k) /\
  (size twins <= length roster)%nat.
Proof.
  intros H. unfold build_gemelos_map in H. split; [|split].
  - intros i d Hi.
    apply (gemelos_loop_all_built _ _ _ _ _ _ _ _ H i d Hi).
  - intros k g. rewrite (gemelos_loop_lookup _ _ _ _ _ _ _ _ H k g).
    cbn [Nat.add]. split.
    + intros [(j & d & Hj & Hp & Hv & Hlast)|[Hacc _]].
      * exists j, d. repeat split; try assumption.
        rewrite (process_vehicle_data_key _ _ _ _ _ _ Hp), Hv. reflexivity.
      * rewrite lookup_empty in Hacc. discriminate.
    + intros (j & d & Hj & Hp & Hk & Hlast). left.
      exists j, d. repeat split; try assumption.
      rewrite (process_vehicle_data_key _ _ _ _ _ _ Hp) in Hk. congruence.
  - clear -H.
    assert (Hgen : forall roster i acc twins,
      gemelos_loop i roster locs stats maint clock acc = Ok twins ->
      (size twins <= size acc + length roster)%nat).
    { clear. induction roster as [|d roster IH]; intros i acc twins H.
      - injection H as <-. simpl. lia.
      - cbn [gemelos_loop] in H. apply bind_Ok in H as (g0 & _ & H).
        apply IH in H. cbn [length].
        destruct (acc !! vehicle_id g0) eqn:E.
        + assert (size (<[vehicle_id g0:=g0]> acc) = size acc).
          { rewrite <- !size_dom, dom_insert_L.
            f_equal. apply elem_of_dom_2 in E. set_solver. }
          lia.
        + rewrite map_size_insert_None in H by exact E. lia. }
    apply Hgen in H. rewrite map_size_empty in H. exact H.
Qed.

(** ** The roster fetcher *)

Lemma read_roster_page_body items cursor all :
  read_roster_page (roster_body items cursor) all = Ok (all ++ items, cursor).
Proof. reflexivity. Qed.

Lemma serves_pages_prefix server pages x :
  serves_pages server (pages ++ [x]) -> serves_pages server pages.
Proof.
  intros H k items cursor Hk.
  pose proof (lookup_lt_Some _ _ _ Hk) as Hlt.
  destruct (H k items cursor) as [Ht Hs].
  { rewrite lookup_app_l by exact Hlt. exact Hk. }
  split; [exact Ht|].
  rewrite take_app_le in Hs by lia. exact Hs.
Qed.

Lemma roster_loop_pages server pages :
  serves_pages server pages ->
  forall fuel,
    roster_loop server (length pages + fuel) roster_init
    = roster_loop server fuel
        {| roster_page := S (length pages);
           roster_next_cursor := last_cursor pages;
           all_vehicles := concat (map fst pages);
           roster_sent :=
             map (fun k => cursor_after (take k pages))
                 (seq 0 (length pages));
           roster_log := [] |}.
Proof.
  induction pages as [|[items cursor] pages IH] using rev_ind; intros Hs fuel.
  - reflexivity.
  - rewrite length_app. cbn [length].
    replace (length pages + 1 + fuel)%nat with (length pages + S fuel)%nat
      by lia.
    rewrite (IH (serves_pages_prefix _ _ _ Hs) (S fuel)).
    cbn [roster_loop]. unfold roster_turn.
    cbn [roster_page roster_next_cursor all_vehicles roster_sent roster_log].
    destruct (Hs (length pages) items cursor) as [Ht Hb].
    { rewrite lookup_app_r by lia. now rewrite Nat.sub_diag. }
    rewrite take_app_le, take_ge in Hb by lia.
    fold (cursor_after pages). rewrite Hb, read_roster_page_body, Ht.
    cbn [negb]. f_equal. f_equal.
    + f_equal. lia.
    + unfold last_cursor. now rewrite last_snoc.
    + rewrite map_app, concat_app. simpl. now rewrite app_nil_r.
    + replace (length pages + 1)%nat with (S (length pages)) by lia.
      rewrite seq_S, map_app. cbn [map Nat.add]. f_equal.
      * apply map_ext_in. intros k Hk. apply in_seq in Hk.
        rewrite take_app_le by lia. reflexivity.
      * rewrite take_app_le, take_ge by lia. reflexivity.
Qed.

(** X12. While the server answers each page with a cursor, the roster
    fetcher asks for the next page with that cursor. When the request that
    follows fails, it returns the vehicles of the pages read so far, in
    order, and logs one error; when it is answered without a cursor, it
    returns them with the vehicles of that last page. *)
Theorem roster_is_the_pages_read_so_far server pages fuel :
  serves_pages server pages ->
  (length pages < fuel)%nat ->
  let n := length pages in
  let sent := map (fun k => cursor_after (take k pages)) (seq 0 (S n)) in
  (server (S n) (cursor_after pages) = Failed ->
   exists st,
     get_all_vehicle_details_list server fuel
     = Some (Ok (concat (map fst pages)), st) /\
     roster_sent st = sent /\ roster_log st = [roster_error_log]) /\
  (forall items cursor,
     server (S n) (cursor_after pages) = Body (roster_body items cursor) ->
     truthy cursor = false ->
     exists st,
       get_all_vehicle_details_list server fuel
       = Some (Ok (concat (map fst pages) ++ items), st) /\
       roster_sent st = sent /\ roster_log st = []).
Proof.
  intros Hs Hf n sent.
  assert (Hsent : sent
    = map (fun k => cursor_after (take k pages)) (seq 0 n)
      ++ [cursor_after pages]).
  { unfold sent. rewrite seq_S, map_app. cbn [map Nat.add].
    unfold n. now rewrite take_ge by lia. }
  unfold get_all_vehicle_details_list.
  replace fuel with (n + S (fuel - S n))%nat
    by (unfold n; lia).
  rewrite (roster_loop_pages _ _ Hs). fold n.
  cbn [roster_loop]. unfold roster_turn.
  cbn [roster_page roster_next_cursor all_vehicles roster_sent roster_log].
  fold (cursor_after pages). split.
  - intros ->. eexists. split; [reflexivity|].
    cbn [roster_sent roster_log]. rewrite Hsent. split; reflexivity.
  - intros items cursor -> Ht.
    rewrite read_roster_page_body, Ht. cbn [negb].
    eexists. split; [reflexivity|].
    cbn [roster_sent roster_log]. rewrite Hsent. split; reflexivity.
Qed.

(** X13. Whenever the roster fetcher returns, it returns the vehicles it
    has read or raises [AttributeError] or [TypeError] on a page that is not
    of the expected shape: a failed request never escapes. It logs at most
    one error and sends at least one request. *)
Theorem roster_fetch_never_raises_request_exception server fuel r st :
  get_all_vehicle_details_list server fuel = Some (r, st) ->
  (r = Ok (all_vehicles st) \/ r = Raise AttributeError \/ r = Raise TypeError)
  /\ (length (roster_log st) <= 1)%nat
  /\ (0 < length (roster_sent st) <= fuel)%nat.
Proof.
  unfold get_all_vehicle_details_list.
  assert (Hgen : forall fuel st0,
    roster_log st0 = [] ->
    roster_loop server fuel st0 = Some (r, st) ->
    (r = Ok (all_vehicles st) \/ r = Raise AttributeError
     \/ r = Raise TypeError)
    /\ (length (roster_log st) <= 1)%nat
    /\ (length (roster_sent st0) < length (roster_sent st)
        <= length (roster_sent st0) + fuel)%nat).
  { clear fuel. induction fuel as [|fuel IH]; intros st0 Hlog H.
    - discriminate.
    - cbn [roster_loop] in H. unfold roster_turn in H.
      destruct (server _ _) as [|data].
      + injection H as <- <-. cbn. rewrite Hlog, ?length_app. cbn.
        split; [now left|]. lia.
      + destruct (read_roster_page data (all_vehicles st0))
          as [[vehicles cursor]|e] eqn:Hr.
        * destruct (negb (truthy cursor)).
          -- injection H as <- <-. cbn. rewrite Hlog, ?length_app. cbn.
             split; [now left|]. lia.
          -- apply IH in H; [|exact Hlog].
             cbn [roster_sent] in H. rewrite length_app in H. cbn in H.
             destruct H as (H1 & H2 & H3). repeat split; auto; lia.
        * injection H as <- <-. cbn. rewrite Hlog, ?length_app. cbn.
          split; [|lia]. right.
          unfold read_roster_page, py_get, py_iter in Hr.
          destruct data as [ | | | | | |kvs]; try (injection Hr as <-; auto).
          cbn in Hr.
          destruct (default (JArr []) (assoc "data" kvs));
            try (injection Hr as <-; auto); cbn in Hr;
            destruct (default (JObj []) (assoc "pagination" kvs));
            try (injection Hr as <-; auto); discriminate. }
  intros H. apply Hgen in H; [|reflexivity]. cbn in H. exact H.
Qed.

(** ** The locations fetcher *)

Lemma store_location_inv acc loc acc' :
  store_location acc loc = Ok acc' ->
  exists kvs location id,
    loc = JObj kvs /\ assoc "location" kvs = Some location /\
    assoc "id" kvs = Some id /\
    match id with
    | JStr k => acc' = (<[k := location]> acc.1, acc.2)
    | JArr _ | JObj _ => False
    | _ => acc' = (acc.1, acc.2 ++ [(id, location)])
    end.
Proof.
  unfold store_location, py_subscript. intros H.
  destruct loc as [ | | | | | |kvs]; try discriminate.
  destruct (assoc "location" kvs) as [location|] eqn:Hl; [|discriminate].
  destruct (assoc "id" kvs) as [id|] eqn:Hi; [|discriminate].
  cbn [mbind result_bind] in H.
  exists kvs, location, id.
  split; [reflexivity|]. split; [exact Hl|]. split; [exact Hi|].
  destruct id; try discriminate; now injection H as <-.
Qed.

Lemma store_locations_spec items : forall acc acc',
  fold_result store_location acc items = Ok acc' ->
  (forall k, is_Some (acc.1 !! k) -> is_Some (acc'.1 !! k)) /\
  (forall kvs k, JObj kvs ∈ items -> assoc "id" kvs = Some (JStr k) ->
     is_Some (acc'.1 !! k)) /\
  (forall k v, acc'.1 !! k = Some v ->
     acc.1 !! k = Some v \/
     exists kvs, JObj kvs ∈ items /\ assoc "id" kvs = Some (JStr k) /\
       assoc "location" kvs = Some v).
Proof.
  induction items as [|x items IH]; intros acc acc' H.
  - injection H as <-. split; [auto|]. split; [|auto].
    intros kvs k Hin. now apply not_elem_of_nil in Hin.
  - cbn [fold_result] in H. apply bind_Ok in H as (acc1 & Hx & H).
    apply IH in H as (Hmono & Hall & Hfrom). clear IH.
    apply store_location_inv in Hx
      as (kvs & location & id & -> & Hloc & Hid & Hx).
    assert (Hstep : forall k, is_Some (acc.1 !! k) -> is_Some (acc1.1 !! k)).
    { intros k Hk. destruct id; try contradiction; subst acc1; cbn;
        try exact Hk.
      destruct (decide (s = k)) as [->|Hne];
        [rewrite lookup_insert_eq; eauto
        |rewrite lookup_insert_ne by exact Hne; exact Hk]. }
    split; [auto|]. split.
    + intros kvs' k Hin Hk. apply elem_of_cons in Hin as [Heq|Hin].
      * injection Heq as ->. rewrite Hid in Hk. injection Hk as ->.
        apply Hmono. subst acc1. cbn. rewrite lookup_insert_eq. eauto.
      * eapply Hall; eassumption.
    + intros k v Hk. apply Hfrom in Hk as [Hk|(kvs' & Hin & Hk1 & Hk2)].
      * destruct id; try contradiction; subst acc1; cbn in Hk; auto.
        destruct (decide (s = k)) as [->|Hne].
        -- rewrite lookup_insert_eq in Hk. injection Hk as ->.
           right. exists kvs. split; [apply elem_of_cons; now left|]. auto.
        -- rewrite lookup_insert_ne in Hk by exact Hne. auto.
      * right. exists kvs'. split; [apply elem_of_cons; now right|]. auto.
Qed.

Lemma locations_loop_spec server : forall id_batches i st st',
  locations_loop server i id_batches st = Done st' ->
  locations_sent st' = locations_sent st ++ map (join ",") id_batches /\
  (forall k, is_Some (locations_map st !! k) ->
     is_Some (locations_map st' !! k)) /\
  (forall j batch_ids body items kvs k,
     id_batches !! j = Some batch_ids ->
     server (i + j)%nat (join "," batch_ids) = Body body ->
     (py_get body "data" (JArr []) ≫= py_iter) = Ok items ->
     JObj kvs ∈ items -> assoc "id" kvs = Some (JStr k) ->
     is_Some (locations_map st' !! k)) /\
  (forall k v, locations_map st' !! k = Some v ->
     locations_map st !! k = Some v \/
     exists j batch_ids body items kvs,
       id_batches !! j = Some batch_ids /\
       server (i + j)%nat (join "," batch_ids) = Body body /\
       (py_get body "data" (JArr []) ≫= py_iter) = Ok items /\
       JObj kvs ∈ items /\ assoc "id" kvs = Some (JStr k) /\
       assoc "location" kvs = Some v).
Proof.
  induction id_batches as [|b rest IH]; intros i st st' H.
  - injection H as <-. cbn [map]. rewrite app_nil_r.
    split; [reflexivity|]. split; [auto|]. split; [|auto].
    intros j batch_ids body items kvs k Hj. discriminate.
  - cbn [locations_loop] in H.
    destruct (server i (join "," b)) as [|body] eqn:Hs.
    + apply IH in H as (Hsent & Hmono & Hall & Hfrom).
      cbn [locations_map locations_sent] in *.
      split; [rewrite Hsent, <- app_assoc; reflexivity|].
      split; [exact Hmono|]. split.
      * intros [|j] batch_ids body items kvs k Hj Hb.
        -- injection Hj as <-. rewrite Nat.add_0_r in Hb. congruence.
        -- replace (i + S j)%nat with (S i + j)%nat in Hb by lia.
           now apply (Hall j batch_ids body items kvs k).
      * intros k v Hk. apply Hfrom in Hk
          as [Hk|(j & batch_ids & body & items & kvs & Hj & Hb & Hrest)];
          [now left|].
        right. exists (S j), batch_ids, body, items, kvs.
        replace (i + S j)%nat with (S i + j)%nat by lia. auto.
    + destruct (read_locations body (locations_map st, locations_other st))
        as [acc|e] eqn:Hr; [|discriminate].
      apply IH in H as (Hsent & Hmono & Hall & Hfrom).
      cbn [locations_map locations_sent] in *.
      unfold read_locations in Hr.
      apply bind_Ok in Hr as (data & Hdata & Hr).
      apply bind_Ok in Hr as (items & Hitems & Hr).
      apply store_locations_spec in Hr as (Hm1 & Ha1 & Hf1).
      cbn [fst] in Hm1, Hf1.
      assert (Hbody : (py_get body "data" (JArr []) ≫= py_iter) = Ok items)
        by (rewrite Hdata; exact Hitems).
      split; [rewrite Hsent, <- app_assoc; reflexivity|].
      split; [auto|]. split.
      * intros [|j] batch_ids body' items' kvs k Hj Hb Hi Hin Hk.
        -- injection Hj as <-. rewrite Nat.add_0_r, Hs in Hb.
           injection Hb as <-. rewrite Hbody in Hi. injection Hi as <-.
           apply Hmono. eapply Ha1; eassumption.
        -- replace (i + S j)%nat with (S i + j)%nat in Hb by lia.
           now apply (Hall j batch_ids body' items' kvs k).
      * intros k v Hk. apply Hfrom in Hk
          as [Hk|(j & batch_ids & body' & items' & kvs & Hj & Hb & Hrest)].
        -- apply Hf1 in Hk as [Hk|(kvs & Hin & Hk1 & Hk2)]; [now left|].
           right. exists 0%nat, b, body, items, kvs.
           rewrite Nat.add_0_r. auto 10.
        -- right. exists (S j), batch_ids, body', items', kvs.
           replace (i + S j)%nat with (S i + j)%nat by lia. auto.
Qed.

(** X14. When the locations fetcher returns, it has sent one request per
    batch of 100 ids, in order, whatever failed. Every entry of an answered
    batch whose id is a string has a location in the map, whether or not
    the id was requested and whatever happened to the other batches, and
    every location in the map is the [location] of such an entry. *)
Theorem location_batches_are_independent server vehicle_ids st :
  get_vehicle_locations server vehicle_ids = Done st ->
  let id_batches := chunks 100 vehicle_ids in
  locations_sent st = map (join ",") id_batches /\
  (forall i batch_ids body items kvs k,
     id_batches !! i = Some batch_ids ->
     server i (join "," batch_ids) = Body body ->
     (py_get body "data" (JArr []) ≫= py_iter) = Ok items ->
     JObj kvs ∈ items -> assoc "id" kvs = Some (JStr k) ->
     is_Some (locations_map st !! k)) /\
  (forall k v, locations_map st !! k = Some v ->
     exists i batch_ids body items kvs,
       id_batches !! i = Some batch_ids /\
       server i (join "," batch_ids) = Body body /\
       (py_get body "data" (JArr []) ≫= py_iter) = Ok items /\
       JObj kvs ∈ items /\ assoc "id" kvs = Some (JStr k) /\
       assoc "location" kvs = Some v).
Proof.
  intros H id_batches. unfold get_vehicle_locations in H.
  apply locations_loop_spec in H as (Hsent & _ & Hall & Hfrom).
  cbn [locations_map locations_sent Nat.add app] in *.
  split; [exact Hsent|]. split; [exact Hall|].
  intros k v Hk. apply Hfrom in Hk as [Hk|Hk]; [|exact Hk].
  rewrite lookup_empty in Hk. discriminate.
Qed.

Lemma store_good_locations good : forall acc,
  forallb location_entry_ok good = true ->
  is_Ok (fold_result store_location acc good).
Proof.
  induction good as [|x good IH]; intros acc H; [now exists acc|].
  cbn [forallb] in H. apply andb_true_iff in H as [Hx H].
  cbn [fold_result].
  assert (is_Ok (store_location acc x)) as [acc' ->]; [|apply IH, H].
  unfold location_entry_ok in Hx. unfold store_location, py_subscript.
  destruct x as [ | | | | | |kvs]; try discriminate.
  destruct (assoc "location" kvs); [|discriminate].
  destruct (assoc "id" kvs) as [id|]; [|discriminate].
  destruct id; try discriminate; eexists; reflexivity.
Qed.

Lemma locations_loop_raises server body e :
  (forall acc, read_locations body acc = Raise e) ->
  forall id_batches i0 st i batch_ids,
    id_batches !! i = Some batch_ids ->
    (forall j b, (j < i)%nat -> id_batches !! j = Some b ->
       server (i0 + j)%nat (join "," b) = Failed) ->
    server (i0 + i)%nat (join "," batch_ids) = Body body ->
    returned locations_map (locations_loop server i0 id_batches st)
    = Raise e.
Proof.
  intros Hbody.
  induction id_batches as [|b rest IH]; intros i0 st i batch_ids Hi Hfail Hs.
  - discriminate.
  - cbn [locations_loop]. destruct i as [|i].
    + injection Hi as ->. rewrite Nat.add_0_r in Hs. rewrite Hs, Hbody.
      reflexivity.
    + pose proof (Hfail 0%nat b ltac:(lia) eq_refl) as H0.
      rewrite Nat.add_0_r in H0. rewrite H0.
      apply (IH (S i0) _ i batch_ids Hi).
      * intros j b' Hj Hb'.
        replace (S i0 + j)%nat with (i0 + S j)%nat by lia.
        apply Hfail; [lia | exact Hb'].
      * replace (S i0 + i)%nat with (i0 + S i)%nat by lia. exact Hs.
Qed.


(** ** The telemetry fetch *)

Lemma stats_done_map server vehicle_ids stat_types st :
  get_stats_for_multiple_vehicles server vehicle_ids stat_types = Done st ->
  fold_result merge_exchange (stats_map (stats_init vehicle_ids))
    (exchanges server 0 (chunks 100 vehicle_ids) (chunks 4 stat_types))
  = Ok (stats_map st).
Proof.
  intros H. unfold get_stats_for_multiple_vehicles in H.
  destruct (stats_ids_loop_spec server (chunks 4 stat_types)
              (chunks 100 vehicle_ids) 0 (stats_init vehicle_ids))
    as (Hr & _).
  cbv zeta in Hr. rewrite H in Hr. cbn [returned] in Hr. now rewrite <- Hr.
Qed.

Lemma stats_done_dom server vehicle_ids stat_types st :
  get_stats_for_multiple_vehicles server vehicle_ids stat_types = Done st ->
  dom (stats_map st) = list_to_set vehicle_ids.
Proof.
  intros H. apply stats_done_map in H. rewrite <- stats_init_dom.
  eapply (fold_result_inv
            (fun a => dom a = dom (stats_map (stats_init vehicle_ids))))
    in H; auto.
  intros a x a' Ha Hx. unfold merge_exchange in Hx.
  destruct (x.2); [injection Hx as <-; exact Ha|].
  apply merge_body_dom in Hx. congruence.
Qed.

Lemma warn_if_elem empty warning x :
  x ∈ warn_if empty warning -> x = warning /\ empty = true.
Proof.
  unfold warn_if. destruct empty; intros H.
  - apply list_elem_of_singleton in H. auto.
  - now apply not_elem_of_nil in H.
Qed.

Lemma stats_sent_length server vehicle_ids stat_types st :
  get_stats_for_multiple_vehicles server vehicle_ids stat_types = Done st ->
  length (stats_sent st)
  = length (exchanges server 0 (chunks 100 vehicle_ids)
              (chunks 4 stat_types)).
Proof.
  intros Hst. unfold get_stats_for_multiple_vehicles in Hst.
  destruct (stats_ids_loop_spec server (chunks 4 stat_types)
              (chunks 100 vehicle_ids) 0 (stats_init vehicle_ids))
    as (_ & _ & Hd).
  apply Hd in Hst as [-> _]. cbn [stats_init stats_sent app].
  apply length_map.
Qed.

Lemma maintenance_loop_sent server : forall fuel st r st',
  maintenance_loop server fuel st = Some (r, st') ->
  (length (maintenance_sent st) < length (maintenance_sent st')
   <= length (maintenance_sent st) + fuel)%nat.
Proof.
  induction fuel as [|fuel IH]; intros st r st' H; [discriminate|].
  cbn [maintenance_loop] in H. unfold maintenance_page in H.
  destruct (server _ _) as [|body].
  - injection H as <- <-. cbn. rewrite length_app. cbn. lia.
  - destruct (read_page _ _ _) as [[[m targets] cursor]|e].
    + destruct (negb (truthy cursor) || bool_decide (targets = ∅)).
      * injection H as <- <-. cbn. rewrite length_app. cbn. lia.
      * apply IH in H. cbn in H. rewrite length_app in H. cbn in H. lia.
    + injection H as <- <-. cbn. rewrite length_app. cbn. lia.
Qed.

(** X16. Whenever the telemetry fetch returns or raises, it has not shown
    the warning that no engine stats were obtained: the stats map has a key
    per requested id, so for a list of ids that is not empty it is never
    empty. With an empty list the fetch sends no request, warns that no ids
    were given and returns three empty maps. On a list that is not empty a
    returned stats map has exactly the requested ids as keys, the
    maintenance map only requested ids, there was one location request per
    batch of 100 ids, and the maintenance warning is shown exactly when the
    maintenance map is empty. *)
Theorem fetch_keys_and_warnings api fuel vehicle_ids_to_fetch r report :
  fetch_samsara_data_multiple_vehicles api fuel vehicle_ids_to_fetch
  = Some (r, report) ->
  (no_stats_warning ∉ fetch_warnings report) /\
  (vehicle_ids_to_fetch = [] ->
   location_requests report = [] /\ maintenance_requests report = [] /\
   stats_requests report = [] /\ fetch_warnings report = [no_ids_warning] /\
   exists data,
     r = Ok data /\ all_vehicle_locations data = ∅ /\
     all_vehicle_stats_map data = ∅ /\ all_vehicle_maintenance_map data = ∅) /\
  (forall data, r = Ok data -> vehicle_ids_to_fetch <> [] ->
     dom (all_vehicle_stats_map data) = list_to_set vehicle_ids_to_fetch /\
     dom (all_vehicle_maintenance_map data)
       ⊆ list_to_set vehicle_ids_to_fetch /\
     location_requests report
     = map (join ",") (chunks 100 vehicle_ids_to_fetch) /\
     (no_maintenance_warning ∈ fetch_warnings report <->
      all_vehicle_maintenance_map data = ∅)).
Proof.
  intros H. unfold fetch_samsara_data_multiple_vehicles in H.
  destruct vehicle_ids_to_fetch as [|v ids].
  { injection H as <- <-. cbn. split.
    - intros Hin. apply list_elem_of_singleton in Hin. discriminate.
    - split; [|intros data _ Hne; congruence].
      intros _. repeat (split; [reflexivity|]).
      eexists. split; [reflexivity|]. cbn. auto. }
  set (ids' := v :: ids) in *.
  assert (Hw1 : forall b, no_stats_warning ∉ warn_if b no_locations_warning).
  { intros b Hin. apply warn_if_elem in Hin as [Hin _]. discriminate. }
  assert (Hw2 : forall b, no_stats_warning ∉ warn_if b no_maintenance_warning).
  { intros b Hin. apply warn_if_elem in Hin as [Hin _]. discriminate. }
  destruct (get_vehicle_locations (locations_api api) ids')
    as [lst|e lst] eqn:Hl.
  2:{ injection H as <- <-. cbn. split; [apply not_elem_of_nil|].
      split; [discriminate|]. discriminate. }
  destruct (get_all_vehicle_maintenance_data _ _ _)
    as [[[m|e] mst]|] eqn:Hm; [| |discriminate].
  2:{ injection H as <- <-. cbn. split; [apply Hw1|].
      split; [discriminate|]. discriminate. }
  destruct (get_stats_for_multiple_vehicles _ _ _) as [sst|e sst] eqn:Hs.
  2:{ injection H as <- <-. cbn. split.
      - intros Hin. apply elem_of_app in Hin as [Hin|Hin];
          [now apply Hw1 in Hin | now apply Hw2 in Hin].
      - split; [discriminate|]. discriminate. }
  injection H as <- <-. cbn.
  pose proof (stats_done_dom _ _ _ _ Hs) as Hdom.
  split; [|split; [discriminate|]].
  - intros Hin. apply elem_of_app in Hin as [Hin|Hin].
    + apply elem_of_app in Hin as [Hin|Hin];
        [now apply Hw1 in Hin | now apply Hw2 in Hin].
    + apply warn_if_elem in Hin as [_ Hin].
      apply bool_decide_eq_true in Hin. rewrite Hin in Hdom.
      rewrite dom_empty_L in Hdom. unfold ids' in Hdom. set_solver.
  - intros data [= <-] _. cbn. split; [exact Hdom|]. split.
    + unfold get_all_vehicle_maintenance_data in Hm.
      destruct (maintenance_loop_inv _ _ _ _ _ _
                  (maintenance_init_inv ids') Hm)
        as [[-> _]|(_ & (Hu & _) & _)]; [rewrite dom_empty_L|]; set_solver.
    + split.
      * apply locations_loop_spec in Hl as (Hsent & _). exact Hsent.
      * split.
        -- intros Hin. apply elem_of_app in Hin as [Hin|Hin].
           ++ apply elem_of_app in Hin as [Hin|Hin].
              ** apply warn_if_elem in Hin as [Hin _]. discriminate.
              ** apply warn_if_elem in Hin as [_ Hin].
                 now apply bool_decide_eq_true in Hin.
           ++ apply warn_if_elem in Hin as [Hin _]. discriminate.
        -- intros ->. apply elem_of_app. left. apply elem_of_app. right.
           unfold warn_if. rewrite bool_decide_eq_true_2 by reflexivity.
           apply list_elem_of_singleton. reflexivity.
Qed.

(** X17. The single-vehicle fetch is the fetch of the list of that one
    id, without its warnings. When it returns the maps it has sent one
    location request, for that id, between one and [fuel] maintenance
    requests and one or two stats requests, and the stats map has that id
    as its only key. *)
Theorem single_vehicle_fetch_is_a_batch_of_one api fuel vehicle_id_to_fetch :
  fetch_samsara_data_single_vehicle api fuel vehicle_id_to_fetch
  = match
      fetch_samsara_data_multiple_vehicles api fuel [vehicle_id_to_fetch]
    with
    | Some (r, report) =>
        Some (r, {| location_requests := location_requests report;
                    maintenance_requests := maintenance_requests report;
                    stats_requests := stats_requests report;
                    fetch_warnings := [] |})
    | None => None
    end /\
  forall data report,
    fetch_samsara_data_single_vehicle api fuel vehicle_id_to_fetch
    = Some (Ok data, report) ->
    location_requests report = [vehicle_id_to_fetch] /\
    (1 <= length (maintenance_requests report) <= fuel)%nat /\
    (1 <= length (stats_requests report) <= 2)%nat /\
    dom (all_vehicle_stats_map data) = {[ vehicle_id_to_fetch ]}.
Proof.
  unfold fetch_samsara_data_single_vehicle,
    fetch_samsara_data_multiple_vehicles.
  split.
  - destruct (get_vehicle_locations _ _) as [lst|e lst]; [|reflexivity].
    destruct (get_all_vehicle_maintenance_data _ _ _)
      as [[[m|e] mst]|]; try reflexivity.
    destruct (get_stats_for_multiple_vehicles _ _ _); reflexivity.
  - intros data report H.
    destruct (get_vehicle_locations _ _) as [lst|e lst] eqn:Hl;
      [|discriminate].
    destruct (get_all_vehicle_maintenance_data _ _ _)
      as [[[m|e] mst]|] eqn:Hm; try discriminate.
    destruct (get_stats_for_multiple_vehicles _ _ _) as [sst|e sst] eqn:Hs;
      [|discriminate].
    injection H as <- <-. cbn.
    split; [apply locations_loop_spec in Hl as (Hsent & _); exact Hsent|].
    split.
    + unfold get_all_vehicle_maintenance_data in Hm.
      apply maintenance_loop_sent in Hm. cbn in Hm. lia.
    + rewrite (stats_sent_length _ _ _ _ Hs).
      destruct (exchanges_length (stats_api api)
                  (chunks 4 all_desired_stat_types)
                  (chunks 100 [vehicle_id_to_fetch]) 0) as [H1 H2].
      specialize (H2 ltac:(discriminate)).
      set (xs := exchanges _ _ _ _) in *. clearbody xs.
      cbn in H1, H2. split; [lia|].
      rewrite (stats_done_dom _ _ _ _ Hs). cbn. set_solver.
Qed.

(** ** The data load of a refresh *)

Lemma locations_all_failed server :
  (forall i ids, server i ids = Failed) ->
  forall id_batches i st,
    exists st',
      locations_loop server i id_batches st = Done st' /\
      locations_map st' = locations_map st /\
      locations_other st' = locations_other st.
Proof.
  intros Hf. induction id_batches as [|b rest IH]; intros i st.
  - exists st. auto.
  - cbn [locations_loop]. rewrite Hf.
    match goal with |- context [locations_loop _ _ _ ?s] =>
      destruct (IH (S i) s) as (st' & -> & Hm & Ho) end.
    exists st'. auto.
Qed.

Lemma stats_all_failed server vehicle_ids stat_types :
  (forall i j p, server i j p = Failed) ->
  exists st,
    get_stats_for_multiple_vehicles server vehicle_ids stat_types = Done st /\
    stats_map st = stats_map (stats_init vehicle_ids).
Proof.
  intros Hf. unfold get_stats_for_multiple_vehicles.
  destruct (stats_ids_loop_spec server (chunks 4 stat_types)
              (chunks 100 vehicle_ids) 0 (stats_init vehicle_ids))
    as (Hr & _).
  cbv zeta in Hr.
  assert (Hfold : fold_result merge_exchange
            (stats_map (stats_init vehicle_ids))
            (exchanges server 0 (chunks 100 vehicle_ids)
               (chunks 4 stat_types))
          = Ok (stats_map (stats_init vehicle_ids))).
  { clear Hr.
    pose proof (exchanges_from_server server (chunks 4 stat_types)
                  (chunks 100 vehicle_ids) 0) as Hx.
    generalize (stats_map (stats_init vehicle_ids)).
    induction Hx as [|x xs (i & j & Hx) _ IH]; intros m; [reflexivity|].
    cbn [fold_result].
    assert (merge_exchange m x = Ok m) as ->
      by (unfold merge_exchange; now rewrite Hx, Hf).
    apply IH. }
  rewrite Hfold in Hr.
  destruct (stats_ids_loop _ _ _ _ _) as [st|e st]; [|discriminate].
  exists st. split; [reflexivity|]. now injection Hr.
Qed.

Lemma stats_init_values vehicle_ids k v :
  stats_map (stats_init vehicle_ids) !! k = Some v -> v = ∅.
Proof.
  simpl. induction vehicle_ids as [|x l IH]; simpl.
  - rewrite lookup_empty. discriminate.
  - destruct (decide (x = k)) as [->|Hne].
    + rewrite lookup_insert_eq. now intros [= <-].
    + rewrite lookup_insert_ne by exact Hne. exact IH.
Qed.

Lemma process_without_telemetry kvs locs stats maint now :
  let id := py_str (default (JStr "") (assoc "id" kvs)) in
  locs !! id = None ->
  default ∅ (stats !! id) = ∅ ->
  maint !! id = None ->
  exists g,
    process_vehicle_data (JObj kvs) locs stats maint now = Ok g /\
    vehicle_id g = id /\
    Forall (fun field => field g = NA) dynamic_fields /\
    Forall (fun flag => flag g = JBool false) light_flags /\
    diagnostic_trouble_codes g = [] /\
    status_alert g = "OPERANDO NORMALMENTE" /\
    alert_color g = "green".
Proof.
  intros id Hl Hs Hm. unfold process_vehicle_data.
  cbn [py_get mbind result_bind]. fold id. rewrite Hl, Hs, Hm.
  cbn. eexists. split; [reflexivity|]. cbn.
  repeat split; repeat constructor.
Qed.

Lemma twin_keys_dicts kvss :
  mapM twin_key (map JObj kvss)
  = Ok (map (fun kvs => py_str (default (JStr "") (assoc "id" kvs))) kvss).
Proof.
  induction kvss as [|kvs kvss IH]; [reflexivity|].
  cbn [map mapM]. rewrite IH. reflexivity.
Qed.

(** X18. When the roster is fetched and every request for locations,
    maintenance and stats fails, the refresh still completes: it stores one
    twin per roster key, each with every dynamic field "N/A", the lights
    off, no trouble codes and the green status "OPERANDO NORMALMENTE", and
    it warns about the locations and the maintenance data only. *)
Theorem telemetry_outage_gives_default_twins roster_api api fuel clock s
    kvs kvss rst :
  get_all_vehicle_details_list roster_api fuel
  = Some (Ok (map JObj (kvs :: kvss)), rst) ->
  (forall i ids, locations_api api i ids = Failed) ->
  (forall page after, maintenance_api api page after = Failed) ->
  (forall i j p, stats_api api i j p = Failed) ->
  exists twins report,
    data_load roster_api api fuel clock s
    = Some (Loaded {| all_gemelos_digitales := twins;
                      all_vehicle_details := map JObj (kvs :: kvss);
                      initial_load_complete := true |} report) /\
    fetch_warnings report = [no_locations_warning; no_maintenance_warning] /\
    dom twins
    = list_to_set
        (map (fun kvs => py_str (default (JStr "") (assoc "id" kvs)))
           (kvs :: kvss)) /\
    forall k g, twins !! k = Some g ->
      vehicle_id g = k /\
      Forall (fun field => field g = NA) dynamic_fields /\
      Forall (fun flag => flag g = JBool false) light_flags /\
      diagnostic_trouble_codes g = [] /\
      status_alert g = "OPERANDO NORMALMENTE" /\
      alert_color g = "green".
Proof.
  intros Hroster Hl Hm Hs. unfold data_load. rewrite Hroster.
  cbn [map]. rewrite <- (map_cons JObj).
  rewrite vehicle_ids_dicts. cbn [map].
  assert (Hfuel : exists fuel', fuel = S fuel').
  { destruct fuel; [discriminate|]. eauto. }
  destruct Hfuel as [fuel' ->].
  unfold fetch_samsara_data_multiple_vehicles, get_vehicle_locations.
  match goal with |- context [locations_loop _ _ ?b ?s] =>
    destruct (locations_all_failed _ Hl b 0%nat s) as (lst & -> & Hlm & Hlo)
  end.
  cbn [locations_map locations_other] in Hlm, Hlo.
  unfold get_all_vehicle_maintenance_data.
  cbn [maintenance_loop]. unfold maintenance_page. rewrite Hm.
  match goal with |- context [get_stats_for_multiple_vehicles _ ?ids ?ts] =>
    destruct (stats_all_failed _ ids ts Hs) as (sst & -> & Hsm);
    set (vids := ids) in *
  end.
  cbn [all_vehicle_locations all_vehicle_stats_map
       all_vehicle_maintenance_map all_vehicle_details].
  rewrite Hlm, Hsm.
  assert (Hb : forall kvs' now,
    exists g,
      process_vehicle_data (JObj kvs') ∅ (stats_map (stats_init vids)) ∅ now
      = Ok g /\
      vehicle_id g = py_str (default (JStr "") (assoc "id" kvs')) /\
      Forall (fun field => field g = NA) dynamic_fields /\
      Forall (fun flag => flag g = JBool false) light_flags /\
      diagnostic_trouble_codes g = [] /\
      status_alert g = "OPERANDO NORMALMENTE" /\
      alert_color g = "green").
  { intros kvs' now. apply process_without_telemetry.
    - apply lookup_empty.
    - destruct (stats_map (stats_init vids) !! _) as [v|] eqn:E;
        [|reflexivity].
      apply stats_init_values in E. now subst v.
    - apply lookup_empty. }
  destruct (gemelos_loop_keys ∅ (stats_map (stats_init vids)) ∅ clock
              (map JObj (kvs :: kvss)) 0 ∅)
    as (twins & keys & Hbuild & Hkeys & Hdom & _).
  { intros j d Hj. apply list_lookup_fmap_Some in Hj as (kvs' & -> & _).
    destruct (Hb kvs' (clock (0 + j)%nat)) as (g & Hg & _). now exists g. }
  unfold build_gemelos_map. rewrite <- (map_cons JObj), Hbuild.
  exists twins. eexists. split; [reflexivity|].
  cbn [fetch_warnings]. split.
  { rewrite Hlo. unfold warn_if.
    rewrite !bool_decide_eq_true_2 by (split; reflexivity || reflexivity).
    rewrite bool_decide_eq_false_2; [reflexivity|].
    intros Hempty. apply (f_equal dom) in Hempty.
    rewrite stats_init_dom, dom_empty_L in Hempty. unfold vids in Hempty.
    cbn in Hempty. set_solver. }
  split.
  { rewrite Hdom, dom_empty_L, (left_id_L ∅ (∪)).
    rewrite twin_keys_dicts in Hkeys. injection Hkeys as <-. reflexivity. }
  intros k g Hk.
  apply (gemelos_loop_lookup _ _ _ _ _ _ _ _ Hbuild) in Hk
    as [(j & d & Hj & Hp & Hv & _)|[Hk _]];
    [|rewrite lookup_empty in Hk; discriminate].
  apply list_lookup_fmap_Some in Hj as (kvs' & -> & _).
  destruct (Hb kvs' (clock (0 + j)%nat)) as (g' & Hg' & Hrest).
  assert (g' = g) as -> by congruence.
  split; [exact Hv|]. tauto.
Qed.

(** X19. A refresh whose roster is empty, as when the first roster request
    fails, stops and leaves the session as it was. A refresh that completes
    replaces the session: the stored roster is the list that the roster
    fetcher returned, which may be the pages read before a failure, and the
    twins are those of that list only. A refresh that ends in an exception
    leaves the twins of the session as they were. *)
Theorem refresh_replaces_the_fleet roster_api api fuel clock s :
  (forall rst,
     get_all_vehicle_details_list roster_api fuel = Some (Ok [], rst) ->
     data_load roster_api api fuel clock s = Some (Stopped s)) /\
  ((0 < fuel)%nat -> roster_api 1%nat None = Failed ->
   data_load roster_api api fuel clock s = Some (Stopped s)) /\
  (forall s' report,
     data_load roster_api api fuel clock s = Some (Loaded s' report) ->
     exists rst keys,
       get_all_vehicle_details_list roster_api fuel
       = Some (Ok (all_vehicle_details s'), rst) /\
       all_vehicle_details s' <> [] /\
       initial_load_complete s' = true /\
       mapM twin_key (all_vehicle_details s') = Ok keys /\
       dom (all_gemelos_digitales s') = list_to_set keys) /\
  (forall e s' report,
     data_load roster_api api fuel clock s = Some (Failing e s' report) ->
     all_gemelos_digitales s' = all_gemelos_digitales s /\
     initial_load_complete s' = initial_load_complete s).
Proof.
  unfold data_load. split; [|split; [|split]].
  - intros rst ->. reflexivity.
  - intros Hfuel Hfail. destruct fuel as [|fuel]; [lia|].
    unfold get_all_vehicle_details_list. cbn [roster_loop].
    unfold roster_turn. cbn [roster_init roster_page roster_next_cursor
      truthy]. rewrite Hfail. reflexivity.
  - intros s' report H.
    destruct (get_all_vehicle_details_list roster_api fuel)
      as [[[roster|e] rst]|]; try discriminate.
    destruct roster as [|d roster]; [discriminate|].
    destruct (vehicle_ids (d :: roster)) as [ids|e]; [|discriminate].
    destruct (fetch_samsara_data_multiple_vehicles api fuel ids)
      as [[[data|e] rep]|]; try discriminate.
    cbn [all_vehicle_details] in H.
    destruct (build_gemelos_map _ _ _ _ _) as [twins|e] eqn:Hb;
      [|discriminate].
    injection H as <- <-. cbn.
    unfold build_gemelos_map in Hb.
    destruct (gemelos_loop_keys (all_vehicle_locations data)
                (all_vehicle_stats_map data)
                (all_vehicle_maintenance_map data) clock (d :: roster) 0 ∅
                (gemelos_loop_all_built _ _ _ _ _ _ _ _ Hb))
      as (twins' & keys & Hb' & Hk & Hd & _).
    assert (twins' = twins) as -> by congruence.
    exists rst, keys. split; [reflexivity|]. split; [discriminate|].
    split; [reflexivity|]. split; [exact Hk|].
    rewrite Hd, dom_empty_L. set_solver.
  - intros e s' report H.
    destruct (get_all_vehicle_details_list roster_api fuel)
      as [[[roster|e0] rst]|]; try discriminate.
    + destruct roster as [|d roster]; [discriminate|].
      destruct (vehicle_ids (d :: roster)) as [ids|e1].
      * destruct (fetch_samsara_data_multiple_vehicles api fuel ids)
          as [[[data|e2] rep]|]; try discriminate.
        -- destruct (build_gemelos_map _ _ _ _ _); [discriminate|].
           injection H as <- <- <-. auto.
        -- injection H as <- <- <-. auto.
      * injection H as <- <- <-. auto.
    + injection H as <- <- <-. auto.
Qed.


(** ** The 3D model of a vehicle *)

(** X21. For a twin whose model is a string the viewer always gets one of
    the files of [MODEL_MAP]: the file of the key that equals the model;
    else, when the lower-case model contains "cascadia" as [lower] gives
    it, the Cascadia file, whatever other keys it contains; else, when it
    contains the lower-case form of no key, "truck5.glb". A model that is a
    list or a dict raises [TypeError], any other model that is not a string
    [AttributeError]. *)
Theorem model_file_selection (py_lower : string -> string)
    (vehicle_model_name : json) :
  match vehicle_model_name with
  | JStr name =>
      exists path,
        model_path_to_display py_lower (JStr name) = Ok (Some path) /\
        path ∈ map snd MODEL_MAP /\
        (forall p, dict_get name MODEL_MAP = Some p -> path = p) /\
        (dict_get name MODEL_MAP = None ->
         py_in (py_lower "Cascadia") (py_lower name) = true ->
         path = "modelos_3d/CASCADIA.glb") /\
        (dict_get name MODEL_MAP = None ->
         Forall (fun kv => py_in (py_lower kv.1) (py_lower name) = false)
           MODEL_MAP ->
         path = "truck5.glb")
  | JArr _ | JObj _ =>
      model_path_to_display py_lower vehicle_model_name = Raise TypeError
  | _ =>
      model_path_to_display py_lower vehicle_model_name
      = Raise AttributeError
  end.
Proof.
  destruct vehicle_model_name as [ | | | |name| | ]; try reflexivity.
  unfold model_path_to_display.
  destruct (dict_get name MODEL_MAP) as [p|] eqn:Hexact.
  - assert (Hp : p ∈ map snd MODEL_MAP).
    { unfold dict_get, MODEL_MAP in Hexact. unfold MODEL_MAP. cbn [map snd].
      repeat (destruct (String.eqb name _);
              [injection Hexact as <-; set_solver|]).
      discriminate. }
    assert (Hne : String.eqb p "" = false).
    { unfold MODEL_MAP in Hp. cbn [map snd] in Hp.
      repeat (apply elem_of_cons in Hp as [->|Hp]; [reflexivity|]).
      now apply not_elem_of_nil in Hp. }
    cbn [no_path]. rewrite Hne. cbn [no_path]. rewrite Hne.
    exists p. split; [reflexivity|]. split; [exact Hp|].
    split; [now intros q [= <-]|]. split; discriminate.
  - unfold MODEL_MAP. cbn [no_path find fst snd map].
    destruct (py_in (py_lower "Cascadia") (py_lower name)) eqn:H1;
      [|destruct (py_in (py_lower "T680") (py_lower name)) eqn:H2;
        [|destruct (py_in (py_lower "VNL") (py_lower name)) eqn:H3;
          [|destruct (py_in (py_lower "default") (py_lower name)) eqn:H4]]];
      cbn [no_path snd String.eqb Ascii.eqb Bool.eqb dict_get default
           from_option id];
      (eexists; split; [reflexivity|]);
      (split; [set_solver|]);
      (split; [discriminate|]);
      (split; [intros _ Hc; (reflexivity || discriminate)|]);
      intros _ Hall;
      repeat (apply Forall_cons in Hall as [? Hall]); cbn [fst] in *;
      try congruence; reflexivity.
Qed.

Lemma match_items_spec items : forall (m : gmap string json) (t : gset string),
  forallb is_dict items = true ->
  exists m' t',
    fold_result match_item (m, t) items = Ok (m', t') /\
    t' = t ∖ list_to_set (map item_id items) /\
    dom m' = dom m ∪ (t ∩ list_to_set (map item_id items)) /\
    (forall k v, m' !! k = Some v ->
       m !! k = Some v \/ (v ∈ items /\ item_id v = k)).
Proof.
  induction items as [|x items IH]; intros m t H.
  - exists m, t. split; [reflexivity|]. cbn [map list_to_set].
    split; [set_solver|]. split; [set_solver|]. auto.
  - cbn [forallb] in H. apply andb_true_iff in H as [Hx H].
    destruct x as [ | | | | | |kvs]; try discriminate.
    cbn [fold_result]. set (id := item_id (JObj kvs)).
    destruct (decide (id ∈ t)) as [Hin|Hin];
      [rewrite match_item_hit by exact Hin
      |rewrite match_item_miss by exact Hin];
      cbn [mbind result_bind]; fold (item_id (JObj kvs)); fold id.
    + destruct (IH (<[id := JObj kvs]> m) (t ∖ {[id]}) H)
        as (m' & t' & Hf & Ht & Hd & Hl).
      exists m', t'. split; [exact Hf|]. cbn [map list_to_set]. fold id.
      split; [set_solver|]. split.
      * rewrite Hd, dom_insert_L. apply set_eq. intros k.
        destruct (decide (k = id)) as [->|Hne]; set_solver.
      * intros k v Hk. apply Hl in Hk as [Hk|[Hv Hid]].
        -- destruct (decide (id = k)) as [<-|Hne].
           ++ rewrite lookup_insert_eq in Hk. injection Hk as <-.
              right. split; [apply elem_of_cons; now left | reflexivity].
           ++ rewrite lookup_insert_ne in Hk by exact Hne. now left.
        -- right. split; [apply elem_of_cons; now right | exact Hid].
    + destruct (IH m t H) as (m' & t' & Hf & Ht & Hd & Hl).
      exists m', t'. split; [exact Hf|]. cbn [map list_to_set]. fold id.
      split; [set_solver|]. split; [set_solver|].
      intros k v Hk. apply Hl in Hk as [Hk|[Hv Hid]]; [now left|].
      right. split; [apply elem_of_cons; now right | exact Hid].
Qed.

Lemma read_page_spec items cursor (m : gmap string json) (t : gset string) :
  forallb is_dict items = true ->
  exists m' t',
    read_page (maintenance_body items cursor) m t = Ok (m', t', cursor) /\
    t' = t ∖ list_to_set (map item_id items) /\
    dom m' = dom m ∪ (t ∩ list_to_set (map item_id items)) /\
    (forall k v, m' !! k = Some v ->
       m !! k = Some v \/ (v ∈ items /\ item_id v = k)).
Proof.
  intros H. destruct (match_items_spec items m t H)
    as (m' & t' & Hf & Ht & Hd & Hl).
  exists m', t'. split; [|auto].
  unfold read_page, maintenance_body.
  cbn [py_get assoc String.eqb Ascii.eqb Bool.eqb default from_option id
       mbind result_bind].
  destruct items as [|x items].
  - cbn [truthy py_get assoc String.eqb Ascii.eqb Bool.eqb default
         from_option id mbind result_bind py_iter].
    cbn [fold_result] in Hf. injection Hf as <- <-. reflexivity.
  - cbn [truthy mbind result_bind py_iter]. rewrite Hf. reflexivity.
Qed.

Lemma seen_ids_snoc pages items cursor :
  seen_ids (pages ++ [(items, cursor)])
  = seen_ids pages ++ map item_id items.
Proof.
  unfold seen_ids. rewrite map_app, concat_app. cbn [map concat fst].
  now rewrite app_nil_r.
Qed.

Lemma unmatched_snoc target_vehicle_ids pages items cursor :
  unmatched target_vehicle_ids (pages ++ [(items, cursor)])
  = unmatched target_vehicle_ids pages ∖ list_to_set (map item_id items).
Proof.
  unfold unmatched. rewrite seen_ids_snoc, list_to_set_app_L. set_solver.
Qed.

Lemma serves_maintenance_prefix server pages x :
  serves_maintenance server (pages ++ [x]) -> serves_maintenance server pages.
Proof.
  intros H k items cursor Hk.
  pose proof (lookup_lt_Some _ _ _ Hk) as Hlt.
  rewrite <- (take_app_le pages [x] k) by lia.
  apply H. rewrite lookup_app_l by exact Hlt. exact Hk.
Qed.

(** The state of the loop after pages that all went on to the next one. *)
Lemma maintenance_after_pages server target_vehicle_ids pages :
  serves_maintenance server pages ->
  Forall (fun p => forallb is_dict p.1 = true) pages ->
  (forall k, (0 < k <= length pages)%nat ->
     truthy (last_cursor (take k pages)) = true /\
     unmatched target_vehicle_ids (take k pages) <> ∅) ->
  exists st,
    after_pages server (length pages) (maintenance_init target_vehicle_ids)
    = Some st /\
    page_count st = length pages /\
    next_cursor st = last_cursor pages /\
    target_id_set st = unmatched target_vehicle_ids pages /\
    dom (maintenance_map st)
    = list_to_set target_vehicle_ids ∩ list_to_set (seen_ids pages) /\
    (forall k v, maintenance_map st !! k = Some v ->
       item_id v = k /\ exists p, p ∈ pages /\ v ∈ p.1) /\
    maintenance_sent st
    = map (fun k => cursor_after (take k pages)) (seq 0 (length pages)) /\
    maintenance_log st = [].
Proof.
  induction pages as [|[items cursor] pages IH] using rev_ind;
    intros Hs Hd Hgo.
  - exists (maintenance_init target_vehicle_ids).
    split; [reflexivity|]. cbn. unfold unmatched, seen_ids. cbn.
    repeat split; try set_solver;
      intros k v Hk; rewrite lookup_empty in Hk; discriminate.
  - apply Forall_app in Hd as [Hd Hx]. apply Forall_cons in Hx as [Hx _].
    cbn [fst] in Hx.
    destruct IH as (st & Hafter & Hc & Hn & Ht & Hm & Hv & Hsent & Hlog).
    { eapply serves_maintenance_prefix, Hs. }
    { exact Hd. }
    { intros k Hk. rewrite length_app in Hgo. cbn [length] in Hgo.
      specialize (Hgo k ltac:(lia)).
      rewrite take_app_le in Hgo by lia. exact Hgo. }
    pose proof (Hs (length pages) items cursor) as Hserve.
    rewrite lookup_app_r, Nat.sub_diag in Hserve by lia.
    specialize (Hserve eq_refl).
    rewrite take_app_le, take_ge in Hserve by lia.
    destruct (read_page_spec items cursor (maintenance_map st)
                (target_id_set st) Hx) as (m' & t' & Hr & Ht' & Hd' & Hl').
    assert (Hparam : after_param st = cursor_after pages).
    { unfold after_param, cursor_after. now rewrite Hn. }
    rewrite <- Hc, <- Hparam in Hserve.
    pose proof (maintenance_page_Body _ _ _ _ _ _ Hserve Hr) as Hp.
    cbv zeta in Hp.
    specialize (Hgo (length (pages ++ [(items, cursor)]))).
    rewrite take_ge in Hgo by lia.
    destruct Hgo as [Hcur Hun].
    { rewrite length_app. cbn [length]. lia. }
    assert (Hlast : last_cursor (pages ++ [(items, cursor)]) = cursor).
    { unfold last_cursor. now rewrite last_snoc. }
    rewrite Hlast in Hcur. rewrite unmatched_snoc, <- Ht, <- Ht' in Hun.
    rewrite Hcur, bool_decide_false in Hp by exact Hun. cbn [negb orb] in Hp.
    eexists. split.
    { rewrite length_app. cbn [length].
      replace (length pages + 1)%nat with (S (length pages)) by lia.
      eapply after_pages_S; eassumption. }
    cbn [page_count next_cursor target_id_set maintenance_map
         maintenance_sent maintenance_log].
    rewrite length_app. cbn [length].
    split; [lia|]. split; [now rewrite Hlast|].
    split; [now rewrite unmatched_snoc, <- Ht|]. split.
    { rewrite Hd', Hm, Ht, seen_ids_snoc, list_to_set_app_L.
      unfold unmatched. apply set_eq. intros k.
      destruct (decide (k ∈ (list_to_set (seen_ids pages) : gset string)));
        set_solver. }
    split.
    { intros k v Hk. apply Hl' in Hk as [Hk|[Hin Hid]].
      - apply Hv in Hk as (Hid & p & Hp1 & Hp2).
        split; [exact Hid|]. exists p. split; [|exact Hp2].
        apply elem_of_app. now left.
      - split; [exact Hid|]. exists (items, cursor). split; [|exact Hin].
        apply elem_of_app. right. apply list_elem_of_singleton. reflexivity. }
    split; [|exact Hlog].
    replace (length pages + 1)%nat with (S (length pages)) by lia.
    rewrite seq_S, map_app. cbn [map Nat.add].
    rewrite Hsent, Hparam. f_equal.
    + apply map_ext_in. intros k Hk. apply in_seq in Hk.
      rewrite take_app_le by lia. reflexivity.
    + rewrite take_app_le, take_ge by lia. reflexivity.
Qed.

Lemma still_running_after_pages server target_vehicle_ids n st :
  after_pages server n (maintenance_init target_vehicle_ids) = Some st ->
  get_all_vehicle_maintenance_data server n target_vehicle_ids = None.
Proof.
  intros H. unfold get_all_vehicle_maintenance_data.
  replace n with (n + 0)%nat at 1 by lia.
  rewrite (maintenance_loop_after _ _ _ _ _ H). reflexivity.
Qed.


End Pipeline.

(** * The properties on the sample data *)

Lemma sample_twins_build i d :
  sample_roster !! i = Some d ->
  is_Ok (process_vehicle_data no_repr no_iso d sample_locations sample_stats
           sample_maintenance (sample_clock i)).
Proof.
  destruct i as [|[|i]]; simpl; intros [= <-]; eexists; vm_compute;
    reflexivity.
Qed.


(** C2: a location of vehicle 1 whose [reverseGeo] is null makes the twin
    builder raise, so that the refresh produces no mapping at all, although
    both vehicles are in the roster. *)
Lemma malformed_location_stops_the_refresh :
  let locs : gmap string json :=
    {[ "1" := JObj [("latitude", JInt 19); ("reverseGeo", JNull)] ]} in
  build_gemelos_map no_repr no_iso sample_roster locs sample_stats
    sample_maintenance sample_clock = Raise AttributeError /\
  ~ exists twins,
      build_gemelos_map no_repr no_iso sample_roster locs sample_stats
        sample_maintenance sample_clock = Ok twins /\
      dom twins = {[ "1"; "2" ]}.
Proof.
  intros locs.
  assert (H : build_gemelos_map no_repr no_iso sample_roster locs
                sample_stats sample_maintenance sample_clock
              = Raise AttributeError) by (vm_compute; reflexivity).
  split; [exact H|]. intros (twins & Hb & _). rewrite H in Hb. discriminate.
Qed.

(** C7 on vehicle 2. *)
Lemma absent_vehicle_is_unavailable_witness :
  exists g,
    process_vehicle_data no_repr no_iso sample_vehicle_2 sample_locations
      sample_stats sample_maintenance "now" = Ok g /\
    Forall (fun field => field g = NA) dynamic_fields /\
    status_alert g = "OPERANDO NORMALMENTE" /\
    alert_color g = "green".
Proof.
  destruct (absent_vehicle_is_unavailable no_repr no_iso sample_vehicle_2
              (JStr "2") sample_locations sample_stats sample_maintenance
              "now" eq_refl eq_refl eq_refl eq_refl)
    as (g & Hg & Hdyn & _ & _ & _ & _ & Hs & Hc).
  exists g. repeat split; assumption.
Defined.


(** C6: the RPM of vehicle 1, 1234.567, is stored as it is, although
    [round(1234.567, 2)] is 1234.57. *)
Lemma rpm_is_not_rounded :
  exists g,
    process_vehicle_data no_repr no_iso sample_vehicle_1 sample_locations
      sample_stats sample_maintenance "now" = Ok g /\
    engine_rpm g = JFloat (Float.of_decimal 1234567 3) /\
    py_round2 (JFloat (Float.of_decimal 1234567 3))
    = JFloat (Float.of_decimal 123457 2) /\
    engine_rpm g <> py_round2 (JFloat (Float.of_decimal 1234567 3)).
Proof.
  eexists. split; [vm_compute; reflexivity|].
  split; [vm_compute; reflexivity|].
  split; [vm_compute; reflexivity|].
  vm_compute. discriminate.
Qed.

Lemma oil_and_speed_rounded_rpm_unchanged_witness :
  exists g,
    process_vehicle_data no_repr no_iso sample_vehicle_1 sample_locations
      sample_stats sample_maintenance "now" = Ok g /\
    engine_oil_pressure_kpa g = JInt 300 /\
    engine_rpm g = JFloat sample_rpm /\
    speed_mph g = JInt 55.
Proof.
  eexists. split; [vm_compute; reflexivity|].
  match goal with |- context [engine_rpm ?g] =>
    destruct (oil_and_speed_rounded_rpm_unchanged no_repr no_iso
                sample_vehicle_1 sample_locations sample_stats
                sample_maintenance "now" g eq_refl)
      as (Ho & Hr & Hs & _)
  end.
  split; [exact Ho|]. split; [exact Hr|].
  vm_compute in Hs. destruct Hs as (speed & Hsp & Hs).
  injection Hsp as <-. exact Hs.
Defined.

(** C3: the status of vehicle 1 does not start with "ALERT:", and the code
    that the list holds twice is printed twice. *)
Lemma alert_prefix_and_repeated_code :
  exists g,
    process_vehicle_data no_repr no_iso sample_vehicle_1 sample_locations
      sample_stats sample_maintenance "now" = Ok g /\
    diagnostic_trouble_codes g = [sample_dtc; sample_dtc] /\
    status_alert g
    = "ALERTA: Fallas de motor (DTCs: SPN: 100 (FMI: 3); SPN: 100 (FMI: 3)); Luz de Check Engine ON (Detener (Stop))" /\
    String.prefix "ALERT:" (status_alert g) = false /\
    occurrences "SPN: 100 (FMI: 3)" (status_alert g) = 2%nat.
Proof.
  eexists. split; [vm_compute; reflexivity|].
  repeat split; vm_compute; reflexivity.
Qed.

Lemma dtc_alert_lists_every_code_witness :
  exists g,
    process_vehicle_data no_repr no_iso sample_vehicle_1 sample_locations
      sample_stats sample_maintenance "now" = Ok g /\
    status_alert g
    = "ALERTA: "
      +:+ join "; "
            ["Fallas de motor (DTCs: "
             +:+ join "; " ["SPN: 100 (FMI: 3)"; "SPN: 100 (FMI: 3)"] +:+ ")";
             "Luz de Check Engine ON (Detener (Stop))"] /\
    alert_color g = "red".
Proof.
  eexists. split; [vm_compute; reflexivity|].
  match goal with |- context [alert_color ?g] =>
    destruct (dtc_alert_lists_every_code no_repr no_iso
                sample_vehicle_1 sample_locations sample_stats
                sample_maintenance "now" g eq_refl)
      as (infos & Hi & Hs & Hc)
  end.
  - discriminate.
  - split; [|exact Hc]. vm_compute. reflexivity.
Defined.

(** C1: the request for the first stat-type batch of the only ID batch
    fails; the request for the second, which the server would answer with an
    oil pressure for vehicle 1, is never sent and the map stays empty. *)
Lemma second_type_batch_is_lost :
  let o :=
    get_stats_for_multiple_vehicles first_batch_fails ["1"]
      all_desired_stat_types in
  chunks 4 all_desired_stat_types
  = [["engineCoolantTemperatureMilliC"; "ambientAirTemperatureMilliC";
      "engineRpm"; "obdEngineSeconds"];
     ["engineOilPressureKPa"]] /\
  first_batch_fails 0%nat 1%nat (stats_request "1" ["engineOilPressureKPa"])
  = Body (oil_pressure_body (JStr "1")) /\
  merge_body ["engineOilPressureKPa"] {[ "1" := ∅ ]}
    (oil_pressure_body (JStr "1"))
  = Ok {[ "1" := {[ "engineOilPressureKPa" := JInt 300 ]} ]} /\
  returned stats_map o = Ok {[ "1" := ∅ ]} /\
  length (stats_sent (final o)) = 1%nat.
Proof. repeat split; vm_compute; reflexivity. Qed.

Lemma stats_id_batches_fail_independently_witness :
  exists st,
    get_stats_for_multiple_vehicles first_batch_fails ["1"]
      all_desired_stat_types = Done st /\
    length (stats_sent st) = 1%nat /\ length (stats_log st) = 1%nat.
Proof.
  eexists. split; [vm_compute; reflexivity|].
  match goal with |- context [stats_log ?st] =>
    destruct (stats_id_batches_fail_independently first_batch_fails ["1"]
                all_desired_stat_types) as (_ & _ & H);
    destruct (H st eq_refl) as [Hs Hl]
  end.
  rewrite Hs, Hl. split; vm_compute; reflexivity.
Defined.

(** C9 on a server that answers every request. *)
Lemma stats_map_keys_are_requested_ids_witness :
  exists m,
    returned stats_map
      (get_stats_for_multiple_vehicles string_id_stats ["1"; "2"]
         all_desired_stat_types) = Ok m /\
    dom m = {[ "1"; "2" ]}.
Proof.
  destruct (stats_map_keys_are_requested_ids string_id_stats ["1"; "2"]
              all_desired_stat_types) as (Hdom & Hok & _).
  destruct Hok as [m Hm].
  { intros i j p body [= <-]. reflexivity. }
  exists m. split; [exact Hm|].
  rewrite (Hdom m Hm). vm_compute. reflexivity.
Defined.

(** C4 on the server whose second page fails. *)
Lemma failed_page_empties_maintenance_witness :
  exists st,
    get_all_vehicle_maintenance_data no_repr second_page_fails 5 ["1"; "2"]
    = Some (Ok ∅, st) /\
    length (maintenance_sent st) = 2%nat.
Proof.
  pose (st1 := {| page_count := 1; next_cursor := JStr "c1";
                  maintenance_map := {[ "1" := sample_item_1 ]};
                  target_id_set := {[ "2" ]};
                  maintenance_sent := [None];
                  maintenance_log := [] |}).
  assert (Hafter : after_pages no_repr second_page_fails 1
                     (maintenance_init ["1"; "2"]) = Some st1)
    by (vm_compute; reflexivity).
  destruct (failed_page_empties_maintenance no_repr second_page_fails
              ["1"; "2"] 1 st1 Hafter eq_refl 5%nat)
    as (st & Hst & _ & Hlen); [lia|].
  exists st. split; assumption.
Defined.


(** C10: a stats response that gives the id of vehicle 1 as a number is
    dropped, although the id has the string form under which the vehicle was
    requested; given as a string the same response is merged. *)
Lemma stats_do_not_join_a_numeric_id :
  py_str no_repr (JInt 1) = "1" /\
  vehicle_ids no_repr [sample_vehicle_1] = Ok ["1"] /\
  returned stats_map
    (get_stats_for_multiple_vehicles numeric_id_stats ["1"]
       ["engineOilPressureKPa"])
  = Ok {[ "1" := ∅ ]} /\
  returned stats_map
    (get_stats_for_multiple_vehicles string_id_stats ["1"]
       ["engineOilPressureKPa"])
  = Ok {[ "1" := {[ "engineOilPressureKPa" := JInt 300 ]} ]} /\
  exists g,
    process_vehicle_data no_repr no_iso sample_vehicle_1 ∅ {[ "1" := ∅ ]} ∅
      "now" = Ok g /\
    engine_oil_pressure_kpa g = NA.
Proof.
  repeat split; try (vm_compute; reflexivity).
  eexists. split; vm_compute; reflexivity.
Qed.

Lemma roster_and_maintenance_join_on_str_id_witness :
  vehicle_ids no_repr [sample_vehicle_1] = Ok ["1"] /\
  exists st,
    get_all_vehicle_maintenance_data no_repr
      (fun _ _ => Body (maintenance_body
                          [JObj [("id", JStr "1"); ("j1939", JNull)]] JNull))
      1 ["1"]
    = Some (Ok {[ "1" := JObj [("id", JStr "1"); ("j1939", JNull)] ]}, st).
Proof.
  destruct (roster_and_maintenance_join_on_str_id no_repr no_iso)
    as (_ & _ & _ & _ & H).
  destruct (H (fun _ _ => Body (maintenance_body
                          [JObj [("id", JStr "1"); ("j1939", JNull)]] JNull))
              [("id", JInt 1); ("name", JStr "T-1"); ("make", JStr "Kenworth")]
              [("id", JStr "1"); ("j1939", JNull)]
              (JInt 1) (JStr "1") JNull eq_refl eq_refl eq_refl eq_refl)
    as (Hv & Hf).
  split; [exact Hv|].
  destruct (Hf 1%nat (le_n 1)) as (st & Hst & _).
  exists st. exact Hst.
Defined.

(** * The further properties on the sample data *)

Lemma chunks_partition_witness :
  concat (chunks 2 [1; 2; 3]%nat) = [1; 2; 3]%nat /\
  chunks 2 [1; 2; 3]%nat = [[1; 2]; [3]]%nat.
Proof.
  destruct (chunks_partition 2 [1; 2; 3]%nat) as (Hc & _); [lia|].
  split; [exact Hc | reflexivity].
Defined.

Lemma stats_request_count_witness :
  exists st,
    get_stats_for_multiple_vehicles first_batch_fails ["1"]
      all_desired_stat_types = Done st /\
    (length (stats_sent st) <= 1 * 2)%nat.
Proof.
  eexists. split; [vm_compute; reflexivity|].
  match goal with |- context [stats_sent ?st] =>
    destruct (stats_request_count first_batch_fails ["1"]
                all_desired_stat_types st eq_refl) as (H & _)
  end.
  exact H.
Defined.

Lemma merge_item_lookup_witness :
  exists m',
    merge_item ["engineOilPressureKPa"] {[ "1" := ∅ ]}
      (JObj [("id", JStr "1");
             ("engineOilPressureKPa", JObj [("value", JInt 300)])])
    = Ok m' /\
    exists inner,
      m' !! "1" = Some inner /\
      inner !! "engineOilPressureKPa" = Some (JInt 300).
Proof.
  pose proof (merge_item_lookup no_repr no_iso ["engineOilPressureKPa"]
                {[ "1" := ∅ ]}
                [("id", JStr "1");
                 ("engineOilPressureKPa", JObj [("value", JInt 300)])])
    as H.
  cbn [default from_option id assoc String.eqb Ascii.eqb Bool.eqb] in H.
  rewrite lookup_singleton_eq in H.
  destruct H as (m' & inner' & Hm & Hl & _ & Ht).
  exists m'. split; [exact Hm|]. exists inner'. split; [exact Hl|].
  rewrite Ht. reflexivity.
Defined.

Lemma maintenance_result_is_keyed_by_targets_witness :
  exists m st,
    get_all_vehicle_maintenance_data no_repr two_pages 5 ["1"; "2"]
    = Some (Ok m, st) /\
    dom m ⊆ list_to_set ["1"; "2"].
Proof.
  eexists. eexists. split; [vm_compute; reflexivity|].
  match goal with |- dom ?m ⊆ _ =>
    match type of m with _ => idtac end;
    edestruct (maintenance_result_is_keyed_by_targets no_repr no_iso
                 two_pages 5 ["1"; "2"] m) as (H & _);
      [vm_compute; reflexivity | exact H]
  end.
Defined.

Lemma matched_records_are_kept_witness :
  exists m st,
    get_all_vehicle_maintenance_data no_repr two_pages 5 ["1"; "2"]
    = Some (Ok m, st) /\
    {[ "1" := sample_item_1 ]} ⊆ m.
Proof.
  pose (st1 := {| page_count := 1; next_cursor := JStr "c1";
                  maintenance_map := {[ "1" := sample_item_1 ]};
                  target_id_set := {[ "2" ]};
                  maintenance_sent := [None];
                  maintenance_log := [] |}).
  assert (Hafter : after_pages no_repr two_pages 1
                     (maintenance_init ["1"; "2"]) = Some st1)
    by (vm_compute; reflexivity).
  eexists. eexists. split; [vm_compute; reflexivity|].
  match goal with |- _ ⊆ ?m =>
    eapply (matched_records_are_kept no_repr no_iso two_pages ["1"; "2"] 1
              st1 5 m _ Hafter); vm_compute; reflexivity
  end.
Defined.

Lemma endless_cursors_never_return_witness :
  get_all_vehicle_maintenance_data no_repr endless_pages 50 ["1"] = None.
Proof.
  apply (endless_cursors_never_return no_repr no_iso endless_pages ["1"]).
  - discriminate.
  - intros page after. exists [], (JStr "c").
    split; [reflexivity|]. split; [reflexivity | constructor].
Defined.

Lemma empty_target_list_takes_one_request_witness :
  exists r st,
    get_all_vehicle_maintenance_data no_repr two_pages 5 [] = Some (r, st) /\
    length (maintenance_sent st) = 1%nat.
Proof.
  destruct (empty_target_list_takes_one_request no_repr no_iso two_pages 5)
    as (r & st & Hr & Hs & _); [lia|].
  exists r, st. split; assumption.
Defined.


Lemma malformed_payload_raises_attribute_error_witness :
  process_vehicle_data no_repr no_iso sample_vehicle_1
    {[ "1" := JObj [("latitude", JInt 19); ("reverseGeo", JNull)] ]} ∅ ∅
    "now"
  = Raise AttributeError /\
  process_vehicle_data no_repr no_iso sample_vehicle_1 ∅ ∅
    {[ "1" := JObj [("id", JInt 1);
                    ("j1939", JObj [("checkEngineLight", JNull)])] ]}
    "now"
  = Raise AttributeError.
Proof.
  split.
  - destruct (malformed_payload_raises_attribute_error no_repr no_iso
                [("id", JInt 1); ("name", JStr "T-1");
                 ("make", JStr "Kenworth")]
                {[ "1" := JObj [("latitude", JInt 19);
                                ("reverseGeo", JNull)] ]}
                ∅ ∅ "now") as [H _].
    apply H. vm_compute. reflexivity.
  - destruct (malformed_payload_raises_attribute_error no_repr no_iso
                [("id", JInt 1); ("name", JStr "T-1");
                 ("make", JStr "Kenworth")]
                ∅ ∅
                {[ "1" := JObj [("id", JInt 1);
                                ("j1939",
                                 JObj [("checkEngineLight", JNull)])] ]}
                "now") as [_ H].
    destruct H as [H _]; [vm_compute; reflexivity ..|].
    apply H. vm_compute. reflexivity.
Defined.

Lemma record_without_j1939_gives_default_lights_witness :
  exists g,
    process_vehicle_data no_repr no_iso sample_vehicle_2 ∅ ∅
      {[ "2" := sample_item_2 ]} "now" = Ok g /\
    diagnostic_trouble_codes g = [] /\ alert_color g = "green".
Proof.
  eexists. split; [vm_compute; reflexivity|].
  match goal with |- diagnostic_trouble_codes ?g = _ /\ _ =>
    destruct (record_without_j1939_gives_default_lights no_repr no_iso
                [("id", JStr "2"); ("name", JStr "T-2")] ∅ ∅
                {[ "2" := sample_item_2 ]} "now"
                [("id", JStr "2"); ("j1939", JNull)] g)
      as (_ & Hd & _ & Hc)
  end.
  - vm_compute. reflexivity.
  - reflexivity.
  - vm_compute. reflexivity.
  - split; assumption.
Defined.

Lemma last_roster_entry_with_a_key_wins_witness :
  exists twins g,
    build_gemelos_map no_repr no_iso roster_with_a_repeated_key ∅ ∅ ∅
      sample_clock = Ok twins /\
    twins !! "1" = Some g /\ vehicle_name g = JStr "B" /\
    (size twins <= 2)%nat.
Proof.
  eexists. eexists. split; [vm_compute; reflexivity|].
  match goal with |- ?twins !! _ = Some ?g /\ _ =>
    destruct (last_roster_entry_with_a_key_wins no_repr no_iso
                roster_with_a_repeated_key ∅ ∅ ∅ sample_clock twins)
      as (_ & Hlook & Hsize); [vm_compute; reflexivity|]
  end.
  split; [|split; [|exact Hsize]].
  - apply Hlook.
    exists 1%nat, (JObj [("id", JStr "1"); ("name", JStr "B")]).
    split; [reflexivity|]. split; [vm_compute; reflexivity|].
    split; [reflexivity|].
    intros [|[|j]] d' Hlt Hj; [lia | lia | discriminate].
  - reflexivity.
Defined.

Lemma roster_is_the_pages_read_so_far_witness :
  exists st,
    get_all_vehicle_details_list second_roster_page_fails 5
    = Some (Ok [sample_vehicle_1], st) /\
    roster_sent st = [None; Some (JStr "r1")] /\
    roster_log st = [roster_error_log].
Proof.
  destruct (roster_is_the_pages_read_so_far second_roster_page_fails
              [([sample_vehicle_1], JStr "r1")] 5) as [Hfail _].
  - intros [|k] items cursor Hk; [|discriminate].
    injection Hk as <- <-. split; reflexivity.
  - simpl. lia.
  - destruct (Hfail eq_refl) as (st & Hst & Hsent & Hlog).
    exists st. split; [exact Hst|]. split; [exact Hsent | exact Hlog].
Defined.

Lemma roster_fetch_never_raises_request_exception_witness :
  exists st,
    get_all_vehicle_details_list second_roster_page_fails 5
    = Some (Ok [sample_vehicle_1], st) /\
    (length (roster_log st) <= 1)%nat.
Proof.
  eexists. split; [vm_compute; reflexivity|].
  match goal with |- context [roster_log ?st] =>
    destruct (roster_fetch_never_raises_request_exception
                second_roster_page_fails 5 (Ok [sample_vehicle_1]) st
                eq_refl) as (_ & H & _)
  end.
  exact H.
Defined.

Lemma location_batches_are_independent_witness :
  exists st,
    get_vehicle_locations locations_of_vehicle_1 ["1"; "2"] = Done st /\
    locations_sent st = ["1,2"] /\
    is_Some (locations_map st !! "1").
Proof.
  eexists. split; [vm_compute; reflexivity|].
  match goal with |- locations_sent ?st = _ /\ _ =>
    destruct (location_batches_are_independent locations_of_vehicle_1
                ["1"; "2"] st eq_refl) as (Hsent & Hall & _)
  end.
  split; [exact Hsent|].
  eapply (Hall 0%nat ["1"; "2"] _
           [JObj [("id", JStr "1"); ("location", sample_location_1)]]
           [("id", JStr "1"); ("location", sample_location_1)] "1");
    try reflexivity.
  apply elem_of_cons. now left.
Defined.


Lemma fetch_keys_and_warnings_witness :
  exists data report,
    fetch_samsara_data_multiple_vehicles no_repr telemetry_up 5 ["1"; "2"]
    = Some (Ok data, report) /\
    dom (all_vehicle_stats_map data) = {[ "1"; "2" ]} /\
    no_stats_warning ∉ fetch_warnings report.
Proof.
  eexists. eexists. split; [vm_compute; reflexivity|].
  match goal with |- dom (all_vehicle_stats_map ?data) = _ /\ _ ∉ fetch_warnings ?report =>
    destruct (fetch_keys_and_warnings no_repr no_iso telemetry_up 5
                ["1"; "2"] (Ok data) report)
      as (Hw & _ & Hk); [vm_compute; reflexivity|];
    destruct (Hk data eq_refl) as (Hd & _); [discriminate|]
  end.
  split; [|exact Hw]. rewrite Hd. vm_compute. reflexivity.
Defined.

Lemma single_vehicle_fetch_is_a_batch_of_one_witness :
  exists data report,
    fetch_samsara_data_single_vehicle no_repr telemetry_up 5 "1"
    = Some (Ok data, report) /\
    location_requests report = ["1"].
Proof.
  eexists. eexists. split; [vm_compute; reflexivity|].
  match goal with |- location_requests ?report = _ =>
    destruct (single_vehicle_fetch_is_a_batch_of_one no_repr no_iso
                telemetry_up 5 "1") as [_ H];
    match type of H with
    | forall data rep, ?lhs = _ -> _ =>
        let v := eval vm_compute in lhs in
        match v with
        | Some (Ok ?data, _) =>
            destruct (H data report) as (Hl & _);
              [vm_compute; reflexivity | exact Hl]
        end
    end
  end.
Defined.

Lemma telemetry_outage_gives_default_twins_witness :
  exists twins report,
    data_load no_repr no_iso one_page_roster telemetry_down 3 sample_clock
      session_init
    = Some (Loaded {| all_gemelos_digitales := twins;
                      all_vehicle_details := sample_roster;
                      initial_load_complete := true |} report) /\
    dom twins = {[ "1"; "2" ]}.
Proof.
  assert (Hroster : exists rst,
            get_all_vehicle_details_list one_page_roster 3
            = Some (Ok sample_roster, rst))
    by (eexists; vm_compute; reflexivity).
  destruct Hroster as [rst Hroster].
  destruct (telemetry_outage_gives_default_twins no_repr no_iso
              one_page_roster telemetry_down 3 sample_clock session_init
              [("id", JInt 1); ("name", JStr "T-1"); ("make", JStr "Kenworth")]
              [[("id", JStr "2"); ("name", JStr "T-2")]] rst Hroster
              (fun _ _ => eq_refl) (fun _ _ => eq_refl)
              (fun _ _ _ => eq_refl))
    as (twins & report & Hload & _ & Hdom & _).
  exists twins, report. split; [exact Hload|].
  rewrite Hdom. vm_compute. reflexivity.
Defined.

Lemma refresh_replaces_the_fleet_witness :
  data_load no_repr no_iso (fun _ _ => Failed) telemetry_up 3 sample_clock
    session_init
  = Some (Stopped session_init).
Proof.
  destruct (refresh_replaces_the_fleet no_repr no_iso (fun _ _ => Failed)
              telemetry_up 3 sample_clock session_init) as (_ & H & _).
  apply H; [lia | reflexivity].
Defined.


Lemma model_file_selection_witness :
  model_path_to_display (fun s => s) (JStr "Cascadia")
  = Ok (Some "modelos_3d/CASCADIA.glb") /\
  model_path_to_display (fun s => s) (JStr "Freightliner Cascadia 126")
  = Ok (Some "modelos_3d/CASCADIA.glb") /\
  model_path_to_display (fun s => s) JNull = Raise AttributeError.
Proof.
  split; [|split].
  - destruct (model_file_selection no_iso (fun s => s) (JStr "Cascadia"))
      as (path & Hp & _ & Hexact & _).
    rewrite Hp, (Hexact _ eq_refl). reflexivity.
  - destruct (model_file_selection no_iso (fun s => s)
                (JStr "Freightliner Cascadia 126"))
      as (path & Hp & _ & _ & Hkey & _).
    rewrite Hp, Hkey; reflexivity.
  - exact (model_file_selection no_iso (fun s => s) JNull).
Defined.

Lemma gemelos_map_of_well_shaped_payloads_witness :
  exists twins,
    build_gemelos_map no_repr no_iso sample_roster
      {[ "1" := sample_location_1 ]} {[ "1" := {[ "engineRpm" := JInt 900 ]} ]}
      {[ "1" := sample_item_1 ]} sample_clock = Ok twins /\
    dom twins = {[ "1"; "2" ]}.
Proof.
  destruct (gemelos_map_of_well_shaped_payloads no_repr no_iso
              [[("id", JInt 1); ("name", JStr "T-1"); ("make", JStr "Kenworth")];
               [("id", JStr "2"); ("name", JStr "T-2")]]
              {[ "1" := sample_location_1 ]}
              {[ "1" := {[ "engineRpm" := JInt 900 ]} ]}
              {[ "1" := sample_item_1 ]} sample_clock)
    as (twins & Hb & Hd).
  - intros k v H. apply lookup_singleton_Some in H as [_ <-]. reflexivity.
  - intros k v H. apply lookup_singleton_Some in H as [_ <-].
    vm_compute. reflexivity.
  - intros k v H. apply lookup_singleton_Some in H as [_ <-]. reflexivity.
  - exists twins. split; [exact Hb|]. rewrite Hd. vm_compute. reflexivity.
Defined.
